(** * Freelance-Finance: the dashboard's computations, embedded and verified

    The development follows the single script of the repository (the file
    that imports [./firebaseConfig.js]): its date helpers, the bucketing of
    [processChartData], the figures of [updateGlobalSummary], the page count
    of [updateTotalPages], the request logic of [generateAISummary], the
    paging of the list of transactions ([fetchTransactionsForPage], the two
    page buttons, [deleteTransaction]), the window of [fetchChartData] and
    the guard and the preset periods of [updateChart].

    Conventions of the embedding.
    - A JavaScript [Date] is its time value, the number of milliseconds
      since the epoch, in [Z]; the invalid date is [None] where it can
      arise.  The UTC getters and setters are the ECMAScript abstract
      operations ([Day], [YearFromTime], [MakeDay], ...).  Every date met
      here has a year of at most six digits, inside the range in which
      [TimeClip] is the identity, so it is left out.
    - Money is a JavaScript number; amounts are taken as exact rationals
      ([Qc]), so the rounding of binary floating point is not modelled.
    - [groupedData], whose keys are sorted before use, is a [gmap];
      [expenseBreakdown], whose key order is observable, is an association
      list with the order of [Object.keys].  Only own properties are
      modelled; the names that an object inherits from [Object.prototype]
      are listed in [prototypeNames], and a statement that reads the
      breakdown assumes that no category is one of them
      ([categoriesAreOwnKeys]).
    - The [while] loop that seeds the buckets runs on fuel; the fuel given
      by [processChartData] is shown to be enough
      ([Seeding.seedBuckets_fuel_enough]).
    - The DOM, the database, the charting library, the locale formatting
      and the HTTP endpoint are outside the script: what they return is an
      input of the model.
    - An [async] function is cut at its [await]: [fetchBegin] runs up to
      the call of [getDocs] and [fetchSettle] from its answer on, so that a
      click between the two can be stated; the other handlers are run to
      their end.
    - Local time is UTC plus the offset [LocalTZA] that the host gives. *)

From Stdlib Require Import ZArith QArith Qcanon Qround Lia Lqa.
From Stdlib Require Import Strings.String Strings.Ascii.
From Stdlib Require Import Structures.OrdersEx.
From stdpp Require Import base list gmap strings sorting pretty.

Local Open Scope Z_scope.

(** ** ECMAScript time values *)

Module JSDate.

Definition msPerDay : Z := 86400000.

Definition Day (t : Z) : Z := t / msPerDay.
Definition TimeWithinDay (t : Z) : Z := t mod msPerDay.

Definition DaysInYear (y : Z) : Z :=
  if negb (y mod 4 =? 0) then 365
  else if negb (y mod 100 =? 0) then 366
  else if negb (y mod 400 =? 0) then 365
  else 366.

Definition DayFromYear (y : Z) : Z :=
  365 * (y - 1970) + (y - 1969) / 4 - (y - 1901) / 100 + (y - 1601) / 400.

(** [YearFromTime t] is the largest [y] with [DayFromYear y <= Day t]: an
    estimate from the mean length of a year, then one step either way. *)
Definition YearFromDay (d : Z) : Z :=
  let y := 1970 + (400 * d) / 146097 in
  if d <? DayFromYear y then y - 1
  else if DayFromYear (y + 1) <=? d then y + 1
  else y.

Definition YearFromTime (t : Z) : Z := YearFromDay (Day t).

Definition InLeapYear (t : Z) : Z :=
  if DaysInYear (YearFromTime t) =? 366 then 1 else 0.

Definition DayWithinYear (t : Z) : Z := Day t - DayFromYear (YearFromTime t).

(** Days before the first of month [m] (0-based) in a year with leap flag
    [leap]. *)
Definition DaysBeforeMonth (m leap : Z) : Z :=
  if m =? 0 then 0
  else if m =? 1 then 31
  else if m =? 2 then 59 + leap
  else if m =? 3 then 90 + leap
  else if m =? 4 then 120 + leap
  else if m =? 5 then 151 + leap
  else if m =? 6 then 181 + leap
  else if m =? 7 then 212 + leap
  else if m =? 8 then 243 + leap
  else if m =? 9 then 273 + leap
  else if m =? 10 then 304 + leap
  else 334 + leap.

Definition MonthFromTime (t : Z) : Z :=
  let d := DayWithinYear t in
  let leap := InLeapYear t in
  if d <? 31 then 0
  else if d <? 59 + leap then 1
  else if d <? 90 + leap then 2
  else if d <? 120 + leap then 3
  else if d <? 151 + leap then 4
  else if d <? 181 + leap then 5
  else if d <? 212 + leap then 6
  else if d <? 243 + leap then 7
  else if d <? 273 + leap then 8
  else if d <? 304 + leap then 9
  else if d <? 334 + leap then 10
  else 11.

Definition DateFromTime (t : Z) : Z :=
  DayWithinYear t - DaysBeforeMonth (MonthFromTime t) (InLeapYear t) + 1.

Definition WeekDay (t : Z) : Z := (Day t + 4) mod 7.

(** [MakeDay year month date]: the month may be outside 0..11 and carries
    into the year; the date may be outside the month and carries as days. *)
Definition MakeDay (year month date : Z) : Z :=
  let ym := year + month / 12 in
  let mn := month mod 12 in
  let leap := if DaysInYear ym =? 366 then 1 else 0 in
  DayFromYear ym + DaysBeforeMonth mn leap + date - 1.

Definition MakeDate (day time : Z) : Z := day * msPerDay + time.

(** The methods of [Date.prototype] the script calls. *)
Definition getUTCFullYear := YearFromTime.
Definition getUTCMonth := MonthFromTime.
Definition getUTCDate := DateFromTime.
Definition getUTCDay := WeekDay.

Definition setUTCDate (t dt : Z) : Z :=
  MakeDate (MakeDay (YearFromTime t) (MonthFromTime t) dt) (TimeWithinDay t).

Definition setUTCMonth (t m : Z) : Z :=
  MakeDate (MakeDay (YearFromTime t) m (DateFromTime t)) (TimeWithinDay t).

Definition setUTCFullYear (t y : Z) : Z :=
  MakeDate (MakeDay y (MonthFromTime t) (DateFromTime t)) (TimeWithinDay t).

(** [Date.UTC(year, month, date)]: a year in 0..99 means 1900 + year. *)
Definition UTC (year month date : Z) : Z :=
  let yr := if (0 <=? year) && (year <=? 99) then 1900 + year else year in
  MakeDate (MakeDay yr month date) 0.

End JSDate.

Import JSDate.

(** ** Date strings *)

Module ISO.

Definition digit (n : Z) : ascii :=
  match n mod 10 with
  | 0 => "0" | 1 => "1" | 2 => "2" | 3 => "3" | 4 => "4"
  | 5 => "5" | 6 => "6" | 7 => "7" | 8 => "8" | _ => "9"
  end%char.

Definition pad2 (n : Z) : string :=
  String (digit (n / 10)) (String (digit n) EmptyString).

Definition pad4 (n : Z) : string :=
  String (digit (n / 1000)) (String (digit (n / 100)) (pad2 n)).

Definition pad6 (n : Z) : string :=
  String (digit (n / 100000)) (String (digit (n / 10000)) (pad4 n)).

(** The year of [toISOString]: four digits for 0..9999, otherwise a sign
    and six digits. *)
Definition yearString (y : Z) : string :=
  if (0 <=? y) && (y <=? 9999) then pad4 y
  else String (if y <? 0 then "-"%char else "+"%char) (pad6 (Z.abs y)).

(** [d.toISOString().split("T")[0]] *)
Definition toISODate (t : Z) : string :=
  yearString (YearFromTime t) +:+ "-" +:+ pad2 (MonthFromTime t + 1)
    +:+ "-" +:+ pad2 (DateFromTime t).

Definition digitValue (c : ascii) : option Z :=
  let n := Z.of_N (N_of_ascii c) in
  if (48 <=? n) && (n <=? 57) then Some (n - 48) else None.

(** Reads a run of decimal digits, most significant first. *)
Fixpoint digitsValue (acc : Z) (s : string) : option Z :=
  match s with
  | EmptyString => Some acc
  | String c s' =>
      match digitValue c with
      | Some v => digitsValue (10 * acc + v) s'
      | None => None
      end
  end.

Definition DaysInMonth (y m : Z) : Z :=
  if m =? 2 then (if DaysInYear y =? 366 then 29 else 28)
  else if (m =? 4) || (m =? 6) || (m =? 9) || (m =? 11) then 30
  else 31.

(** The fields of a date string after its sign: a year of [ylen] digits,
    a month and a day of two digits each, with hyphens between them. *)
Definition parseFields (sign : Z) (ylen : nat) (body : string)
    : option (Z * Z * Z) :=
  match digitsValue 0 (substring 0 ylen body),
        digitsValue 0 (substring (ylen + 1) 2 body),
        digitsValue 0 (substring (ylen + 4) 2 body) with
  | Some y, Some m, Some d =>
      if (String.length body =? ylen + 6)%nat
         && (substring ylen 1 body =? "-")%string
         && (substring (ylen + 3) 1 body =? "-")%string
         && (1 <=? m) && (m <=? 12) && (1 <=? d)
         && (d <=? DaysInMonth (sign * y) m)
         && negb ((sign =? -1) && (y =? 0))
      then Some (sign * y, m, d) else None
  | _, _, _ => None
  end.

(** The year, month and day of a date string [YYYY-MM-DD] (or with the
    expanded year [+YYYYYY], [-YYYYYY]).  A string of another shape, or one
    that names no calendar day, gives no date.  Engines disagree on a day
    past the end of its month (some carry ["2024-02-30"] over to the first
    of March); the date input never produces one, and the statements are
    about the strings that it produces. *)
Definition parseYMD (s : string) : option (Z * Z * Z) :=
  match s with
  | String c body =>
      if Ascii.eqb c "+" then parseFields 1 6 body
      else if Ascii.eqb c "-" then parseFields (-1) 6 body
      else parseFields 1 4 s
  | EmptyString => None
  end.

End ISO.

Import ISO.

(** ** The script's date helpers *)

(** [new Date(dateString + "T12:00:00Z")]; [None] is the invalid date. *)
Definition createTimezoneSafeDate (dateString : string) : option Z :=
  match parseYMD dateString with
  | Some (y, m, d) => Some (MakeDate (MakeDay y (m - 1) d) (12 * 3600000))
  | None => None
  end.

Definition getStartOfWeek (date : Z) : Z :=
  let d := date in
  let day := getUTCDay d in
  let diff := getUTCDate d - day in
  setUTCDate d diff.

Definition getStartOfMonth (date : Z) : Z :=
  let d := date in
  UTC (getUTCFullYear d) (getUTCMonth d) 1.

Definition getStartOfQuarter (date : Z) : Z :=
  let d := date in
  let quarter := getUTCMonth d / 3 in
  UTC (getUTCFullYear d) (quarter * 3) 1.

Definition getStartOfYear (date : Z) : Z :=
  let d := date in
  UTC (getUTCFullYear d) 0 1.

(** ** Data model *)

(** JavaScript numbers are exact rationals; [Qc_of_Z] embeds an integer. *)

Definition Math_max (a b : Qc) : Qc := if decide (a < b)%Qc then b else a.
Definition Math_min (a b : Qc) : Qc := if decide (b < a)%Qc then b else a.
Definition Math_abs (a : Qc) : Qc := if decide (a < 0)%Qc then (- a)%Qc else a.

(** [x || d] on a number: zero is falsy. *)
Definition orDefault (x d : Qc) : Qc := if decide (x = 0%Qc) then d else x.

(** The [category] property of a stored transaction: a string on an
    expense, [null] after an edit to an income, absent otherwise. *)
Inductive Category :=
  | CatUndefined
  | CatNull
  | CatString (s : string).

(** A transaction document as [doc.data()] gives it: [date] and
    [createdAt] are the time values of their timestamps. *)
Record Transaction := {
  description : string;
  amount : Qc;
  date : Z;
  type : string;
  category : Category;
  createdAt : Z
}.

(** ** [processChartData] *)

Inductive Aggregation := daily | weekly | monthly | quarterly | yearly.

Record Bucket := { income : Qc; expense : Qc }.

#[global] Instance Bucket_inhabited : Inhabited Bucket :=
  populate {| income := 0%Qc; expense := 0%Qc |}.

(** A chart label is the year number (yearly) or a string. *)
Inductive Label :=
  | LNum (n : option Z)
  | LStr (s : string).

Record LocaleOptions := {
  opt_weekday : option string;
  opt_year : option string;
  opt_month : option string;
  opt_day : option string
}.

Record ChartData := {
  labels : list Label;
  tooltipTitles : list string;
  incomeData : list Qc;
  expenseData : list Qc
}.

(** [(end - start) / (1000 * 60 * 60 * 24) + 1]; [None] is [NaN]. *)
Definition dayCount (start end_ : option Z) : option Qc :=
  match start, end_ with
  | Some s, Some e =>
      Some (Qc_of_Z (e - s) / Qc_of_Z (1000 * 60 * 60 * 24) + 1)%Qc
  | _, _ => None
  end.

(** The chain of comparisons on [dayCount]; a comparison with [NaN] is
    false. *)
Definition selectAggregation (dayCount : option Qc) : Aggregation :=
  match dayCount with
  | None => daily
  | Some dc =>
      if decide (Qc_of_Z (365 * 2) < dc)%Qc then yearly
      else if decide (Qc_of_Z 730 < dc)%Qc then quarterly
      else if decide (Qc_of_Z 180 < dc)%Qc then monthly
      else if decide (Qc_of_Z 45 < dc)%Qc then weekly
      else daily
  end.

(** One turn of the seeding loop: the key date of the bucket, and the
    advanced [currentDate]. *)
Definition seedStep (aggregationType : Aggregation) (currentDate : Z) : Z * Z :=
  match aggregationType with
  | yearly =>
      (getStartOfYear currentDate,
       setUTCFullYear currentDate (getUTCFullYear currentDate + 1))
  | quarterly =>
      (getStartOfQuarter currentDate,
       setUTCMonth currentDate (getUTCMonth currentDate + 3))
  | monthly =>
      (getStartOfMonth currentDate,
       setUTCMonth currentDate (getUTCMonth currentDate + 1))
  | weekly =>
      (getStartOfWeek currentDate,
       setUTCDate currentDate (getUTCDate currentDate + 7))
  | daily =>
      (currentDate, setUTCDate currentDate (getUTCDate currentDate + 1))
  end.

Definition zeroBucket : Bucket := {| income := 0%Qc; expense := 0%Qc |}.

(** [while (currentDate <= end) { ... }], with the number of turns bounded
    by [fuel]. *)
Fixpoint seedBuckets (fuel : nat) (aggregationType : Aggregation)
    (end_ currentDate : Z) (groupedData : gmap string Bucket)
    : gmap string Bucket :=
  match fuel with
  | O => groupedData
  | S fuel' =>
      if currentDate <=? end_ then
        let '(keyDate, next) := seedStep aggregationType currentDate in
        seedBuckets fuel' aggregationType end_ next
          (<[toISODate keyDate := zeroBucket]> groupedData)
      else groupedData
  end.

(** Every turn moves [currentDate] at least one day forward, so the days
    from [start] to [end] bound the number of turns. *)
Definition seedFuel (start end_ : Z) : nat := Z.to_nat (Day end_ - Day start + 1).

Definition transactionKey (aggregationType : Aggregation) (t : Transaction)
    : string :=
  let transactionDate := date t in
  let keyDate :=
    match aggregationType with
    | yearly => getStartOfYear transactionDate
    | quarterly => getStartOfQuarter transactionDate
    | monthly => getStartOfMonth transactionDate
    | weekly => getStartOfWeek transactionDate
    | daily => transactionDate
    end in
  toISODate keyDate.

(** The body of [data.forEach]. *)
Definition addToBucket (aggregationType : Aggregation)
    (groupedData : gmap string Bucket) (t : Transaction)
    : gmap string Bucket :=
  let keyString := transactionKey aggregationType t in
  match groupedData !! keyString with
  | Some b =>
      if String.eqb (type t) "income" then
        <[keyString := {| income := (income b + amount t)%Qc;
                          expense := expense b |}]> groupedData
      else
        <[keyString := {| income := income b;
                          expense := (expense b + amount t)%Qc |}]> groupedData
  | None => groupedData
  end.

Definition str_le (s1 s2 : string) : Prop := String.leb s1 s2 = true.

#[global] Instance str_le_dec : RelDecision str_le.
Proof. intros s1 s2. unfold str_le. apply _. Defined.

(** [Object.keys(groupedData).sort()]: the keys in code-unit order. *)
Definition sortedKeysOf (groupedData : gmap string Bucket) : list string :=
  merge_sort str_le (map fst (map_to_list groupedData)).

(** [groupedData] after seeding and after all transactions. *)
Definition groupData (data : list Transaction) (startDateStr endDateStr : string)
    : Aggregation * gmap string Bucket :=
  let start := createTimezoneSafeDate startDateStr in
  let end_ := createTimezoneSafeDate endDateStr in
  let aggregationType := selectAggregation (dayCount start end_) in
  let seeded :=
    match start, end_ with
    | Some s, Some e => seedBuckets (seedFuel s e) aggregationType e s ∅
    | _, _ => ∅
    end in
  (aggregationType, fold_left (addToBucket aggregationType) data seeded).

Section Chart.

(** [Date.prototype.toLocaleDateString("en-US", options)], given by the
    host; the argument [None] is the invalid date. *)
Variable toLocaleDateString : option Z -> LocaleOptions -> string.

Definition shortDayYear : LocaleOptions :=
  {| opt_weekday := None; opt_year := Some "numeric";
     opt_month := Some "short"; opt_day := Some "numeric" |}.
Definition shortYear : LocaleOptions :=
  {| opt_weekday := None; opt_year := Some "numeric";
     opt_month := Some "short"; opt_day := None |}.
Definition longYear : LocaleOptions :=
  {| opt_weekday := None; opt_year := Some "numeric";
     opt_month := Some "long"; opt_day := None |}.
Definition shortDay : LocaleOptions :=
  {| opt_weekday := None; opt_year := None;
     opt_month := Some "short"; opt_day := Some "numeric" |}.
Definition longWeekday : LocaleOptions :=
  {| opt_weekday := Some "long"; opt_year := None;
     opt_month := Some "long"; opt_day := Some "numeric" |}.

(** A number inside a template literal. *)
Definition numberString (n : option Z) : string :=
  match n with Some z => pretty z | None => "NaN" end.

(** The body of [sortedKeys.forEach]: one label and one tooltip title are
    pushed for the key. *)
Definition pushLabel (aggregationType : Aggregation)
    (acc : list Label * list string) (key : string)
    : list Label * list string :=
  let '(labels, tooltipTitles) := acc in
  let date := createTimezoneSafeDate key in
  match aggregationType with
  | yearly =>
      let yearEnd :=
        (fun d => setUTCDate (setUTCFullYear d (getUTCFullYear d + 1)) 0)
          <$> date in
      (labels ++ [LNum (getUTCFullYear <$> date)],
       tooltipTitles ++
         [toLocaleDateString date shortDayYear +:+ " - "
            +:+ toLocaleDateString yearEnd shortDayYear])
  | quarterly =>
      let quarter := (fun d => getUTCMonth d / 3 + 1) <$> date in
      let quarterEnd :=
        (fun d => setUTCDate (setUTCMonth d (getUTCMonth d + 3)) 0) <$> date in
      (labels ++ [LStr ("Q" +:+ numberString quarter +:+ " "
                          +:+ numberString (getUTCFullYear <$> date))],
       tooltipTitles ++
         [toLocaleDateString date shortDayYear +:+ " - "
            +:+ toLocaleDateString quarterEnd shortDayYear])
  | monthly =>
      (labels ++ [LStr (toLocaleDateString date shortYear)],
       tooltipTitles ++ [toLocaleDateString date longYear])
  | weekly =>
      let weekEnd := (fun d => setUTCDate d (getUTCDate d + 6)) <$> date in
      (labels ++ [LStr ("Wk of " +:+ toLocaleDateString date shortDay)],
       tooltipTitles ++
         [toLocaleDateString date shortDay +:+ " - "
            +:+ toLocaleDateString weekEnd shortDay])
  | daily =>
      (labels ++ [LStr (toLocaleDateString date shortDay)],
       tooltipTitles ++ [toLocaleDateString date longWeekday])
  end.

(** The keys are sorted, a label and a tooltip title are pushed for each,
    and the two series read the buckets in the same order.  A key taken
    from [Object.keys(groupedData)] names a property that exists, so the
    total lookup [!!!] never meets its default. *)
Definition processChartData (data : list Transaction)
    (startDateStr endDateStr : string) : ChartData :=
  let '(aggregationType, groupedData) :=
    groupData data startDateStr endDateStr in
  let sortedKeys := sortedKeysOf groupedData in
  let '(labels, tooltipTitles) :=
    fold_left (pushLabel aggregationType) sortedKeys ([], []) in
  {| labels := labels;
     tooltipTitles := tooltipTitles;
     incomeData := map (fun key => income (groupedData !!! key)) sortedKeys;
     expenseData := map (fun key => expense (groupedData !!! key)) sortedKeys |}.

(** The label and the tooltip title that the loop body pushes for a key. *)
Definition labelOf (aggregationType : Aggregation) (key : string) : Label :=
  default (LStr EmptyString) (head (pushLabel aggregationType ([], []) key).1).

Definition tooltipOf (aggregationType : Aggregation) (key : string) : string :=
  default EmptyString (head (pushLabel aggregationType ([], []) key).2).

End Chart.

(** ** [updateGlobalSummary] *)

Definition TAX_RATE : Qc := Q2Qc 0.25.
Definition SAVINGS_RATE : Qc := Q2Qc 0.2.

Inductive ColorClass := income_color | expense_color | primary_color.

Inductive Bar := profit_bar | loss_bar.

(** What the summary panel shows: the figures (before [formatCurrency]),
    the class of the balance, the margin, and the bar that is displayed
    with its width in percent. *)
Record Summary := {
  s_totalIncome : Qc;
  s_totalExpenses : Qc;
  s_netProfit : Qc;
  s_taxToSave : Qc;
  s_recommendedSavings : Qc;
  s_availableBalance : Qc;
  s_balanceClass : ColorClass;
  s_profitMargin : Qc;
  s_marginClass : ColorClass;
  s_bar : Bar;
  s_barWidth : Qc
}.

(** The body of the [try] block, from the two aggregate sums the server
    reports. *)
Definition summaryOf (serverIncome serverExpenses : Qc) : Summary :=
  let totalIncome := orDefault serverIncome 0 in
  let totalExpenses := orDefault serverExpenses 0 in
  let netProfit := (totalIncome - totalExpenses)%Qc in
  let taxToSave := (totalIncome * TAX_RATE)%Qc in
  let recommendedSavings := Math_max 0 (netProfit * SAVINGS_RATE) in
  let availableBalance := (netProfit - taxToSave - recommendedSavings)%Qc in
  let balanceClass :=
    if decide (0 < availableBalance)%Qc then income_color
    else if decide (availableBalance < 0)%Qc then expense_color
    else primary_color in
  let profitMargin :=
    if decide (0 < totalIncome)%Qc then (netProfit / totalIncome * Qc_of_Z 100)%Qc
    else if decide (netProfit < 0)%Qc then (- Qc_of_Z 100)%Qc
    else 0%Qc in
  let '(bar, width, marginClass) :=
    if decide (0 <= profitMargin)%Qc then
      (profit_bar, Math_min (Qc_of_Z 100) profitMargin, income_color)
    else
      (loss_bar, Math_min (Qc_of_Z 100) (Math_abs profitMargin), expense_color) in
  {| s_totalIncome := totalIncome;
     s_totalExpenses := totalExpenses;
     s_netProfit := netProfit;
     s_taxToSave := taxToSave;
     s_recommendedSavings := recommendedSavings;
     s_availableBalance := availableBalance;
     s_balanceClass := balanceClass;
     s_profitMargin := profitMargin;
     s_marginClass := marginClass;
     s_bar := bar;
     s_barWidth := width |}.

(** The aggregate queries either report the two sums or reject; on a
    rejection the panel keeps what it showed. *)
Definition updateGlobalSummary (server : option (Qc * Qc)) (shown : Summary)
    : Summary :=
  match server with
  | Some (serverIncome, serverExpenses) => summaryOf serverIncome serverExpenses
  | None => shown
  end.

(** ** [updateTotalPages] *)

Definition TRANSACTIONS_PER_PAGE : Z := 10.

(** [Math.ceil(x)] of a quotient of integers. *)
Definition Math_ceil_div (n d : Z) : Z := Qceiling (inject_Z n / inject_Z d).

(** [Math.ceil(count / TRANSACTIONS_PER_PAGE) || 1]; when the count query
    rejects, [totalPages] keeps its value. *)
Definition updateTotalPages (server : option Z) (totalPages : Z) : Z :=
  match server with
  | Some count =>
      let pages := Math_ceil_div count TRANSACTIONS_PER_PAGE in
      if pages =? 0 then 1 else pages
  | None => totalPages
  end.

(** ** [generateAISummary] *)

(** *** The expense breakdown: an object keyed by category *)

Module JSObject.

(** An object with number values: its own string-keyed properties in the
    order of their creation.  [get] reads an own property; what a read
    finds on the prototype is not part of the object (see
    [prototypeNames]). *)
Definition t := list (string * Qc).

Fixpoint get (o : t) (k : string) : option Qc :=
  match o with
  | [] => None
  | (k', v) :: o' => if String.eqb k' k then Some v else get o' k
  end.

(** [o[k] = v]: an existing property keeps its place. *)
Fixpoint set (o : t) (k : string) (v : Qc) : t :=
  match o with
  | [] => [(k, v)]
  | (k', v') :: o' =>
      if String.eqb k' k then (k', v) :: o' else (k', v') :: set o' k v
  end.

(** An array index is the canonical decimal string of an integer in
    0 .. 2^32 - 2. *)
Definition arrayIndex (k : string) : option Z :=
  match digitsValue 0 k with
  | Some n =>
      if negb (String.eqb k EmptyString) && String.eqb (pretty n) k
         && (n <? 4294967295)
      then Some n else None
  | None => None
  end.

Definition isArrayIndex (k : string) : bool :=
  match arrayIndex k with Some _ => true | None => false end.

Definition index_le (k1 k2 : string) : Prop :=
  match arrayIndex k1, arrayIndex k2 with
  | Some n1, Some n2 => n1 <= n2
  | _, _ => True
  end.

#[global] Instance index_le_dec : RelDecision index_le.
Proof.
  intros k1 k2. unfold index_le.
  destruct (arrayIndex k1), (arrayIndex k2); apply _.
Defined.

(** [Object.keys(o)]: the array indices in ascending order, then the other
    keys in the order of their creation. *)
Definition keys (o : t) : list string :=
  let ks := map fst o in
  merge_sort index_le (filter (fun k => isArrayIndex k = true) ks)
    ++ filter (fun k => isArrayIndex k = false) ks.

End JSObject.

(** The key under which a category is stored. *)
Definition propertyKey (c : Category) : string :=
  match c with
  | CatUndefined => "undefined"
  | CatNull => "null"
  | CatString s => s
  end.

Definition sumAmounts (ty : string) (rawData : list Transaction) : Qc :=
  fold_left (fun sum t => (sum + amount t)%Qc)
    (filter (fun t => type t = ty) rawData) 0%Qc.

(** The body of the [forEach] over the expenses:
    [expenseBreakdown[t.category] = (expenseBreakdown[t.category] || 0) + t.amount]. *)
Definition addExpense (expenseBreakdown : JSObject.t) (t : Transaction)
    : JSObject.t :=
  let k := propertyKey (category t) in
  JSObject.set expenseBreakdown k
    (orDefault (default 0%Qc (JSObject.get expenseBreakdown k)) 0 + amount t)%Qc.

Definition expenseBreakdownOf (rawData : list Transaction) : JSObject.t :=
  fold_left addExpense (filter (fun t => type t = "expense") rawData) [].

(** [x > y] on property values: a comparison with [undefined] is false. *)
Definition greater (x y : option Qc) : bool :=
  match x, y with
  | Some a, Some b => bool_decide (b < a)%Qc
  | _, _ => false
  end.

(** The reducer [(a, b) => (expenseBreakdown[a] > expenseBreakdown[b] ? a : b)];
    the accumulator starts as [null], which reads the property ["null"]. *)
Definition pickLarger (expenseBreakdown : JSObject.t) (a : option string)
    (b : string) : option string :=
  let key_a := match a with Some k => k | None => "null" end in
  if greater (JSObject.get expenseBreakdown key_a) (JSObject.get expenseBreakdown b)
  then a else Some b.

Definition largestExpenseCategoryOf (expenseBreakdown : JSObject.t)
    : option string :=
  fold_left (pickLarger expenseBreakdown) (JSObject.keys expenseBreakdown) None.

Definition largestExpenseCategory (rawData : list Transaction) : option string :=
  largestExpenseCategoryOf (expenseBreakdownOf rawData).

(** [largestExpenseCategory || "None"]: [null] and the empty string are
    falsy. *)
Definition categoryInPrompt (c : option string) : string :=
  match c with
  | None => "None"
  | Some k => if String.eqb k EmptyString then "None" else k
  end.

(** *** The request *)

Record Request := {
  r_url : string;
  r_method : string;
  r_contentType : string;
  r_prompt : string
}.

(** What [fetch] does with a request: it rejects, or it resolves to a
    response with its status and what the two lines
    [result = await response.json()] and
    [result.candidates[0].content.parts[0].text] find in its body:
    - [None]: one of them throws (the body is not JSON, or there is no
      [candidates[0].content.parts[0]] to read [text] from);
    - [Some None]: the part is there and has no [text], which reads as
      [undefined];
    - [Some (Some summary)]: the text. *)
Inductive FetchOutcome :=
  | FetchRejected
  | FetchResponse (status : Z) (text : option (option string)).

(** [response.ok]: the status is in the range 200..299. *)
Definition response_ok (status : Z) : bool :=
  (200 <=? status) && (status <=? 299).

Record AIState := {
  textContent : string;
  loading : bool;
  sent : list Request
}.

(** A computation on the state that yields a value or throws. *)
Definition Async (A : Type) : Type := AIState -> AIState * option A.

Definition ret {A} (a : A) : Async A := fun st => (st, Some a).
Definition throw {A} : Async A := fun st => (st, None).
Definition bind {A B} (m : Async A) (k : A -> Async B) : Async B :=
  fun st =>
    match m st with
    | (st', Some a) => k a st'
    | (st', None) => (st', None)
    end.

Notation "x <- m ;; k" := (bind m (fun x => k))
  (at level 100, m at next level, right associativity).
Notation "m ;;; k" := (bind m (fun _ => k))
  (at level 100, right associativity).

(** [try { body } catch (error) { handler } finally { cleanup }] *)
Definition tryCatchFinally (body handler cleanup : Async unit) : Async unit :=
  fun st =>
    match body st with
    | (st1, Some _) => cleanup st1
    | (st1, None) =>
        match handler st1 with
        | (st2, Some _) => cleanup st2
        | (st2, None) => (fst (cleanup st2), None)
        end
    end.

Definition setTextContent (s : string) : Async unit :=
  fun st => ({| textContent := s; loading := loading st; sent := sent st |},
             Some tt).

(** [aiSummaryContent.textContent = summary]: assigning [undefined] to
    [textContent] leaves the element without text. *)
Definition assignTextContent (summary : option string) : Async unit :=
  setTextContent (default EmptyString summary).

Definition setLoading (b : bool) : Async unit :=
  fun st => ({| textContent := textContent st; loading := b; sent := sent st |},
             Some tt).

Definition missingKeyMessage : string :=
  "AI API key is missing. Please check your .env file.".
Definition failureMessage : string :=
  "Could not generate AI summary at this time.".

Section AISummary.

(** [Number.prototype.toLocaleString("en-US", ...)] with two fraction
    digits, and the network, both given by the host. *)
Variable toLocaleString : Qc -> string.
Variable network : Request -> FetchOutcome.

(** [import.meta.env.VITE_GEMINI_API_KEY]; [None] is [undefined]. *)
Variable GEMINI_API_KEY : option string.

Definition formatCurrency (number : Qc) : string := toLocaleString number.

(** [!GEMINI_API_KEY] *)
Definition keyMissing : bool :=
  match GEMINI_API_KEY with
  | None => true
  | Some k => String.eqb k EmptyString
  end.

Definition promptOf (rawData : list Transaction) : string :=
  let totalIncome := sumAmounts "income" rawData in
  let totalExpenses := sumAmounts "expense" rawData in
  let netProfit := (totalIncome - totalExpenses)%Qc in
  "You are a helpful and encouraging financial assistant for a freelancer. Based on the following data, write a short, insightful summary (3-4 sentences max). Be positive but also point out one area for improvement if applicable. Format the response as a single paragraph. Data: Total Income: "
    +:+ formatCurrency totalIncome
    +:+ ", Total Expenses: " +:+ formatCurrency totalExpenses
    +:+ ", Net Profit: " +:+ formatCurrency netProfit
    +:+ ", Largest Expense Category: "
    +:+ categoryInPrompt (largestExpenseCategory rawData) +:+ ".".

Definition apiUrl : string :=
  "https://generativelanguage.googleapis.com/v1beta/models/gemini-1.5-flash-latest:generateContent?key="
    +:+ default EmptyString GEMINI_API_KEY.

(** [await fetch(apiUrl, ...)]: the request is recorded as sent; a
    rejection is thrown. *)
Definition fetch (req : Request) : Async FetchOutcome :=
  fun st =>
    let st' := {| textContent := textContent st; loading := loading st;
                  sent := sent st ++ [req] |} in
    match network req with
    | FetchRejected => (st', None)
    | outcome => (st', Some outcome)
    end.

Definition generateAISummary (rawData : list Transaction) : Async unit :=
  setTextContent "Generating your financial summary..." ;;;
  setLoading true ;;;
  if keyMissing then
    setTextContent missingKeyMessage ;;;
    setLoading false
  else
    let prompt := promptOf rawData in
    tryCatchFinally
      (response <- fetch {| r_url := apiUrl; r_method := "POST";
                            r_contentType := "application/json";
                            r_prompt := prompt |} ;;
       match response with
       | FetchResponse status text =>
           if negb (response_ok status) then throw
           else
             match text with
             | Some summary => assignTextContent summary
             | None => throw
             end
       | FetchRejected => throw
       end)
      (setTextContent failureMessage)
      (setLoading false).

End AISummary.

(** ** Vocabulary of the statements *)

(** The strict order of [sort] on strings. *)
Definition str_lt (s1 s2 : string) : Prop := String.compare s1 s2 = Lt.

(** The date string of a year, a month (1-based) and a day of the month. *)
Definition isoString (y m d : Z) : string :=
  yearString y +:+ "-" +:+ pad2 m +:+ "-" +:+ pad2 d.

(** The [n] consecutive days that start at the date [s], at its time of
    day. *)
Fixpoint daysFrom (s : Z) (n : nat) : list Z :=
  match n with
  | O => []
  | S n' => s :: daysFrom (s + msPerDay) n'
  end.

(** The number of calendar days from the day of [s] to the day of [e],
    both included. *)
Definition inclusiveDays (s e : Z) : Z := Day e - Day s + 1.

(** The keys that the seeding loop writes, in the order of the walk. *)
Fixpoint seedKeys (fuel : nat) (aggregationType : Aggregation)
    (end_ currentDate : Z) : list string :=
  match fuel with
  | O => []
  | S fuel' =>
      if currentDate <=? end_ then
        toISODate (seedStep aggregationType currentDate).1
          :: seedKeys fuel' aggregationType end_
               (seedStep aggregationType currentDate).2
      else []
  end.

(** The sum of a series of the chart. *)
Definition total (l : list Qc) : Qc := foldr Qcplus 0%Qc l.

(** The sum of the amounts of the transactions of one type. *)
Definition totalOfType (ty : string) (data : list Transaction) : Qc :=
  total (amount <$> filter (fun t => type t = ty) data).

(** The summed amount of the expenses of one category. *)
Definition categoryTotal (k : string) (rawData : list Transaction) : Qc :=
  total (amount <$>
           filter (fun t => propertyKey (category t) = k)
             (filter (fun t => type t = "expense") rawData)).

(** The property names that every object inherits from
    [Object.prototype].  Reading one of them on [expenseBreakdown = {}]
    finds the inherited value, not [undefined]. *)
Definition prototypeNames : list string :=
  [ "constructor"; "__defineGetter__"; "__defineSetter__"; "hasOwnProperty";
    "__lookupGetter__"; "__lookupSetter__"; "isPrototypeOf";
    "propertyIsEnumerable"; "toString"; "valueOf"; "__proto__";
    "toLocaleString" ].

(** No expense has a category that is stored under an inherited name, so
    that [expenseBreakdown[t.category]] reads own properties only. *)
Definition categoriesAreOwnKeys (rawData : list Transaction) : Prop :=
  forall t, t ∈ rawData -> type t = "expense" ->
    propertyKey (category t) ∉ prototypeNames.

(** The amounts of the expenses of one category, added from [0] in the
    order of the list, which is the order in which the [forEach] of
    [generateAISummary] adds them to the property of the category. *)
Definition categorySum (k : string) (rawData : list Transaction) : Qc :=
  fold_left (fun sum t => (sum + amount t)%Qc)
    (filter (fun t => propertyKey (category t) = k)
       (filter (fun t => type t = "expense") rawData)) 0%Qc.

(** The time of day of [createTimezoneSafeDate]. *)
Definition noon : Z := 12 * 3600000.

(** The sum of one field over all buckets. *)
Definition bucketSum (field : Bucket -> Qc) (g : gmap string Bucket) : Qc :=
  total ((fun kb => field kb.2) <$> map_to_list g).

(** The transactions of one side (income, or the rest) whose bucket key is
    among [keys]. *)
Definition counted (aggregationType : Aggregation) (keys : gset string)
    (income_side : bool) (data : list Transaction) : list Transaction :=
  filter (fun t => String.eqb (type t) "income" = income_side
                   /\ transactionKey aggregationType t ∈ keys) data.

(** What the reduction of [largestExpenseCategory] has reached after the
    keys [seen] of the object [o]: a key that holds a largest value among
    them, with only smaller values after it; or still [null]. *)
Definition reached (o : JSObject.t) (seen : list string) (a : option string)
    : Prop :=
  match a with
  | Some k =>
      exists before after x,
        seen = before ++ k :: after
        /\ JSObject.get o k = Some x
        /\ (forall k' y, k' ∈ before -> JSObject.get o k' = Some y -> (y <= x)%Qc)
        /\ (forall k' y, k' ∈ after -> JSObject.get o k' = Some y -> (y < x)%Qc)
  | None =>
      seen = []
      \/ exists x, JSObject.get o "null" = Some x
           /\ forall k' y, k' ∈ seen -> JSObject.get o k' = Some y -> (y < x)%Qc
  end.

(** ** Further parts of the script *)

(** [transaction.date.toDate().toISOString().split("T")[0]]: the value that
    [openEditModal] gives the date field of the edit form. *)
Definition editDateValue (transaction : Transaction) : string :=
  toISODate (date transaction).

(** The guard of [updateChart]:
    [!startDateStr || !endDateStr || startDateStr > endDateStr].  The empty
    string is falsy, and strings compare by their code units. *)
Definition rangeRejected (startDateStr endDateStr : string) : bool :=
  String.eqb startDateStr EmptyString
  || String.eqb endDateStr EmptyString
  || match String.compare startDateStr endDateStr with
     | Gt => true
     | _ => false
     end.

(** [new Date(endDate + "T23:59:59Z")], the upper bound of the query of
    [fetchChartData]; its lower bound is [createTimezoneSafeDate(startDate)]. *)
Definition endOfDay (endDate : string) : option Z :=
  match parseYMD endDate with
  | Some (y, m, d) =>
      Some (MakeDate (MakeDay y (m - 1) d) (23 * 3600000 + 59 * 60000 + 59 * 1000))
  | None => None
  end.

(** ** Local time and the preset periods *)

Section LocalTime.

(** The offset of local time from UTC, given by the host: at a UTC time
    value ([true]) or at a local one ([false]). *)
Variable LocalTZA : Z -> bool -> Z.

Definition LocalTime (t : Z) : Z := t + LocalTZA t true.
Definition UTCOfLocal (t : Z) : Z := t - LocalTZA t false.

Definition getFullYear (t : Z) : Z := YearFromTime (LocalTime t).
Definition getMonth (t : Z) : Z := MonthFromTime (LocalTime t).
Definition getDate (t : Z) : Z := DateFromTime (LocalTime t).

Definition setDate (t dt : Z) : Z :=
  let local := LocalTime t in
  UTCOfLocal
    (MakeDate (MakeDay (YearFromTime local) (MonthFromTime local) dt)
       (TimeWithinDay local)).

(** [s.padStart(2, "0")] *)
Definition padStart2 (s : string) : string :=
  match String.length s with
  | O => "00"
  | 1%nat => "0" +:+ s
  | _ => s
  end.

(** [getTodayDateString()] at the instant [now]. *)
Definition getTodayDateString (now : Z) : string :=
  let today := now in
  let year := getFullYear today in
  let month := padStart2 (pretty (getMonth today + 1)) in
  let day := padStart2 (pretty (getDate today)) in
  pretty year +:+ "-" +:+ month +:+ "-" +:+ day.

(** [getDateStringDaysAgo(days)] at the instant [now]. *)
Definition getDateStringDaysAgo (now : Z) (days : Z) : string :=
  let date := now in
  let date := setDate date (getDate date - days) in
  toISODate date.

End LocalTime.

(** ** The list of transactions and its pages *)

(** [currentFilter]: its [type], and its [category] when it has one. *)
Record Filter := {
  filter_type : string;
  filter_category : option string
}.

Inductive Direction := asc | desc.

Inductive Constraint :=
  | where_eq (field value : string)
  | orderBy (field : string) (direction : Direction).

(** [buildQuery(isAggregation)]: the constraints that it passes to [query]. *)
Definition buildQuery (currentFilter : Filter) (isAggregation : bool)
    : list Constraint :=
  let constraints := [] in
  let constraints :=
    if String.eqb (filter_type currentFilter) "income" then
      constraints ++ [where_eq "type" "income"]
    else if String.eqb (filter_type currentFilter) "expense" then
      let constraints := constraints ++ [where_eq "type" "expense"] in
      match filter_category currentFilter with
      | Some category =>
          if negb (String.eqb category EmptyString)
             && negb (String.eqb category "all")
          then constraints ++ [where_eq "category" category]
          else constraints
      | None => constraints
      end
    else constraints in
  if negb isAggregation then
    constraints ++ [orderBy "date" desc; orderBy "createdAt" desc]
  else constraints.

(** A document snapshot: its id and its data. *)
Record Doc := {
  doc_id : string;
  doc_data : Transaction
}.

(** A query for one page: the constraints of [buildQuery], the cursor of
    [startAfter] when there is one, and the limit. *)
Record Query := {
  q_constraints : list Constraint;
  q_startAfter : option Doc;
  q_limit : Z
}.

(** [pageCursors] is an array whose elements are document snapshots,
    [null] or holes; the script only tests an element for truthiness, so
    [None] stands for [null], [undefined] and a hole alike. *)

(** [pageCursors[i]]: nothing at a negative index, which the script never
    writes. *)
Definition cursorAt (pageCursors : list (option Doc)) (i : Z) : option Doc :=
  if i <? 0 then None else mjoin (pageCursors !! Z.to_nat i).

(** [pageCursors[i] = lastDoc], for the indices from 1 on that the script
    writes: past the end the array grows, with holes up to the index. *)
Definition setCursor (pageCursors : list (option Doc)) (i : Z) (lastDoc : Doc)
    : list (option Doc) :=
  let n := Z.to_nat i in
  if (n <? length pageCursors)%nat then <[n := Some lastDoc]> pageCursors
  else pageCursors ++ replicate (n - length pageCursors) None ++ [Some lastDoc].

(** The state of the list: the script's variables, and what
    [updatePaginationUI] has written to the page. *)
Record Pager := {
  transactions : list Doc;
  currentPage : Z;
  totalPages : Z;
  isFetching : bool;
  pageCursors : list (option Doc);
  currentFilter : Filter;
  pageInfo : string;
  prevDisabled : bool;
  nextDisabled : bool
}.

Definition updatePaginationUI (st : Pager) : Pager :=
  {| transactions := transactions st;
     currentPage := currentPage st;
     totalPages := totalPages st;
     isFetching := isFetching st;
     pageCursors := pageCursors st;
     currentFilter := currentFilter st;
     pageInfo := "Page " +:+ pretty (currentPage st) +:+ " of "
                   +:+ pretty (totalPages st);
     prevDisabled := currentPage st =? 1;
     nextDisabled := totalPages st <=? currentPage st |}.

Definition setFetching (b : bool) (st : Pager) : Pager :=
  {| transactions := transactions st;
     currentPage := currentPage st;
     totalPages := totalPages st;
     isFetching := b;
     pageCursors := pageCursors st;
     currentFilter := currentFilter st;
     pageInfo := pageInfo st;
     prevDisabled := prevDisabled st;
     nextDisabled := nextDisabled st |}.

Definition setPage (page : Z) (st : Pager) : Pager :=
  {| transactions := transactions st;
     currentPage := page;
     totalPages := totalPages st;
     isFetching := isFetching st;
     pageCursors := pageCursors st;
     currentFilter := currentFilter st;
     pageInfo := pageInfo st;
     prevDisabled := prevDisabled st;
     nextDisabled := nextDisabled st |}.

Definition setTotalPages (pages : Z) (st : Pager) : Pager :=
  {| transactions := transactions st;
     currentPage := currentPage st;
     totalPages := pages;
     isFetching := isFetching st;
     pageCursors := pageCursors st;
     currentFilter := currentFilter st;
     pageInfo := pageInfo st;
     prevDisabled := prevDisabled st;
     nextDisabled := nextDisabled st |}.

Definition setCursors (cursors : list (option Doc)) (st : Pager) : Pager :=
  {| transactions := transactions st;
     currentPage := currentPage st;
     totalPages := totalPages st;
     isFetching := isFetching st;
     pageCursors := cursors;
     currentFilter := currentFilter st;
     pageInfo := pageInfo st;
     prevDisabled := prevDisabled st;
     nextDisabled := nextDisabled st |}.

Definition setTransactions (docs : list Doc) (st : Pager) : Pager :=
  {| transactions := docs;
     currentPage := currentPage st;
     totalPages := totalPages st;
     isFetching := isFetching st;
     pageCursors := pageCursors st;
     currentFilter := currentFilter st;
     pageInfo := pageInfo st;
     prevDisabled := prevDisabled st;
     nextDisabled := nextDisabled st |}.

(** The query of [fetchTransactionsForPage(page)]. *)
Definition pageQuery (st : Pager) (page : Z) : Query :=
  {| q_constraints := buildQuery (currentFilter st) false;
     q_startAfter := cursorAt (pageCursors st) (page - 1);
     q_limit := TRANSACTIONS_PER_PAGE |}.

(** [fetchTransactionsForPage] up to its [await]: nothing when a fetch is
    under way, otherwise the mark is set and the query is sent. *)
Definition fetchBegin (page : Z) (st : Pager) : Pager * option Query :=
  if isFetching st then (st, None)
  else (setFetching true st, Some (pageQuery st page)).

(** [fetchTransactionsForPage] from its [await] on, with the documents of
    the snapshot, or [None] when [getDocs] has rejected. *)
Definition fetchSettle (page : Z) (answer : option (list Doc)) (st : Pager)
    : Pager :=
  let st :=
    match answer with
    | Some docs =>
        let st :=
          match last docs with
          | Some lastDoc => setCursors (setCursor (pageCursors st) page lastDoc) st
          | None => st
          end in
        updatePaginationUI (setTransactions docs st)
    | None => st
    end in
  setFetching false st.

Section Paging.

(** The server while a handler runs: what [getCountFromServer] and
    [getDocs] answer, [None] for a rejection. *)
Variable getCountFromServer : list Constraint -> option Z.
Variable getDocs : Query -> option (list Doc).

(** [fetchTransactionsForPage] when nothing else happens while it waits. *)
Definition fetchTransactionsForPage (page : Z) (st : Pager) : Pager :=
  match fetchBegin page st with
  | (st, Some q) => fetchSettle page (getDocs q) st
  | (st, None) => st
  end.

Definition refreshData (st : Pager) : Pager :=
  let st :=
    setTotalPages
      (updateTotalPages (getCountFromServer (buildQuery (currentFilter st) false))
         (totalPages st)) st in
  fetchTransactionsForPage (currentPage st) st.

Definition resetAndRefresh (st : Pager) : Pager :=
  refreshData (setCursors [None] (setPage 1 st)).

(** The click handlers of the two page buttons. *)
Definition nextPageClick (st : Pager) : Pager :=
  if currentPage st <? totalPages st then
    let st := setPage (currentPage st + 1) st in
    fetchTransactionsForPage (currentPage st) st
  else st.

Definition prevPageClick (st : Pager) : Pager :=
  if 1 <? currentPage st then
    let st := setPage (currentPage st - 1) st in
    fetchTransactionsForPage (currentPage st) st
  else st.

(** The loop of [deleteTransaction] that asks for the pages before the
    current one again, each after its old cursor; [false] when a query has
    rejected. *)
Fixpoint rebuildCursors (constraints : list Constraint) (oldCursors : list (option Doc))
    (turns : nat) (i : Z) (pageCursors : list (option Doc)) : list (option Doc) * bool :=
  match turns with
  | O => (pageCursors, true)
  | S turns' =>
      match getDocs {| q_constraints := constraints;
                       q_startAfter := cursorAt oldCursors (i - 1);
                       q_limit := TRANSACTIONS_PER_PAGE |} with
      | Some docs =>
          match last docs with
          | Some lastDoc =>
              rebuildCursors constraints oldCursors turns' (i + 1)
                (setCursor pageCursors i lastDoc)
          | None => (pageCursors, true)
          end
      | None => (pageCursors, false)
      end
  end.

(** [deleteTransaction] after [deleteDoc] has resolved and the summary has
    been updated. *)
Definition afterDelete (st : Pager) : Pager :=
  let st :=
    setTotalPages
      (updateTotalPages (getCountFromServer (buildQuery (currentFilter st) false))
         (totalPages st)) st in
  let st :=
    if (1 <? currentPage st) && (length (transactions st) =? 1)%nat
       && (totalPages st <? currentPage st)
    then setPage (currentPage st - 1) st else st in
  let oldCursors := pageCursors st in
  let '(cursors, ok) :=
    rebuildCursors (buildQuery (currentFilter st) false) oldCursors
      (Z.to_nat (currentPage st - 1)) 1 [None] in
  let st := setCursors cursors st in
  if ok then fetchTransactionsForPage (currentPage st) st else st.

End Paging.

(** The clicks on the two page buttons. *)
Inductive Click := next_click | prev_click.

Definition click (getDocs : Query -> option (list Doc)) (st : Pager) (c : Click)
    : Pager :=
  match c with
  | next_click => nextPageClick getDocs st
  | prev_click => prevPageClick getDocs st
  end.

(** The documents that follow the cursor in a listing. *)
Fixpoint afterDoc (c : Doc) (docs : list Doc) : list Doc :=
  match docs with
  | [] => []
  | d :: rest => if String.eqb (doc_id d) (doc_id c) then rest else afterDoc c rest
  end.

Definition afterCursor (cursor : option Doc) (docs : list Doc) : list Doc :=
  match cursor with
  | Some c => afterDoc c docs
  | None => docs
  end.

(** [getDocs] answers the page queries with the constraints [cs] from the
    listing [docs] of the documents that match them, in their order. *)
Definition serves (getDocs : Query -> option (list Doc))
    (cs : list Constraint) (docs : list Doc) : Prop :=
  forall cursor,
    getDocs {| q_constraints := cs; q_startAfter := cursor;
               q_limit := TRANSACTIONS_PER_PAGE |}
    = Some (take (Z.to_nat TRANSACTIONS_PER_PAGE) (afterCursor cursor docs)).

(** The documents of the page [page] of a listing. *)
Definition pageOf (docs : list Doc) (page : Z) : list Doc :=
  take 10 (drop (10 * Z.to_nat (page - 1)) docs).

(** What holds between two clicks when the list pages through the listing
    [docs] under the filter [filter]. *)
Definition paged (docs : list Doc) (filter : Filter) (st : Pager) : Prop :=
  isFetching st = false
  /\ currentFilter st = filter
  /\ totalPages st = Z.max 1 ((Z.of_nat (length docs) + 9) / 10)
  /\ 1 <= currentPage st <= totalPages st
  /\ transactions st = pageOf docs (currentPage st)
  /\ cursorAt (pageCursors st) 0 = None
  /\ (forall j, 1 <= j <= currentPage st -> j < totalPages st ->
        cursorAt (pageCursors st) j = docs !! Z.to_nat (10 * j - 1))
  /\ pageInfo st = "Page " +:+ pretty (currentPage st) +:+ " of "
                     +:+ pretty (totalPages st)
  /\ prevDisabled st = (currentPage st =? 1)
  /\ nextDisabled st = (totalPages st <=? currentPage st).

(** ** Vocabulary of the further statements *)

(** [Date.UTC] reads a year from 0 to 99 as a year of the 1900s. *)
Definition utcYear (year : Z) : Z :=
  if (0 <=? year) && (year <=? 99) then 1900 + year else year.

(** The transactions of one side (income, or the rest) with the bucket key
    [k]. *)
Definition ofBucket (aggregationType : Aggregation) (k : string)
    (income_side : bool) (data : list Transaction) : list Transaction :=
  filter (fun t => String.eqb (type t) "income" = income_side
                   /\ transactionKey aggregationType t = k) data.

(** The [n] dates that start at [s] and follow one another by [k] days. *)
Fixpoint everyFrom (k : Z) (s : Z) (n : nat) : list Z :=
  match n with
  | O => []
  | S n' => s :: everyFrom k (s + k * msPerDay) n'
  end.

(** The number of turns of the weekly walk from [s] to [e]. *)
Definition weeksOf (s e : Z) : nat := Z.to_nat ((Day e - Day s) / 7 + 1).

(** The number of the month of a date, counted from the year 0. *)
Definition monthIndex (t : Z) : Z := 12 * YearFromTime t + MonthFromTime t.

(** The number of days of the month of index [n]. *)
Definition daysOfMonth (n : Z) : Z := DaysInMonth (n / 12) (n mod 12 + 1).

(** ** The filters of the list *)

Definition setFilter (filter : Filter) (st : Pager) : Pager :=
  {| transactions := transactions st;
     currentPage := currentPage st;
     totalPages := totalPages st;
     isFetching := isFetching st;
     pageCursors := pageCursors st;
     currentFilter := filter;
     pageInfo := pageInfo st;
     prevDisabled := prevDisabled st;
     nextDisabled := nextDisabled st |}.

(** The filter that a click on the filter button with [data-type] [type]
    sets: [{ type }], with the category ["all"] for the expenses. *)
Definition clickedFilter (type : string) : Filter :=
  let currentFilter := {| filter_type := type; filter_category := None |} in
  if String.eqb type "expense" then
    {| filter_type := filter_type currentFilter;
       filter_category := Some "all" |}
  else currentFilter.

(** The click handler of the filter buttons, on a filter button. *)
Definition filterClick (getCountFromServer : list Constraint -> option Z)
    (getDocs : Query -> option (list Doc)) (type : string) (st : Pager)
    : Pager :=
  resetAndRefresh getCountFromServer getDocs
    (setFilter (clickedFilter type) st).

(** The change handler of the category dropdown. *)
Definition categoryChange (getCountFromServer : list Constraint -> option Z)
    (getDocs : Query -> option (list Doc)) (value : string) (st : Pager)
    : Pager :=
  resetAndRefresh getCountFromServer getDocs
    (setFilter {| filter_type := filter_type (currentFilter st);
                  filter_category := Some value |} st).

(** * Properties *)

(** ** Rational arithmetic *)

Lemma Qc_of_Z_div_exact k m :
  m <> 0 -> (Qc_of_Z (k * m) / Qc_of_Z m)%Qc = Qc_of_Z k.
Proof.
  intros Hm. rewrite Z2Qc_inj_mul. field.
  intros H. rewrite <- Z2Qc_inj_0 in H. apply Z2Qc_inj in H. contradiction.
Qed.

Lemma orDefault_zero x : orDefault x 0 = x.
Proof. unfold orDefault. destruct (decide (x = 0%Qc)); congruence. Qed.

(** ** The calendar *)

Module Calendar.

Ltac div_lia := Z.div_mod_to_equations; lia.

Lemma DaysInYear_cases y : DaysInYear y = 365 \/ DaysInYear y = 366.
Proof.
  unfold DaysInYear.
  destruct (y mod 4 =? 0), (y mod 100 =? 0), (y mod 400 =? 0); simpl; auto.
Qed.

Lemma DayFromYear_succ y : DayFromYear (y + 1) = DayFromYear y + DaysInYear y.
Proof.
  unfold DayFromYear, DaysInYear.
  destruct (Z.eqb_spec (y mod 4) 0), (Z.eqb_spec (y mod 100) 0),
    (Z.eqb_spec (y mod 400) 0); simpl; div_lia.
Qed.

Lemma DayFromYear_mono y1 y2 :
  y1 <= y2 -> DayFromYear y1 + 365 * (y2 - y1) <= DayFromYear y2.
Proof. intros H. unfold DayFromYear. div_lia. Qed.

Lemma YearFromDay_spec d :
  DayFromYear (YearFromDay d) <= d < DayFromYear (YearFromDay d + 1).
Proof.
  unfold YearFromDay.
  set (y := 1970 + 400 * d / 146097).
  assert (Hest : DayFromYear (y - 1) <= d < DayFromYear (y + 2))
    by (subst y; unfold DayFromYear; div_lia).
  destruct (Z.ltb_spec d (DayFromYear y)).
  - replace (y - 1 + 1) with y by lia. lia.
  - destruct (Z.leb_spec (DayFromYear (y + 1)) d).
    + replace (y + 1 + 1) with (y + 2) by lia. lia.
    + lia.
Qed.

Lemma YearFromDay_unique y d :
  DayFromYear y <= d < DayFromYear (y + 1) -> YearFromDay d = y.
Proof.
  intros H. pose proof (YearFromDay_spec d) as Hs.
  destruct (Z.lt_trichotomy (YearFromDay d) y) as [Hlt | [Heq | Hgt]]; [|done|].
  - pose proof (DayFromYear_mono (YearFromDay d + 1) y). lia.
  - pose proof (DayFromYear_mono (y + 1) (YearFromDay d)). lia.
Qed.

Lemma YearFromDay_mono d1 d2 : d1 <= d2 -> YearFromDay d1 <= YearFromDay d2.
Proof.
  intros H. pose proof (YearFromDay_spec d1). pose proof (YearFromDay_spec d2).
  destruct (Z.le_gt_cases (YearFromDay d1) (YearFromDay d2)); [done|].
  pose proof (DayFromYear_mono (YearFromDay d2 + 1) (YearFromDay d1)). lia.
Qed.

Lemma InLeapYear_cases t :
  (InLeapYear t = 0 /\ DaysInYear (YearFromTime t) = 365)
  \/ (InLeapYear t = 1 /\ DaysInYear (YearFromTime t) = 366).
Proof.
  unfold InLeapYear. destruct (DaysInYear_cases (YearFromTime t)) as [-> | ->];
    simpl; auto.
Qed.

Lemma DayWithinYear_range t :
  0 <= DayWithinYear t < DaysInYear (YearFromTime t).
Proof.
  unfold DayWithinYear, YearFromTime.
  pose proof (YearFromDay_spec (Day t)).
  rewrite DayFromYear_succ in H. lia.
Qed.

Lemma MonthFromTime_range t : 0 <= MonthFromTime t <= 11.
Proof.
  unfold MonthFromTime.
  repeat match goal with |- context [if ?b then _ else _] => destruct b end; lia.
Qed.

(** The date is a day of its month. *)
Lemma DateFromTime_range t :
  1 <= DateFromTime t
       <= DaysInMonth (YearFromTime t) (MonthFromTime t + 1).
Proof.
  pose proof (DayWithinYear_range t) as Hr.
  unfold DateFromTime, MonthFromTime, DaysInMonth.
  destruct (InLeapYear_cases t) as [[-> Hy] | [-> Hy]]; rewrite Hy in *; simpl;
    repeat match goal with
           | |- context [if ?a <? ?b then _ else _] => destruct (Z.ltb_spec a b)
           end; unfold DaysBeforeMonth; simpl; lia.
Qed.

Lemma DateFromTime_le_31 t : 1 <= DateFromTime t <= 31.
Proof.
  pose proof (DateFromTime_range t) as H. unfold DaysInMonth in H.
  repeat match type of H with
         | context [if ?b then _ else _] => destruct b
         end; lia.
Qed.

(** The year, month and date of a time value make its day again. *)
Lemma MakeDay_of_time t k :
  MakeDay (YearFromTime t) (MonthFromTime t) (DateFromTime t + k) = Day t + k.
Proof.
  pose proof (MonthFromTime_range t) as Hm.
  unfold MakeDay.
  replace (MonthFromTime t / 12) with 0 by div_lia.
  replace (MonthFromTime t mod 12) with (MonthFromTime t) by div_lia.
  replace (YearFromTime t + 0) with (YearFromTime t) by lia.
  fold (InLeapYear t). unfold DateFromTime, DayWithinYear. lia.
Qed.

Lemma Day_MakeDate d time : 0 <= time < msPerDay -> Day (MakeDate d time) = d.
Proof. unfold Day, MakeDate, msPerDay. intros H. div_lia. Qed.

Lemma TimeWithinDay_range t : 0 <= TimeWithinDay t < msPerDay.
Proof. unfold TimeWithinDay, msPerDay. div_lia. Qed.

Lemma time_decompose t : t = MakeDate (Day t) (TimeWithinDay t).
Proof. unfold MakeDate, Day, TimeWithinDay, msPerDay. div_lia. Qed.

(** [setUTCDate(getUTCDate() + k)] moves a date by [k] days. *)
Lemma setUTCDate_shift t k :
  setUTCDate t (getUTCDate t + k) = t + k * msPerDay.
Proof.
  unfold setUTCDate, getUTCDate. rewrite MakeDay_of_time.
  rewrite (time_decompose t) at 3. unfold MakeDate. lia.
Qed.

End Calendar.

(** ** The order of [Array.prototype.sort] on strings *)

Module StringOrder.

Lemma compare_as_OT s1 s2 : String_as_OT.compare s1 s2 = String.compare s1 s2.
Proof.
  revert s2. induction s1 as [|c1 s1 IH]; intros [|c2 s2]; simpl; done.
Qed.

Lemma str_lt_as_OT s1 s2 : String_as_OT.lt s1 s2 <-> str_lt s1 s2.
Proof. unfold String_as_OT.lt, str_lt. by rewrite compare_as_OT. Qed.

Lemma str_lt_irrefl s : ~ str_lt s s.
Proof.
  rewrite <- str_lt_as_OT.
  apply (StrictOrder_Irreflexive (R:=String_as_OT.lt)).
Qed.

Lemma str_lt_trans s1 s2 s3 : str_lt s1 s2 -> str_lt s2 s3 -> str_lt s1 s3.
Proof.
  rewrite <- !str_lt_as_OT.
  apply (StrictOrder_Transitive (R:=String_as_OT.lt)).
Qed.

Lemma str_le_iff s1 s2 : str_le s1 s2 <-> str_lt s1 s2 \/ s1 = s2.
Proof.
  unfold str_le, str_lt, String.leb.
  destruct (String.compare s1 s2) eqn:E.
  - apply String.compare_eq_iff in E. tauto.
  - tauto.
  - split; [discriminate|]. intros [H | ->]; [discriminate|].
    pose proof (String_as_OT.compare_spec s2 s2) as Hs.
    rewrite compare_as_OT, E in Hs. inversion Hs as [| |Hgt].
    apply str_lt_as_OT in Hgt. destruct (str_lt_irrefl s2 Hgt).
Qed.

#[global] Instance str_le_trans : Transitive str_le.
Proof.
  intros s1 s2 s3. rewrite !str_le_iff.
  intros [H1 | ->] [H2 | ->]; eauto using str_lt_trans.
Qed.

#[global] Instance str_le_total : Total str_le.
Proof.
  intros s1 s2. rewrite !str_le_iff.
  pose proof (String_as_OT.compare_spec s1 s2) as Hs.
  inversion Hs as [Heq | Hlt | Hgt]; rewrite ?str_lt_as_OT in *; auto.
Qed.

#[global] Instance str_le_antisym : AntiSymm (=) str_le.
Proof.
  intros s1 s2. rewrite !str_le_iff. intros [H1 | ->] [H2 | H2]; auto.
  destruct (str_lt_irrefl s1). eauto using str_lt_trans.
Qed.

Lemma str_lt_le s1 s2 : str_lt s1 s2 -> str_le s1 s2.
Proof. rewrite str_le_iff. auto. Qed.

(** A list sorted by [<=] without repetition is strictly increasing. *)
Lemma Sorted_le_NoDup_lt (l : list string) :
  Sorted str_le l -> NoDup l -> StronglySorted str_lt l.
Proof.
  intros Hs%Sorted_StronglySorted Hn; [|apply _].
  induction Hs as [|x l Hl IH Hx]; [constructor|].
  apply NoDup_cons in Hn as [Hx' Hn].
  constructor; [auto|].
  rewrite Forall_forall in *. intros y Hy.
  destruct (proj1 (str_le_iff _ _) (Hx y Hy)) as [H | ->]; [done|].
  contradiction.
Qed.

Lemma StronglySorted_lt_le (l : list string) :
  StronglySorted str_lt l -> Sorted str_le l.
Proof.
  intros H. apply StronglySorted_Sorted.
  induction H as [|x l Hl IH Hx]; constructor; auto.
  eapply Forall_impl; [exact Hx|]. intros y. apply str_lt_le.
Qed.

Lemma StronglySorted_lt_NoDup (l : list string) :
  StronglySorted str_lt l -> NoDup l.
Proof.
  induction 1 as [|x l Hl IH Hx]; constructor; auto.
  intros Hin. rewrite Forall_forall in Hx.
  exact (str_lt_irrefl x (Hx x Hin)).
Qed.

End StringOrder.

(** ** Date strings and the order of days *)

Module ISOOrder.

Import Calendar StringOrder.

Lemma digit_mod n : digit (n mod 10) = digit n.
Proof. unfold digit. by rewrite Z.mod_mod. Qed.

Lemma digit_compare_small a b :
  0 <= a <= 9 -> 0 <= b <= 9 -> Ascii.compare (digit a) (digit b) = (a ?= b).
Proof.
  intros Ha Hb.
  assert (Ea : a = 0 \/ a = 1 \/ a = 2 \/ a = 3 \/ a = 4 \/ a = 5 \/ a = 6
               \/ a = 7 \/ a = 8 \/ a = 9) by lia.
  assert (Eb : b = 0 \/ b = 1 \/ b = 2 \/ b = 3 \/ b = 4 \/ b = 5 \/ b = 6
               \/ b = 7 \/ b = 8 \/ b = 9) by lia.
  repeat destruct Ea as [-> | Ea]; try subst a;
    repeat destruct Eb as [-> | Eb]; try subst b; reflexivity.
Qed.

Lemma digit_compare a b :
  Ascii.compare (digit a) (digit b) = (a mod 10 ?= b mod 10).
Proof.
  rewrite <- (digit_mod a), <- (digit_mod b).
  apply digit_compare_small; div_lia.
Qed.

Lemma toISODate_isoString t :
  toISODate t = isoString (YearFromTime t) (MonthFromTime t + 1) (DateFromTime t).
Proof. reflexivity. Qed.

(** With four-digit years, date strings are ordered as the dates. *)
Lemma isoString_lt y1 m1 d1 y2 m2 d2 :
  0 <= y1 <= 9999 -> 0 <= y2 <= 9999 ->
  0 <= m1 <= 99 -> 0 <= m2 <= 99 -> 0 <= d1 <= 99 -> 0 <= d2 <= 99 ->
  y1 < y2 \/ (y1 = y2 /\ (m1 < m2 \/ (m1 = m2 /\ d1 < d2))) ->
  str_lt (isoString y1 m1 d1) (isoString y2 m2 d2).
Proof.
  intros Hy1 Hy2 Hm1 Hm2 Hd1 Hd2 Hlt.
  unfold str_lt, isoString, yearString.
  replace ((0 <=? y1) && (y1 <=? 9999)) with true by (symmetry; apply andb_true_iff; lia).
  replace ((0 <=? y2) && (y2 <=? 9999)) with true by (symmetry; apply andb_true_iff; lia).
  unfold pad4, pad2. cbv [String.append String.compare].
  rewrite !digit_compare.
  change (Ascii.compare "-" "-") with Eq. cbv iota.
  repeat match goal with
         | |- context [?a ?= ?b] => destruct (Z.compare_spec a b)
         end; try reflexivity; exfalso; div_lia.
Qed.

Lemma MonthFromTime_mono t1 t2 :
  YearFromTime t1 = YearFromTime t2 -> Day t1 <= Day t2 ->
  MonthFromTime t1 <= MonthFromTime t2.
Proof.
  intros Hy Hd.
  assert (Hw : DayWithinYear t1 <= DayWithinYear t2)
    by (unfold DayWithinYear; rewrite Hy; lia).
  unfold MonthFromTime, InLeapYear. rewrite Hy.
  destruct (DaysInYear (YearFromTime t2) =? 366);
    repeat match goal with
           | |- context [if ?a <? ?b then _ else _] => destruct (Z.ltb_spec a b)
           end; lia.
Qed.

(** A later day has a later year, or the same year and a later month, or
    the same month and a later date. *)
Lemma civil_lt t1 t2 :
  Day t1 < Day t2 ->
  YearFromTime t1 < YearFromTime t2
  \/ (YearFromTime t1 = YearFromTime t2
      /\ (MonthFromTime t1 + 1 < MonthFromTime t2 + 1
          \/ (MonthFromTime t1 + 1 = MonthFromTime t2 + 1
              /\ DateFromTime t1 < DateFromTime t2))).
Proof.
  intros Hd.
  pose proof (YearFromDay_mono (Day t1) (Day t2) ltac:(lia)) as Hy.
  fold (YearFromTime t1) (YearFromTime t2) in Hy.
  destruct (Z.eq_dec (YearFromTime t1) (YearFromTime t2)) as [E | NE]; [|lia].
  right. split; [done|].
  pose proof (MonthFromTime_mono t1 t2 E ltac:(lia)) as Hm.
  destruct (Z.eq_dec (MonthFromTime t1) (MonthFromTime t2)) as [Em | NEm]; [|lia].
  right. split; [lia|].
  unfold DateFromTime, DayWithinYear, InLeapYear. rewrite E, Em. lia.
Qed.

(** Among dates with four-digit years, a later day has a later string. *)
Lemma toISODate_lt t1 t2 :
  0 <= YearFromTime t1 -> YearFromTime t2 <= 9999 -> Day t1 < Day t2 ->
  str_lt (toISODate t1) (toISODate t2).
Proof.
  intros H1 H2 Hd. rewrite !toISODate_isoString.
  pose proof (YearFromDay_mono (Day t1) (Day t2) ltac:(lia)) as Hy.
  fold (YearFromTime t1) (YearFromTime t2) in Hy.
  pose proof (MonthFromTime_range t1). pose proof (MonthFromTime_range t2).
  pose proof (DateFromTime_le_31 t1). pose proof (DateFromTime_le_31 t2).
  apply isoString_lt; try lia. by apply civil_lt.
Qed.

End ISOOrder.

(** ** What a parsed date string is *)

Module DateStrings.

Import Calendar StringOrder ISOOrder.

Lemma digitValue_range c v : digitValue c = Some v -> 0 <= v <= 9.
Proof.
  unfold digitValue.
  destruct (Z.leb_spec 48 (Z.of_N (N_of_ascii c))),
    (Z.leb_spec (Z.of_N (N_of_ascii c)) 57); simpl; intros [= <-]; lia.
Qed.

Lemma digitsValue_bound s acc v :
  0 <= acc -> digitsValue acc s = Some v ->
  acc * 10 ^ Z.of_nat (String.length s) <= v
    < (acc + 1) * 10 ^ Z.of_nat (String.length s).
Proof.
  revert acc. induction s as [|c s IH]; intros acc Hacc; simpl.
  - intros [= <-]. lia.
  - destruct (digitValue c) as [dv|] eqn:Hc; [|done].
    apply digitValue_range in Hc. intros Hv.
    apply IH in Hv; [|lia].
    rewrite Nat2Z.inj_succ, Z.pow_succ_r by lia.
    assert (0 < 10 ^ Z.of_nat (String.length s)) by (apply Z.pow_pos_nonneg; lia).
    nia.
Qed.

Lemma length_substring_le n s : (String.length (substring 0 n s) <= n)%nat.
Proof.
  revert s. induction n as [|n IH]; intros [|c s]; simpl; try lia.
  specialize (IH s). lia.
Qed.

Lemma digitsValue_substring_bound n s v :
  digitsValue 0 (substring 0 n s) = Some v -> 0 <= v < 10 ^ Z.of_nat n.
Proof.
  intros H. apply digitsValue_bound in H; [|lia].
  pose proof (length_substring_le n s) as Hl.
  assert (10 ^ Z.of_nat (String.length (substring 0 n s)) <= 10 ^ Z.of_nat n)
    by (apply Z.pow_le_mono_r; lia).
  lia.
Qed.

Lemma parseFields_spec sign ylen body y m d :
  parseFields sign ylen body = Some (y, m, d) ->
  exists yv, y = sign * yv /\ 0 <= yv < 10 ^ Z.of_nat ylen
             /\ 1 <= m <= 12 /\ 1 <= d <= DaysInMonth y m
             /\ String.length body = (ylen + 6)%nat.
Proof.
  unfold parseFields.
  destruct (digitsValue 0 (substring 0 ylen body)) as [yv|] eqn:Hy; [|done].
  destruct (digitsValue 0 (substring (ylen + 1) 2 body)) as [mv|]; [|done].
  destruct (digitsValue 0 (substring (ylen + 4) 2 body)) as [dv|]; [|done].
  destruct (_ && _) eqn:Hc; [|done]. intros [= <- <- <-].
  repeat (apply andb_true_iff in Hc as [Hc ?]).
  apply Nat.eqb_eq in Hc.
  apply digitsValue_substring_bound in Hy.
  exists yv. repeat split; lia.
Qed.

(** A parsed date string names a day of a month of a year of at most six
    digits; in the form [YYYY-MM-DD] the year has four. *)
Lemma parseYMD_spec s y m d :
  parseYMD s = Some (y, m, d) ->
  -999999 <= y <= 999999 /\ 1 <= m <= 12 /\ 1 <= d <= DaysInMonth y m
  /\ (String.length s = 10%nat -> 0 <= y <= 9999).
Proof.
  unfold parseYMD. destruct s as [|c body]; [done|].
  destruct (Ascii.eqb c "+") eqn:Hplus;
    [|destruct (Ascii.eqb c "-") eqn:Hminus];
    intros (yv & -> & Hyv & Hm & Hd & Hlen)%parseFields_spec;
    [change (10 ^ Z.of_nat 6) with 1000000 in Hyv..
    |change (10 ^ Z.of_nat 4) with 10000 in Hyv];
    repeat split; try lia; intros Hlen'; simpl in *; lia.
Qed.

Lemma MakeDay_in_year y m d :
  1 <= m <= 12 -> 1 <= d <= DaysInMonth y m ->
  DayFromYear y <= MakeDay y (m - 1) d < DayFromYear (y + 1).
Proof.
  intros Hm Hd. unfold MakeDay.
  replace ((m - 1) / 12) with 0 by div_lia.
  replace ((m - 1) mod 12) with (m - 1) by div_lia.
  rewrite Z.add_0_r, DayFromYear_succ.
  unfold DaysInMonth in Hd.
  assert (Ek : m = 1 \/ m = 2 \/ m = 3 \/ m = 4 \/ m = 5 \/ m = 6 \/ m = 7
               \/ m = 8 \/ m = 9 \/ m = 10 \/ m = 11 \/ m = 12) by lia.
  destruct (DaysInYear_cases y) as [E | E]; rewrite E in *;
    repeat destruct Ek as [-> | Ek]; try subst m;
    unfold DaysBeforeMonth; simpl in *; lia.
Qed.

(** The date that [createTimezoneSafeDate] makes of a date string is noon
    of the day the string names. *)
Lemma createTimezoneSafeDate_spec str t :
  createTimezoneSafeDate str = Some t ->
  t = Day t * msPerDay + noon
  /\ -999999 <= YearFromTime t <= 999999
  /\ (String.length str = 10%nat -> 0 <= YearFromTime t <= 9999).
Proof.
  unfold createTimezoneSafeDate.
  destruct (parseYMD str) as [[[y m] d]|] eqn:Hp; [|done].
  intros [= <-].
  apply parseYMD_spec in Hp as (Hy & Hm & Hd & Hy4).
  assert (Hday : Day (MakeDate (MakeDay y (m - 1) d) (12 * 3600000))
                 = MakeDay y (m - 1) d)
    by (apply Day_MakeDate; unfold msPerDay; lia).
  assert (Hyear : YearFromTime (MakeDate (MakeDay y (m - 1) d) (12 * 3600000))
                  = y).
  { unfold YearFromTime. rewrite Hday.
    apply YearFromDay_unique. by apply MakeDay_in_year. }
  rewrite Hyear, Hday. done.
Qed.

(** *** Date strings tell days apart *)

Lemma digit_inj a b : digit a = digit b -> a mod 10 = b mod 10.
Proof.
  intros H. pose proof (digit_compare a b) as Hc. rewrite H in Hc.
  unfold Ascii.compare in Hc. rewrite N.compare_refl in Hc.
  symmetry in Hc. by apply Z.compare_eq in Hc.
Qed.

Lemma digit_not_sign a (neg : bool) :
  digit a <> (if neg then "-"%char else "+"%char).
Proof.
  rewrite <- digit_mod.
  assert (Ha : 0 <= a mod 10 <= 9) by div_lia.
  generalize (a mod 10) Ha. intros k Hk.
  assert (Ek : k = 0 \/ k = 1 \/ k = 2 \/ k = 3 \/ k = 4 \/ k = 5 \/ k = 6
               \/ k = 7 \/ k = 8 \/ k = 9) by lia.
  destruct neg; repeat destruct Ek as [-> | Ek]; try subst k; done.
Qed.

Lemma isoString_inj y1 m1 d1 y2 m2 d2 :
  -999999 <= y1 <= 999999 -> -999999 <= y2 <= 999999 ->
  0 <= m1 <= 99 -> 0 <= m2 <= 99 -> 0 <= d1 <= 99 -> 0 <= d2 <= 99 ->
  isoString y1 m1 d1 = isoString y2 m2 d2 ->
  y1 = y2 /\ m1 = m2 /\ d1 = d2.
Proof.
  intros Hy1 Hy2 Hm1 Hm2 Hd1 Hd2.
  unfold isoString, yearString.
  destruct ((0 <=? y1) && (y1 <=? 9999)) eqn:E1;
    destruct ((0 <=? y2) && (y2 <=? 9999)) eqn:E2;
    unfold pad6, pad4, pad2; cbv [String.append]; intros H;
    injection H as H; repeat match goal with
                             | Hd : digit _ = digit _ |- _ =>
                                 apply digit_inj in Hd
                             end.
  - apply andb_true_iff in E1 as [?%Z.leb_le ?%Z.leb_le].
    apply andb_true_iff in E2 as [?%Z.leb_le ?%Z.leb_le].
    div_lia.
  - by apply digit_not_sign in H.
  - symmetry in H. by apply digit_not_sign in H.
  - assert (Hsign : (y1 <? 0) = (y2 <? 0))
      by (destruct (y1 <? 0), (y2 <? 0); done).
    assert (Habs : Z.abs y1 = Z.abs y2) by div_lia.
    destruct (Z.ltb_spec y1 0), (Z.ltb_spec y2 0); try done;
      repeat split; div_lia.
Qed.

Lemma toISODate_inj t1 t2 :
  -999999 <= YearFromTime t1 <= 999999 ->
  -999999 <= YearFromTime t2 <= 999999 ->
  toISODate t1 = toISODate t2 -> Day t1 = Day t2.
Proof.
  intros H1 H2. rewrite !toISODate_isoString.
  pose proof (MonthFromTime_range t1). pose proof (MonthFromTime_range t2).
  pose proof (DateFromTime_le_31 t1). pose proof (DateFromTime_le_31 t2).
  intros (Hy & Hm & Hd)%isoString_inj; try lia.
  pose proof (MakeDay_of_time t1 0) as E1. pose proof (MakeDay_of_time t2 0) as E2.
  rewrite !Z.add_0_r in E1, E2.
  rewrite <- E1, <- E2, Hy, Hd. f_equal. lia.
Qed.

(** *** Reading back a date string *)

Lemma digitValue_digit a : digitValue (digit a) = Some (a mod 10).
Proof.
  rewrite <- digit_mod.
  assert (Ha : 0 <= a mod 10 <= 9) by div_lia.
  rewrite <- (Z.mod_mod a 10) at 2 by lia.
  generalize (a mod 10) Ha. intros k Hk.
  assert (Ek : k = 0 \/ k = 1 \/ k = 2 \/ k = 3 \/ k = 4 \/ k = 5 \/ k = 6
               \/ k = 7 \/ k = 8 \/ k = 9) by lia.
  repeat destruct Ek as [-> | Ek]; try subst k; reflexivity.
Qed.

Lemma eqb_digit_sign a (neg : bool) :
  Ascii.eqb (digit a) (if neg then "-"%char else "+"%char) = false.
Proof. apply Ascii.eqb_neq, digit_not_sign. Qed.

Ltac read_digits :=
  cbn [substring digitsValue String.length Nat.add String.eqb Ascii.eqb
       Bool.eqb Nat.eqb];
  rewrite ?digitValue_digit;
  cbn [substring digitsValue String.length Nat.add String.eqb Ascii.eqb
       Bool.eqb Nat.eqb andb].

(** The date string of a calendar day reads back as that day. *)
Lemma parseYMD_isoString y m d :
  -999999 <= y <= 999999 -> 1 <= m <= 12 -> 1 <= d <= DaysInMonth y m ->
  parseYMD (isoString y m d) = Some (y, m, d).
Proof.
  intros Hy Hm Hd.
  assert (Hd31 : d <= 31).
  { unfold DaysInMonth in Hd.
    repeat match type of Hd with
           | context [if ?b then _ else _] => destruct b
           end; lia. }
  unfold isoString, yearString.
  destruct (Z.leb_spec 0 y) as [H0 | H0]; [destruct (Z.leb_spec y 9999) as [H9 | H9]|];
    cbn [andb]; unfold pad6, pad4, pad2; cbv [String.append]; unfold parseYMD.
  - rewrite (eqb_digit_sign _ false), (eqb_digit_sign _ true).
    unfold parseFields. read_digits.
    replace (1 * _) with y by div_lia.
    replace (10 * (10 * 0 + (m / 10) mod 10) + m mod 10) with m by div_lia.
    replace (10 * (10 * 0 + (d / 10) mod 10) + d mod 10) with d by div_lia.
    replace ((1 <=? m) && (m <=? 12) && (1 <=? d) && (d <=? DaysInMonth y m)
             && negb ((1 =? -1) && _)) with true; [done|].
    symmetry. rewrite !andb_true_iff. repeat split; try (apply Z.leb_le; lia).
  - destruct (Z.ltb_spec y 0); [lia|]. cbn [Ascii.eqb Bool.eqb].
    unfold parseFields. read_digits.
    replace (1 * _) with y by div_lia.
    replace (10 * (10 * 0 + (m / 10) mod 10) + m mod 10) with m by div_lia.
    replace (10 * (10 * 0 + (d / 10) mod 10) + d mod 10) with d by div_lia.
    replace ((1 <=? m) && (m <=? 12) && (1 <=? d) && (d <=? DaysInMonth y m)
             && negb ((1 =? -1) && _)) with true; [done|].
    symmetry. rewrite !andb_true_iff. repeat split; try (apply Z.leb_le; lia).
  - destruct (Z.ltb_spec y 0); [|lia]. cbn [Ascii.eqb Bool.eqb].
    unfold parseFields. read_digits.
    match goal with
    | |- context [(?yv =? 0)] =>
        assert (Hyv : yv = - y) by div_lia; rewrite !Hyv
    end.
    replace (-1 * - y) with y by lia.
    replace (10 * (10 * 0 + (m / 10) mod 10) + m mod 10) with m by div_lia.
    replace (10 * (10 * 0 + (d / 10) mod 10) + d mod 10) with d by div_lia.
    replace ((1 <=? m) && (m <=? 12) && (1 <=? d) && (d <=? DaysInMonth y m)
             && negb ((-1 =? -1) && (- y =? 0))) with true; [done|].
    symmetry. rewrite !andb_true_iff. repeat split; try (apply Z.leb_le; lia).
    apply negb_true_iff, andb_false_iff. right. apply Z.eqb_neq. lia.
Qed.

(** So the key of a bucket, read back by [createTimezoneSafeDate] for its
    label, is a valid date: noon of the day of the key. *)
Lemma createTimezoneSafeDate_toISODate t :
  -999999 <= YearFromTime t <= 999999 ->
  createTimezoneSafeDate (toISODate t) = Some (Day t * msPerDay + noon).
Proof.
  intros Hy. rewrite toISODate_isoString. unfold createTimezoneSafeDate.
  pose proof (MonthFromTime_range t). pose proof (DateFromTime_range t).
  rewrite parseYMD_isoString by (done || lia).
  replace (MonthFromTime t + 1 - 1) with (MonthFromTime t) by lia.
  pose proof (MakeDay_of_time t 0) as E. rewrite !Z.add_0_r in E.
  by rewrite E.
Qed.

End DateStrings.

(** ** The seeding loop *)

Module Seeding.

Import Calendar StringOrder ISOOrder.

Lemma MakeDay_month_succ y m d : MakeDay y m d < MakeDay y (m + 1) d.
Proof.
  unfold MakeDay.
  assert (Hm : 0 <= m mod 12 < 12) by div_lia.
  destruct (Z.eq_dec (m mod 12) 11) as [E | NE].
  - replace ((m + 1) / 12) with (m / 12 + 1) by div_lia.
    replace ((m + 1) mod 12) with 0 by div_lia.
    rewrite E, Z.add_assoc, DayFromYear_succ.
    destruct (DaysInYear_cases (y + m / 12)) as [-> | ->];
      unfold DaysBeforeMonth; simpl; lia.
  - replace ((m + 1) / 12) with (m / 12) by div_lia.
    replace ((m + 1) mod 12) with (m mod 12 + 1) by div_lia.
    generalize (m mod 12) Hm NE. intros k Hk Hk'.
    assert (Ek : k = 0 \/ k = 1 \/ k = 2 \/ k = 3 \/ k = 4 \/ k = 5 \/ k = 6
                 \/ k = 7 \/ k = 8 \/ k = 9 \/ k = 10) by lia.
    destruct (DaysInYear (y + m / 12) =? 366);
      repeat destruct Ek as [-> | Ek]; try subst k;
      unfold DaysBeforeMonth; simpl; lia.
Qed.

Lemma MakeDay_year_succ y m d :
  0 <= m <= 11 -> MakeDay y m d < MakeDay (y + 1) m d.
Proof.
  intros Hm. unfold MakeDay.
  replace (m / 12) with 0 by div_lia.
  replace (m mod 12) with m by div_lia.
  rewrite !Z.add_0_r, DayFromYear_succ.
  assert (Ek : m = 0 \/ m = 1 \/ m = 2 \/ m = 3 \/ m = 4 \/ m = 5 \/ m = 6
               \/ m = 7 \/ m = 8 \/ m = 9 \/ m = 10 \/ m = 11) by lia.
  destruct (DaysInYear_cases y) as [-> | ->];
    destruct (DaysInYear (y + 1) =? 366);
    repeat destruct Ek as [-> | Ek]; try subst m;
    unfold DaysBeforeMonth; simpl; lia.
Qed.

Lemma Day_setUTCMonth t m :
  Day (setUTCMonth t m) = MakeDay (YearFromTime t) m (DateFromTime t).
Proof. apply Day_MakeDate, TimeWithinDay_range. Qed.

Lemma Day_setUTCFullYear t y :
  Day (setUTCFullYear t y) = MakeDay y (MonthFromTime t) (DateFromTime t).
Proof. apply Day_MakeDate, TimeWithinDay_range. Qed.

Lemma Day_shift t k : Day (t + k * msPerDay) = Day t + k.
Proof. unfold Day, msPerDay. div_lia. Qed.

(** Every turn of the loop moves [currentDate] to a later day. *)
Lemma seedStep_advances aggregationType currentDate :
  Day currentDate < Day (seedStep aggregationType currentDate).2.
Proof.
  pose proof (MakeDay_of_time currentDate 0) as Hd. rewrite !Z.add_0_r in Hd.
  destruct aggregationType; simpl.
  - rewrite setUTCDate_shift, Day_shift. lia.
  - rewrite setUTCDate_shift, Day_shift. lia.
  - unfold getUTCMonth. rewrite Day_setUTCMonth, <- Hd.
    apply MakeDay_month_succ.
  - unfold getUTCMonth. rewrite Day_setUTCMonth, <- Hd at 1.
    pose proof (MakeDay_month_succ (YearFromTime currentDate)
                  (MonthFromTime currentDate) (DateFromTime currentDate)).
    pose proof (MakeDay_month_succ (YearFromTime currentDate)
                  (MonthFromTime currentDate + 1) (DateFromTime currentDate)).
    pose proof (MakeDay_month_succ (YearFromTime currentDate)
                  (MonthFromTime currentDate + 1 + 1) (DateFromTime currentDate)).
    replace (MonthFromTime currentDate + 3)
      with (MonthFromTime currentDate + 1 + 1 + 1) by lia.
    lia.
  - unfold getUTCFullYear. rewrite Day_setUTCFullYear, <- Hd at 1.
    apply MakeDay_year_succ, MonthFromTime_range.
Qed.

Lemma later_day_later_time t1 t2 : Day t1 < Day t2 -> t1 < t2.
Proof. unfold Day, msPerDay. intros H. div_lia. Qed.

(** The loop has left by its own test once the fuel of [groupData] is
    spent: more fuel changes nothing. *)
Lemma seedBuckets_fuel_enough fuel extra aggregationType end_ currentDate g :
  inclusiveDays currentDate end_ <= Z.of_nat fuel ->
  seedBuckets (fuel + extra) aggregationType end_ currentDate g
  = seedBuckets fuel aggregationType end_ currentDate g.
Proof.
  unfold inclusiveDays.
  revert currentDate g. induction fuel as [|fuel IH]; intros cur g Hf.
  - simpl. destruct extra as [|extra]; [done|]. simpl.
    destruct (Z.leb_spec cur end_) as [Hle|]; [|done].
    pose proof (later_day_later_time end_ cur ltac:(lia)). lia.
  - simpl. destruct (Z.leb_spec cur end_) as [Hle|]; [|done].
    pose proof (seedStep_advances aggregationType cur) as Hadv.
    destruct (seedStep aggregationType cur) as [keyDate next]. simpl in Hadv.
    apply IH. lia.
Qed.

Lemma seedBuckets_seedKeys fuel aggregationType end_ currentDate g :
  seedBuckets fuel aggregationType end_ currentDate g
  = foldl (fun g k => <[k := zeroBucket]> g) g
      (seedKeys fuel aggregationType end_ currentDate).
Proof.
  revert currentDate g. induction fuel as [|fuel IH]; intros cur g; [done|].
  simpl. destruct (cur <=? end_); [|done].
  destruct (seedStep aggregationType cur) as [keyDate next]. simpl. apply IH.
Qed.

Lemma lookup_seeded (ks : list string) (g : gmap string Bucket) (k : string) :
  foldl (fun g k => <[k := zeroBucket]> g) g ks !! k
  = if decide (k ∈ ks) then Some zeroBucket else g !! k.
Proof.
  revert g. induction ks as [|k0 ks IH]; intros g; cbn [foldl].
  - destruct (decide (k ∈ [])) as [Hin%elem_of_nil | _]; done.
  - rewrite IH. destruct (decide (k ∈ ks)) as [Hin | Hnin].
    + rewrite decide_True; [done|]. by right.
    + destruct (decide (k0 = k)) as [-> | Hne].
      * rewrite lookup_insert_eq, decide_True; [done|]. by left.
      * rewrite lookup_insert_ne by done. rewrite decide_False; [done|].
        intros [->|?]%elem_of_cons; done.
Qed.

Lemma dom_seeded (ks : list string) :
  dom (foldl (fun g k => <[k := zeroBucket]> g) (∅ : gmap string Bucket) ks)
  = list_to_set ks.
Proof.
  apply set_eq. intros k. rewrite elem_of_dom, lookup_seeded, elem_of_list_to_set.
  destruct (decide (k ∈ ks)); [by split; eauto|].
  rewrite lookup_empty. split; [by intros [? ?]|done].
Qed.

End Seeding.

(** ** Buckets and their sorted keys *)

Module Buckets.

Import Calendar StringOrder ISOOrder Seeding.

Lemma daysFrom_elem s n t :
  t ∈ daysFrom s n ->
  exists i, 0 <= i < Z.of_nat n /\ t = s + i * msPerDay.
Proof.
  revert s. induction n as [|n IH]; intros s; simpl.
  - by intros ?%elem_of_nil.
  - intros [-> | Hin]%elem_of_cons.
    + exists 0. lia.
    + destruct (IH _ Hin) as (i & Hi & ->). exists (i + 1). lia.
Qed.

Lemma length_daysFrom s n : length (daysFrom s n) = n.
Proof. revert s. induction n as [|n IH]; intros s; simpl; auto. Qed.

(** The daily walk visits the days from [currentDate] to [end], one by
    one. *)
Lemma seedKeys_daily n fuel end_ currentDate :
  (n <= fuel)%nat ->
  currentDate + Z.of_nat n * msPerDay - msPerDay <= end_
    < currentDate + Z.of_nat n * msPerDay ->
  seedKeys fuel daily end_ currentDate = toISODate <$> daysFrom currentDate n.
Proof.
  revert fuel currentDate. induction n as [|n IH]; intros fuel cur Hf He.
  - destruct fuel as [|fuel]; [done|]. simpl.
    destruct (Z.leb_spec cur end_); [lia | done].
  - destruct fuel as [|fuel]; [lia|]. simpl.
    assert (0 < msPerDay) by (unfold msPerDay; lia).
    destruct (Z.leb_spec cur end_); [|nia].
    f_equal. rewrite setUTCDate_shift. rewrite Z.mul_1_l.
    apply IH; [lia | nia].
Qed.

(** Their date strings are strictly increasing while the years have four
    digits. *)
Lemma daysFrom_sorted s n e :
  0 <= YearFromTime s -> YearFromTime e <= 9999 ->
  Day s + Z.of_nat n - 1 <= Day e ->
  StronglySorted str_lt (toISODate <$> daysFrom s n).
Proof.
  revert s. induction n as [|n IH]; intros s Hs He Hn; simpl; constructor.
  - apply IH; [|done|].
    + pose proof (YearFromDay_mono (Day s) (Day (s + msPerDay))) as Hm.
      rewrite <- (Z.mul_1_l msPerDay) in Hm at 1. rewrite Day_shift in Hm.
      unfold YearFromTime in *. lia.
    + rewrite <- (Z.mul_1_l msPerDay). rewrite Day_shift. lia.
  - apply Forall_fmap, Forall_forall. intros t Ht. simpl.
    apply daysFrom_elem in Ht as (i & Hi & ->).
    assert (Hd : Day (s + msPerDay + i * msPerDay) = Day s + (1 + i)).
    { rewrite <- Day_shift. f_equal. lia. }
    apply toISODate_lt; [done| |lia].
    pose proof (YearFromDay_mono (Day (s + msPerDay + i * msPerDay)) (Day e)).
    unfold YearFromTime in *. lia.
Qed.

Lemma daysFrom_NoDup s n : NoDup (daysFrom s n).
Proof.
  revert s. induction n as [|n IH]; intros s; simpl; constructor; [|done].
  intros (i & Hi & E)%daysFrom_elem. unfold msPerDay in E. lia.
Qed.

(** Date strings of distinct days of the range are distinct, whatever the
    form of the year. *)
Lemma daysFrom_keys_NoDup s n e :
  -999999 <= YearFromTime s -> YearFromTime e <= 999999 ->
  Day s + Z.of_nat n - 1 <= Day e ->
  NoDup (toISODate <$> daysFrom s n).
Proof.
  intros Hs He Hn.
  assert (Hyear : forall t, t ∈ daysFrom s n ->
            -999999 <= YearFromTime t <= 999999
            /\ exists i, 0 <= i < Z.of_nat n /\ t = s + i * msPerDay).
  { intros t (i & Hi & ->)%daysFrom_elem. split; [|by eauto].
    pose proof (Day_shift s i) as Hd.
    pose proof (YearFromDay_mono (Day s) (Day (s + i * msPerDay))).
    pose proof (YearFromDay_mono (Day (s + i * msPerDay)) (Day e)).
    unfold YearFromTime in *. lia. }
  apply NoDup_fmap_2_strong; [|apply daysFrom_NoDup].
  intros t1 t2 Ht1 Ht2 Heq.
  destruct (Hyear t1 Ht1) as (Hy1 & i & Hi & ->).
  destruct (Hyear t2 Ht2) as (Hy2 & j & Hj & ->).
  apply DateStrings.toISODate_inj in Heq; [|done..].
  rewrite !Day_shift in Heq. f_equal. f_equal. lia.
Qed.

Lemma dom_addToBucket aggregationType (g : gmap string Bucket) t :
  dom (addToBucket aggregationType g t) = dom g.
Proof.
  unfold addToBucket.
  destruct (g !! transactionKey aggregationType t) as [b|] eqn:E; [|done].
  destruct (String.eqb (type t) "income");
    apply dom_insert_lookup_L; by eexists.
Qed.

Lemma dom_fold_addToBucket aggregationType data (g : gmap string Bucket) :
  dom (fold_left (addToBucket aggregationType) data g) = dom g.
Proof.
  revert g. induction data as [|t data IH]; intros g; simpl; [done|].
  by rewrite IH, dom_addToBucket.
Qed.

Lemma lookup_addToBucket_ne aggregationType (g : gmap string Bucket) t k :
  transactionKey aggregationType t <> k ->
  addToBucket aggregationType g t !! k = g !! k.
Proof.
  intros Hne. unfold addToBucket.
  destruct (g !! transactionKey aggregationType t) as [b|]; [|done].
  destruct (String.eqb (type t) "income"); by rewrite lookup_insert_ne.
Qed.

(** A bucket that no transaction falls in keeps what it held. *)
Lemma lookup_fold_addToBucket_untouched aggregationType data
    (g : gmap string Bucket) k :
  Forall (fun t => transactionKey aggregationType t <> k) data ->
  fold_left (addToBucket aggregationType) data g !! k = g !! k.
Proof.
  intros H. revert g. induction H as [|t data Ht Hdata IH]; intros g; simpl.
  - done.
  - by rewrite IH, lookup_addToBucket_ne.
Qed.

Lemma sortedKeysOf_perm (g : gmap string Bucket) :
  sortedKeysOf g ≡ₚ (map_to_list g).*1.
Proof. apply merge_sort_Permutation. Qed.

Lemma sortedKeysOf_elem (g : gmap string Bucket) k :
  k ∈ sortedKeysOf g <-> k ∈ dom g.
Proof.
  rewrite sortedKeysOf_perm, elem_of_dom, list_elem_of_fmap. split.
  - intros ([k' b] & -> & Hin). apply elem_of_map_to_list in Hin. by eexists.
  - intros [b Hb]. exists (k, b). split; [done|]. by apply elem_of_map_to_list.
Qed.

Lemma sortedKeysOf_NoDup (g : gmap string Bucket) : NoDup (sortedKeysOf g).
Proof. rewrite sortedKeysOf_perm. apply NoDup_fst_map_to_list. Qed.

Lemma sortedKeysOf_sorted (g : gmap string Bucket) :
  StronglySorted str_lt (sortedKeysOf g).
Proof.
  apply Sorted_le_NoDup_lt; [|apply sortedKeysOf_NoDup].
  apply Sorted_merge_sort. apply _.
Qed.

Lemma length_sortedKeysOf (g : gmap string Bucket) :
  length (sortedKeysOf g) = size g.
Proof.
  rewrite sortedKeysOf_perm, length_fmap. apply length_map_to_list.
Qed.

(** The sorted key list is the one strictly increasing list of the keys. *)
Lemma sortedKeysOf_unique (g : gmap string Bucket) (l : list string) :
  StronglySorted str_lt l -> (forall k, k ∈ l <-> k ∈ dom g) ->
  sortedKeysOf g = l.
Proof.
  intros Hl Hdom. apply (Sorted_unique str_le).
  - apply Sorted_merge_sort. apply _.
  - by apply StronglySorted_lt_le.
  - apply NoDup_Permutation.
    + apply sortedKeysOf_NoDup.
    + by apply StronglySorted_lt_NoDup.
    + intros k. by rewrite sortedKeysOf_elem, Hdom.
Qed.

End Buckets.

(** ** [processChartData]: granularity and buckets *)

Module ChartFacts.

Import Calendar StringOrder ISOOrder Seeding Buckets.

Lemma createTimezoneSafeDate_noon str t :
  createTimezoneSafeDate str = Some t -> t = Day t * msPerDay + noon.
Proof.
  unfold createTimezoneSafeDate.
  destruct (parseYMD str) as [[[y m] d]|]; [|done].
  intros [= <-]. rewrite Day_MakeDate; [done|]. unfold msPerDay. lia.
Qed.

Lemma dayCount_noon s e :
  s = Day s * msPerDay + noon -> e = Day e * msPerDay + noon ->
  dayCount (Some s) (Some e) = Some (Qc_of_Z (inclusiveDays s e)).
Proof.
  intros Hs He. unfold dayCount, inclusiveDays. f_equal.
  replace (e - s) with ((Day e - Day s) * msPerDay) by lia.
  change (1000 * 60 * 60 * 24) with msPerDay.
  rewrite Qc_of_Z_div_exact by (unfold msPerDay; lia).
  by rewrite Z2Qc_inj_add, Z2Qc_inj_1.
Qed.

(** The chain of comparisons on a whole number of days. *)
Lemma selectAggregation_days (n : Z) :
  selectAggregation (Some (Qc_of_Z n))
  = if 730 <? n then yearly
    else if 180 <? n then monthly
    else if 45 <? n then weekly
    else daily.
Proof.
  unfold selectAggregation. change (365 * 2) with 730.
  destruct (decide (Qc_of_Z 730 < Qc_of_Z n)%Qc) as [H1 | H1];
    rewrite <- Z2Qc_inj_lt in H1;
    destruct (Z.ltb_spec 730 n); try lia; [done|].
  destruct (decide (Qc_of_Z 180 < Qc_of_Z n)%Qc) as [H2 | H2];
    rewrite <- Z2Qc_inj_lt in H2;
    destruct (Z.ltb_spec 180 n); try lia; [done|].
  destruct (decide (Qc_of_Z 45 < Qc_of_Z n)%Qc) as [H3 | H3];
    rewrite <- Z2Qc_inj_lt in H3;
    destruct (Z.ltb_spec 45 n); try lia; done.
Qed.

Lemma selectAggregation_not_quarterly dc : selectAggregation dc <> quarterly.
Proof.
  destruct dc as [dc|]; [|done]. unfold selectAggregation.
  change (365 * 2) with 730.
  destruct (decide (Qc_of_Z 730 < dc)%Qc); [done|].
  destruct (decide (Qc_of_Z 180 < dc)%Qc); [done|].
  destruct (decide (Qc_of_Z 45 < dc)%Qc); done.
Qed.

Lemma groupData_eq data startDateStr endDateStr s e :
  createTimezoneSafeDate startDateStr = Some s ->
  createTimezoneSafeDate endDateStr = Some e ->
  groupData data startDateStr endDateStr
  = let agg := selectAggregation (Some (Qc_of_Z (inclusiveDays s e))) in
    (agg,
     fold_left (addToBucket agg) data
       (foldl (fun g k => <[k := zeroBucket]> g) ∅
          (seedKeys (seedFuel s e) agg e s))).
Proof.
  intros Hs He. unfold groupData. rewrite Hs, He.
  rewrite dayCount_noon by eauto using createTimezoneSafeDate_noon.
  cbv zeta. by rewrite seedBuckets_seedKeys.
Qed.

Lemma groupData_aggregation data startDateStr endDateStr s e :
  createTimezoneSafeDate startDateStr = Some s ->
  createTimezoneSafeDate endDateStr = Some e ->
  (groupData data startDateStr endDateStr).1
  = selectAggregation (Some (Qc_of_Z (inclusiveDays s e))).
Proof. intros Hs He. by rewrite (groupData_eq _ _ _ _ _ Hs He). Qed.

(** The fuel of [groupData] lets the seeding loop run to its end. *)
Lemma groupData_fuel_enough extra aggregationType s e :
  seedBuckets (seedFuel s e + extra) aggregationType e s ∅
  = seedBuckets (seedFuel s e) aggregationType e s ∅.
Proof.
  apply seedBuckets_fuel_enough. unfold seedFuel, inclusiveDays. lia.
Qed.

(** The buckets do not depend on the transactions. *)
Lemma groupData_dom data startDateStr endDateStr :
  dom (groupData data startDateStr endDateStr).2
  = dom (groupData [] startDateStr endDateStr).2.
Proof. unfold groupData. simpl. apply dom_fold_addToBucket. Qed.

Lemma groupData_seed_zero startDateStr endDateStr k b :
  (groupData [] startDateStr endDateStr).2 !! k = Some b -> b = zeroBucket.
Proof.
  unfold groupData. simpl.
  destruct (createTimezoneSafeDate startDateStr) as [s|]; [|by rewrite lookup_empty].
  destruct (createTimezoneSafeDate endDateStr) as [e|]; [|by rewrite lookup_empty].
  rewrite seedBuckets_seedKeys, lookup_seeded.
  destruct (decide _); [congruence | by rewrite lookup_empty].
Qed.

Lemma groupData_untouched data startDateStr endDateStr k :
  k ∈ dom (groupData [] startDateStr endDateStr).2 ->
  Forall (fun t =>
            transactionKey (groupData data startDateStr endDateStr).1 t <> k)
    data ->
  (groupData data startDateStr endDateStr).2 !! k = Some zeroBucket.
Proof.
  intros [b Hb]%elem_of_dom Hdata.
  pose proof (groupData_seed_zero _ _ _ _ Hb) as ->.
  unfold groupData in *. simpl in *.
  by rewrite lookup_fold_addToBucket_untouched.
Qed.

Lemma daily_seedKeys s e :
  s = Day s * msPerDay + noon -> e = Day e * msPerDay + noon ->
  seedKeys (seedFuel s e) daily e s = toISODate <$> daysFrom s (seedFuel s e).
Proof.
  intros Hs He. unfold seedFuel.
  destruct (Z.le_gt_cases (Day s) (Day e)) as [Hle | Hgt].
  - apply seedKeys_daily; [done|].
    rewrite Z2Nat.id by lia. unfold msPerDay in *. lia.
  - replace (Z.to_nat (Day e - Day s + 1)) with 0%nat by lia. done.
Qed.

(** With daily granularity the buckets are the days of the range. *)
Lemma daily_dom data startDateStr endDateStr s e :
  createTimezoneSafeDate startDateStr = Some s ->
  createTimezoneSafeDate endDateStr = Some e ->
  inclusiveDays s e <= 45 ->
  dom (groupData data startDateStr endDateStr).2
  = list_to_set (toISODate <$> daysFrom s (seedFuel s e)).
Proof.
  intros Hs He Hn. rewrite groupData_dom.
  rewrite (groupData_eq [] _ _ _ _ Hs He), selectAggregation_days.
  repeat match goal with
         | |- context [?a <? ?b] => destruct (Z.ltb_spec a b); try lia
         end.
  cbn [snd fold_left].
  rewrite daily_seedKeys by eauto using createTimezoneSafeDate_noon.
  apply dom_seeded.
Qed.

Lemma daily_sortedKeys data startDateStr endDateStr s e :
  createTimezoneSafeDate startDateStr = Some s ->
  createTimezoneSafeDate endDateStr = Some e ->
  0 <= YearFromTime s -> YearFromTime e <= 9999 ->
  inclusiveDays s e <= 45 ->
  sortedKeysOf (groupData data startDateStr endDateStr).2
  = toISODate <$> daysFrom s (seedFuel s e).
Proof.
  intros Hs He Hys Hye Hn. apply sortedKeysOf_unique.
  - destruct (Z.le_gt_cases (Day s) (Day e)).
    + apply (daysFrom_sorted s _ e); [done..|]. unfold seedFuel. lia.
    + unfold seedFuel.
      replace (Z.to_nat (Day e - Day s + 1)) with 0%nat by lia. constructor.
  - intros k. rewrite (daily_dom _ _ _ _ _ Hs He Hn).
    by rewrite elem_of_list_to_set.
Qed.

End ChartFacts.

(** ** [processChartData]: the four series *)

Section ChartOutput.

Import Buckets.

Variable toLocaleDateString : option Z -> LocaleOptions -> string.

Lemma pushLabel_push aggregationType ls ts key :
  pushLabel toLocaleDateString aggregationType (ls, ts) key
  = (ls ++ [labelOf toLocaleDateString aggregationType key],
     ts ++ [tooltipOf toLocaleDateString aggregationType key]).
Proof. by destruct aggregationType. Qed.

Lemma fold_pushLabel aggregationType keys ls ts :
  fold_left (pushLabel toLocaleDateString aggregationType) keys (ls, ts)
  = (ls ++ (labelOf toLocaleDateString aggregationType <$> keys),
     ts ++ (tooltipOf toLocaleDateString aggregationType <$> keys)).
Proof.
  revert ls ts. induction keys as [|key keys IH]; intros ls ts;
    cbn [fold_left fmap list_fmap].
  - by rewrite !app_nil_r.
  - rewrite pushLabel_push, IH, <- !app_assoc. done.
Qed.

(** The four series are maps over the one list of sorted keys. *)
Lemma processChartData_eq data startDateStr endDateStr :
  let agg := (groupData data startDateStr endDateStr).1 in
  let grouped := (groupData data startDateStr endDateStr).2 in
  processChartData toLocaleDateString data startDateStr endDateStr
  = {| labels := labelOf toLocaleDateString agg <$> sortedKeysOf grouped;
       tooltipTitles := tooltipOf toLocaleDateString agg <$> sortedKeysOf grouped;
       incomeData := (fun key => income (grouped !!! key)) <$> sortedKeysOf grouped;
       expenseData := (fun key => expense (grouped !!! key)) <$> sortedKeysOf grouped |}.
Proof.
  unfold processChartData.
  destruct (groupData data startDateStr endDateStr) as [agg grouped]. simpl.
  by rewrite fold_pushLabel.
Qed.

Lemma processChartData_lengths data startDateStr endDateStr :
  let n := size (groupData data startDateStr endDateStr).2 in
  let chart := processChartData toLocaleDateString data startDateStr endDateStr in
  length (labels chart) = n /\ length (tooltipTitles chart) = n
  /\ length (incomeData chart) = n /\ length (expenseData chart) = n.
Proof.
  simpl. rewrite processChartData_eq. simpl.
  rewrite !length_fmap, length_sortedKeysOf. done.
Qed.

End ChartOutput.

(** * The claims *)

(** C2.  The granularity of [processChartData] is a step function of the
    inclusive number of days of the range: more than 730 days is yearly,
    more than 180 (up to 730) monthly, more than 45 (up to 180) weekly, and
    daily otherwise; so 60 days are weekly, 200 monthly and 800 yearly.
    The quarterly branch is taken for no day count at all. *)
Theorem granularity_step_function data startDateStr endDateStr s e :
  createTimezoneSafeDate startDateStr = Some s ->
  createTimezoneSafeDate endDateStr = Some e ->
  let span := inclusiveDays s e in
  let aggregationType := (groupData data startDateStr endDateStr).1 in
  aggregationType
  = (if 730 <? span then yearly
     else if 180 <? span then monthly
     else if 45 <? span then weekly
     else daily)
  /\ (span = 60 -> aggregationType = weekly)
  /\ (span = 200 -> aggregationType = monthly)
  /\ (span = 800 -> aggregationType = yearly)
  /\ (forall dayCount, selectAggregation dayCount <> quarterly).
Proof.
  intros Hs He span agg.
  assert (Hagg : agg = if 730 <? span then yearly
                       else if 180 <? span then monthly
                       else if 45 <? span then weekly
                       else daily).
  { subst agg span.
    rewrite (ChartFacts.groupData_aggregation _ _ _ _ _ Hs He).
    apply ChartFacts.selectAggregation_days. }
  split; [exact Hagg|].
  repeat split; try (intros Hspan; rewrite Hagg, Hspan; reflexivity).
  apply ChartFacts.selectAggregation_not_quarterly.
Qed.

Lemma granularity_step_function_witness :
  createTimezoneSafeDate "2024-01-01" = Some 1704110400000
  /\ createTimezoneSafeDate "2024-02-29" = Some 1709208000000
  /\ (groupData [] "2024-01-01" "2024-02-29").1 = weekly.
Proof.
  split; [reflexivity|]. split; [reflexivity|].
  exact (proj1 (granularity_step_function [] "2024-01-01" "2024-02-29"
                  1704110400000 1709208000000 eq_refl eq_refl)).
Defined.

(** C3.  Every bucket that [processChartData] generates is seeded with
    income 0 and expense 0 before any transaction is applied, the buckets
    are the same whatever the transactions, and a bucket that no
    transaction falls in appears in the result with zero sums.  With daily
    granularity (at most 45 days, both ends included) the number of
    buckets, and of entries of each series, is the number of days. *)
Theorem buckets_preseeded_daily_count
    (toLocaleDateString : option Z -> LocaleOptions -> string)
    data startDateStr endDateStr s e :
  createTimezoneSafeDate startDateStr = Some s ->
  createTimezoneSafeDate endDateStr = Some e ->
  s <= e ->
  let seeded := (groupData [] startDateStr endDateStr).2 in
  let aggregationType := (groupData data startDateStr endDateStr).1 in
  let groupedData := (groupData data startDateStr endDateStr).2 in
  let chart := processChartData toLocaleDateString data startDateStr endDateStr in
  (forall k b, seeded !! k = Some b -> income b = 0%Qc /\ expense b = 0%Qc)
  /\ dom groupedData = dom seeded
  /\ (forall k, k ∈ dom seeded ->
        Forall (fun t => transactionKey aggregationType t <> k) data ->
        groupedData !! k = Some zeroBucket /\ k ∈ sortedKeysOf groupedData)
  /\ (inclusiveDays s e <= 45 ->
        aggregationType = daily
        /\ Z.of_nat (size groupedData) = inclusiveDays s e
        /\ Z.of_nat (length (labels chart)) = inclusiveDays s e
        /\ Z.of_nat (length (tooltipTitles chart)) = inclusiveDays s e
        /\ Z.of_nat (length (incomeData chart)) = inclusiveDays s e
        /\ Z.of_nat (length (expenseData chart)) = inclusiveDays s e).
Proof.
  intros Hs He Hse seeded agg grouped chart.
  split; [|split; [|split]].
  - intros k b Hb. apply ChartFacts.groupData_seed_zero in Hb as ->. done.
  - apply ChartFacts.groupData_dom.
  - intros k Hk Hdata. split.
    + by apply ChartFacts.groupData_untouched.
    + apply Buckets.sortedKeysOf_elem.
      subst grouped. by rewrite ChartFacts.groupData_dom.
  - intros Hn.
    destruct (DateStrings.createTimezoneSafeDate_spec _ _ Hs) as (Hsn & Hsy & _).
    destruct (DateStrings.createTimezoneSafeDate_spec _ _ He) as (Hen & Hey & _).
    assert (Hdays : Day s <= Day e) by (unfold noon, msPerDay in *; lia).
    assert (Hsize : Z.of_nat (size grouped) = inclusiveDays s e).
    { subst grouped.
      rewrite <- size_dom, (ChartFacts.daily_dom _ _ _ _ _ Hs He Hn).
      rewrite size_list_to_set.
      - rewrite length_fmap, Buckets.length_daysFrom. unfold seedFuel.
        unfold inclusiveDays. lia.
      - apply (Buckets.daysFrom_keys_NoDup s _ e); [lia..|].
        unfold seedFuel. lia. }
    destruct (processChartData_lengths toLocaleDateString data startDateStr
                endDateStr) as (H1 & H2 & H3 & H4).
    fold grouped chart in H1, H2, H3, H4.
    split.
    + subst agg. rewrite (ChartFacts.groupData_aggregation _ _ _ _ _ Hs He).
      rewrite ChartFacts.selectAggregation_days.
      repeat match goal with
             | |- context [?a <? ?b] => destruct (Z.ltb_spec a b); try lia
             end.
      done.
    + rewrite H1, H2, H3, H4. done.
Qed.

Lemma buckets_preseeded_daily_count_witness :
  createTimezoneSafeDate "2024-01-01" = Some 1704110400000
  /\ createTimezoneSafeDate "2024-01-05" = Some 1704456000000
  /\ 1704110400000 <= 1704456000000
  /\ inclusiveDays 1704110400000 1704456000000 <= 45
  /\ Z.of_nat (size (groupData [] "2024-01-01" "2024-01-05").2) = 5.
Proof.
  assert (H1 : 1704110400000 <= 1704456000000) by lia.
  assert (H4 : inclusiveDays 1704110400000 1704456000000 <= 45)
    by (vm_compute; discriminate).
  repeat (split; [first [reflexivity | assumption]|]).
  pose proof (buckets_preseeded_daily_count (fun _ _ => EmptyString) []
                "2024-01-01" "2024-01-05" 1704110400000 1704456000000
                eq_refl eq_refl H1) as (_ & _ & _ & H).
  exact (proj1 (proj2 (H H4))).
Defined.

(** C4.  The bucket keys of [processChartData], once sorted, are strictly
    increasing, so no key is repeated; with daily granularity they are the
    date strings of the consecutive calendar days from the start date to
    the end date, both included, in that order and without a gap.  The
    dates are given as [YYYY-MM-DD], the form of the date input. *)
Theorem sorted_keys_increasing_daily_cover data startDateStr endDateStr s e :
  createTimezoneSafeDate startDateStr = Some s ->
  createTimezoneSafeDate endDateStr = Some e ->
  String.length startDateStr = 10%nat ->
  String.length endDateStr = 10%nat ->
  let sortedKeys := sortedKeysOf (groupData data startDateStr endDateStr).2 in
  StronglySorted str_lt sortedKeys
  /\ NoDup sortedKeys
  /\ (inclusiveDays s e <= 45 ->
        sortedKeys
        = toISODate <$> daysFrom s (Z.to_nat (inclusiveDays s e))).
Proof.
  intros Hs He Hls Hle sortedKeys. split; [|split].
  - apply Buckets.sortedKeysOf_sorted.
  - apply Buckets.sortedKeysOf_NoDup.
  - intros Hn.
    destruct (DateStrings.createTimezoneSafeDate_spec _ _ Hs) as (_ & _ & Hsy).
    destruct (DateStrings.createTimezoneSafeDate_spec _ _ He) as (_ & _ & Hey).
    apply ChartFacts.daily_sortedKeys; try done; [apply Hsy | apply Hey]; done.
Qed.

Lemma sorted_keys_increasing_daily_cover_witness :
  createTimezoneSafeDate "2024-02-27" = Some 1709035200000
  /\ createTimezoneSafeDate "2024-03-02" = Some 1709380800000
  /\ String.length "2024-02-27" = 10%nat
  /\ String.length "2024-03-02" = 10%nat
  /\ inclusiveDays 1709035200000 1709380800000 <= 45
  /\ sortedKeysOf (groupData [] "2024-02-27" "2024-03-02").2
     = toISODate <$> daysFrom 1709035200000 5.
Proof.
  assert (H4 : inclusiveDays 1709035200000 1709380800000 <= 45)
    by (vm_compute; discriminate).
  repeat (split; [first [reflexivity | assumption]|]).
  exact (proj2 (proj2 (sorted_keys_increasing_daily_cover []
                         "2024-02-27" "2024-03-02" 1709035200000 1709380800000
                         eq_refl eq_refl eq_refl eq_refl)) H4).
Defined.

(** C10.  For every range and every list of transactions the four series
    of [processChartData] have the length of the sorted list of the bucket
    keys, which has one entry for each bucket and is strictly increasing.
    At each position [i] all four describe the bucket of the [i]-th key:
    the label and the tooltip title are the texts that the aggregation
    type prescribes for the date of that key, and the two amounts are the
    sums of its bucket. *)
Theorem chart_series_aligned
    (toLocaleDateString : option Z -> LocaleOptions -> string)
    data startDateStr endDateStr :
  let aggregationType := (groupData data startDateStr endDateStr).1 in
  let groupedData := (groupData data startDateStr endDateStr).2 in
  let sortedKeys := sortedKeysOf groupedData in
  let chart := processChartData toLocaleDateString data startDateStr endDateStr in
  let format := toLocaleDateString in
  length (labels chart) = size groupedData
  /\ length (tooltipTitles chart) = size groupedData
  /\ length (incomeData chart) = size groupedData
  /\ length (expenseData chart) = size groupedData
  /\ length sortedKeys = size groupedData
  /\ StronglySorted str_lt sortedKeys
  /\ (forall i key, sortedKeys !! i = Some key ->
        let date := createTimezoneSafeDate key in
        let year := getUTCFullYear <$> date in
        let quarter := (fun d => getUTCMonth d / 3 + 1) <$> date in
        let yearEnd :=
          (fun d => setUTCDate (setUTCFullYear d (getUTCFullYear d + 1)) 0)
            <$> date in
        let quarterEnd :=
          (fun d => setUTCDate (setUTCMonth d (getUTCMonth d + 3)) 0)
            <$> date in
        let weekEnd := (fun d => setUTCDate d (getUTCDate d + 6)) <$> date in
        exists b, groupedData !! key = Some b
        /\ labels chart !! i
           = Some match aggregationType with
                  | yearly => LNum year
                  | quarterly =>
                      LStr ("Q" +:+ numberString quarter +:+ " "
                              +:+ numberString year)
                  | monthly => LStr (format date shortYear)
                  | weekly => LStr ("Wk of " +:+ format date shortDay)
                  | daily => LStr (format date shortDay)
                  end
        /\ tooltipTitles chart !! i
           = Some match aggregationType with
                  | yearly =>
                      format date shortDayYear +:+ " - "
                        +:+ format yearEnd shortDayYear
                  | quarterly =>
                      format date shortDayYear +:+ " - "
                        +:+ format quarterEnd shortDayYear
                  | monthly => format date longYear
                  | weekly =>
                      format date shortDay +:+ " - "
                        +:+ format weekEnd shortDay
                  | daily => format date longWeekday
                  end
        /\ incomeData chart !! i = Some (income b)
        /\ expenseData chart !! i = Some (expense b)).
Proof.
  intros agg grouped sortedKeys chart format.
  destruct (processChartData_lengths toLocaleDateString data startDateStr
              endDateStr) as (H1 & H2 & H3 & H4).
  repeat (split; [first [assumption | apply Buckets.length_sortedKeysOf
                         | apply Buckets.sortedKeysOf_sorted]|]).
  intros i key Hi. cbv zeta.
  assert (Hin : key ∈ sortedKeys) by (eapply list_elem_of_lookup_2; eauto).
  apply Buckets.sortedKeysOf_elem, elem_of_dom in Hin as [b Hb].
  exists b. split; [done|].
  subst chart. rewrite processChartData_eq.
  cbn [labels tooltipTitles incomeData expenseData].
  subst sortedKeys grouped agg format. rewrite !list_lookup_fmap, Hi.
  cbn [fmap option_fmap option_map].
  rewrite (lookup_total_correct _ _ _ Hb).
  unfold labelOf, tooltipOf, pushLabel.
  by destruct (groupData data startDateStr endDateStr).1.
Qed.

Lemma chart_series_aligned_witness :
  let format (date : option Z) (options : LocaleOptions) :=
    match date with
    | Some t =>
        toISODate t +:+ match opt_weekday options with
                        | Some _ => " long"
                        | None => " short"
                        end
    | None => "Invalid Date"
    end in
  let data :=
    [ {| description := "invoice"; amount := Qc_of_Z 100;
         date := 1704196800000; type := "income";
         category := CatString "work"; createdAt := 1704196800000 |};
      {| description := "lunch"; amount := Qc_of_Z 7;
         date := 1704196800000; type := "expense";
         category := CatString "food"; createdAt := 1704196800000 |} ] in
  let chart := processChartData format data "2024-01-01" "2024-01-02" in
  labels chart !! 1%nat = Some (LStr "2024-01-02 short")
  /\ tooltipTitles chart !! 1%nat = Some "2024-01-02 long"
  /\ incomeData chart !! 1%nat = Some (Qc_of_Z 100)
  /\ expenseData chart !! 1%nat = Some (Qc_of_Z 7).
Proof.
  cbv zeta.
  match goal with
  | |- labels (processChartData ?f ?d _ _) !! _ = _ /\ _ =>
      pose proof (chart_series_aligned f d "2024-01-01" "2024-01-02") as H
  end.
  cbv zeta in H. destruct H as (_ & _ & _ & _ & _ & _ & H).
  destruct (H 1%nat "2024-01-02" eq_refl) as (b & Hb & Hl & Ht & Hi & He).
  rewrite Hl, Ht, Hi, He.
  split; [vm_compute; reflexivity|]. split; [vm_compute; reflexivity|].
  match type of Hb with
  | ?m !! ?k = _ =>
      assert (Hq : (fun b => (this (income b), this (expense b))) <$> m !! k
                   = Some ((100 # 1)%Q, (7 # 1)%Q))
        by (vm_compute; reflexivity)
  end.
  rewrite Hb in Hq. simpl in Hq. injection Hq as Hinc Hexp.
  split; f_equal; apply Qc_is_canon.
  - rewrite Hinc. reflexivity.
  - rewrite Hexp. reflexivity.
Defined.

(** ** The summary panel *)

Module SummaryFacts.

Lemma Math_max_spec a b :
  (a <= Math_max a b)%Qc /\ (b <= Math_max a b)%Qc
  /\ (Math_max a b = a \/ Math_max a b = b).
Proof.
  unfold Math_max. destruct (decide (a < b)%Qc) as [H | H].
  - split; [by apply Qclt_le_weak|]. split; [apply Qcle_refl | by right].
  - split; [apply Qcle_refl|]. split; [by apply Qcnot_lt_le | by left].
Qed.

Lemma Math_abs_nonneg a : (0 <= Math_abs a)%Qc.
Proof.
  unfold Math_abs. destruct (decide (a < 0)%Qc) as [H | H].
  - apply Qclt_le_weak in H. apply Qcopp_le_compat in H. exact H.
  - by apply Qcnot_lt_le.
Qed.

Lemma Math_abs_of_nonneg a : (0 <= a)%Qc -> Math_abs a = a.
Proof.
  intros H. unfold Math_abs. destruct (decide (a < 0)%Qc) as [H' | H']; [|done].
  destruct (Qcle_not_lt _ _ H H').
Qed.

Lemma Math_min_spec a b :
  (Math_min a b <= a)%Qc /\ (Math_min a b <= b)%Qc
  /\ (Math_min a b = a \/ Math_min a b = b).
Proof.
  unfold Math_min. destruct (decide (b < a)%Qc) as [H | H].
  - split; [by apply Qclt_le_weak|]. split; [apply Qcle_refl | by right].
  - split; [apply Qcle_refl|]. split; [by apply Qcnot_lt_le | by left].
Qed.

End SummaryFacts.

(** C5.  From the two totals that the server reports, [updateGlobalSummary]
    derives the net profit as income minus expenses, the tax reserve as
    income times 0.25, the recommended savings as net profit times 0.2 and
    not below zero, and the safe-to-spend balance as net profit minus the
    tax reserve minus the recommended savings. *)
Theorem summary_figures (totalIncome totalExpenses : Qc) (shown : Summary) :
  let s := updateGlobalSummary (Some (totalIncome, totalExpenses)) shown in
  s_totalIncome s = totalIncome
  /\ s_totalExpenses s = totalExpenses
  /\ s_netProfit s = (totalIncome - totalExpenses)%Qc
  /\ s_taxToSave s = (totalIncome * Q2Qc 0.25)%Qc
  /\ (0 <= s_recommendedSavings s)%Qc
  /\ (s_netProfit s * Q2Qc 0.2 <= s_recommendedSavings s)%Qc
  /\ (s_recommendedSavings s = 0%Qc
      \/ s_recommendedSavings s = (s_netProfit s * Q2Qc 0.2)%Qc)
  /\ s_availableBalance s
     = (s_netProfit s - s_taxToSave s - s_recommendedSavings s)%Qc.
Proof.
  cbv zeta. unfold updateGlobalSummary, summaryOf.
  rewrite !orDefault_zero.
  destruct (decide (0 <= _)%Qc); cbn [s_totalIncome s_totalExpenses s_netProfit
    s_taxToSave s_recommendedSavings s_availableBalance];
    pose proof (SummaryFacts.Math_max_spec 0
                  ((totalIncome - totalExpenses) * SAVINGS_RATE)) as (?&?&?);
    repeat split; done.
Qed.


(** ** Pagination *)

Lemma Math_ceil_div_spec n d : 0 < d -> Math_ceil_div n d = (n + d - 1) / d.
Proof.
  intros Hd. unfold Math_ceil_div, Qceiling.
  assert (E : (- (inject_Z n / inject_Z d) == inject_Z (- n) / inject_Z d)%Q).
  { rewrite inject_Z_opp. unfold Qdiv. ring. }
  rewrite (Qfloor_comp _ _ E), <- Zdiv_Qdiv.
  Z.div_mod_to_equations. nia.
Qed.

(** C7.  From a count of transactions that is not negative,
    [updateTotalPages] sets the number of pages to the count divided by
    the page size 10 and rounded up, and to 1 at least; a count of 0 gives
    one page. *)
Theorem total_pages_rounded_up (count totalPages : Z) :
  0 <= count ->
  let pages := updateTotalPages (Some count) totalPages in
  pages = Z.max 1 ((count + 9) / 10)
  /\ 1 <= pages
  /\ count <= TRANSACTIONS_PER_PAGE * pages
  /\ (0 < count -> TRANSACTIONS_PER_PAGE * (pages - 1) < count)
  /\ updateTotalPages (Some 0) totalPages = 1.
Proof.
  intros Hc. cbv zeta. unfold updateTotalPages, TRANSACTIONS_PER_PAGE.
  rewrite !Math_ceil_div_spec by lia.
  change ((0 + 10 - 1) / 10 =? 0) with true. cbv iota.
  replace (count + 10 - 1) with (count + 9) by lia.
  pose proof (Z.div_mod (count + 9) 10 ltac:(lia)) as Hq.
  pose proof (Z.mod_pos_bound (count + 9) 10 ltac:(lia)) as Hr.
  set (q := (count + 9) / 10) in *.
  destruct (Z.eqb_spec q 0) as [E | E]; repeat split; lia.
Qed.

Lemma total_pages_rounded_up_witness :
  0 <= 11 /\ updateTotalPages (Some 11) 1 = 2.
Proof.
  assert (H : 0 <= 11) by lia.
  split; [exact H|].
  exact (proj1 (total_pages_rounded_up 11 1 H)).
Defined.

(** ** The AI summary request *)



(** ** The expense breakdown and its largest category *)

Module BreakdownFacts.

Lemma eqb_eq_dec (k k' : string) :
  String.eqb k k' = if decide (k = k') then true else false.
Proof.
  destruct (decide (k = k')) as [-> | H].
  - apply String.eqb_refl.
  - by apply String.eqb_neq.
Qed.

Lemma get_set_eq o k v : JSObject.get (JSObject.set o k v) k = Some v.
Proof.
  induction o as [|[k' v'] o IH]; simpl.
  - by rewrite String.eqb_refl.
  - destruct (String.eqb k' k) eqn:E; simpl; by rewrite E.
Qed.

Lemma get_set_ne o k v k' :
  k <> k' -> JSObject.get (JSObject.set o k v) k' = JSObject.get o k'.
Proof.
  intros Hne. induction o as [|[k0 v0] o IH]; simpl.
  - by rewrite (proj2 (String.eqb_neq k k')).
  - destruct (String.eqb k0 k) eqn:E; simpl.
    + apply String.eqb_eq in E as ->.
      by rewrite (proj2 (String.eqb_neq k k')).
    + by rewrite IH.
Qed.

Lemma get_is_Some o k : is_Some (JSObject.get o k) <-> k ∈ o.*1.
Proof.
  induction o as [|[k0 v0] o IH]; simpl.
  - split; [by intros [? ?] | by intros ?%elem_of_nil].
  - rewrite elem_of_cons, eqb_eq_dec.
    destruct (decide (k0 = k)) as [-> | Hne]; [by split; eauto|].
    rewrite IH. split; [by right | intros [-> | ?]; done].
Qed.

Lemma keys_perm o : JSObject.keys o ≡ₚ o.*1.
Proof.
  unfold JSObject.keys. rewrite merge_sort_Permutation.
  etrans; [|apply (filter_app_complement
                     (fun k => JSObject.isArrayIndex k = true) (o.*1))].
  apply Permutation_app; [done|].
  erewrite list_filter_iff; [done|].
  intros k. simpl. by destruct (JSObject.isArrayIndex k).
Qed.

Lemma keys_elem o k : k ∈ JSObject.keys o <-> is_Some (JSObject.get o k).
Proof. by rewrite keys_perm, get_is_Some. Qed.

(** *** The reducer picks the last key of maximal value *)

Section Reduce.

Variable o : JSObject.t.

Lemma reached_step seen a b :
  is_Some (JSObject.get o b) ->
  reached o seen a -> reached o (seen ++ [b]) (pickLarger o a b).
Proof.
  intros [vb Hb] Hinv. unfold pickLarger. rewrite Hb.
  destruct a as [k|]; simpl in Hinv.
  - destruct Hinv as (before & after & x & -> & Hk & Hbefore & Hafter).
    rewrite Hk. simpl. case_bool_decide as Hlt.
    + exists before, (after ++ [b]), x. rewrite <- app_assoc. simpl.
      split; [done|]. split; [done|]. split; [done|].
      intros k' y [Hin | ->%list_elem_of_singleton]%elem_of_app Hy; [eauto|].
      by simplify_eq.
    + apply Qcnot_lt_le in Hlt.
      exists (before ++ k :: after), [], vb.
      split; [done|]. split; [done|]. split.
      * intros k' y [Hin | [-> | Hin]%elem_of_cons]%elem_of_app Hy.
        -- apply Qcle_trans with x; [eauto | done].
        -- by simplify_eq.
        -- apply Qcle_trans with x; [|done]. apply Qclt_le_weak; eauto.
      * by intros k' y ?%elem_of_nil.
  - destruct (JSObject.get o "null") as [x|] eqn:Hnull; simpl.
    + assert (Hseen : forall k' y, k' ∈ seen -> JSObject.get o k' = Some y ->
                                   (y < x)%Qc).
      { destruct Hinv as [-> | (x' & [= <-] & H)]; [|done].
        by intros k' y ?%elem_of_nil. }
      case_bool_decide as Hlt.
      * right. exists x. split; [done|].
        intros k' y [Hin | ->%list_elem_of_singleton]%elem_of_app Hy; [eauto|].
        by simplify_eq.
      * apply Qcnot_lt_le in Hlt.
        exists seen, [], vb. split; [done|]. split; [done|]. split.
        -- intros k' y Hin Hy. apply Qcle_trans with x; [|done].
           apply Qclt_le_weak; eauto.
        -- by intros k' y ?%elem_of_nil.
    + destruct Hinv as [-> | (x & [=] & _)].
      exists [], [], vb. split; [done|]. split; [done|].
      split; by intros k' y ?%elem_of_nil.
Qed.

Lemma reached_fold ks seen a :
  (forall k, k ∈ ks -> is_Some (JSObject.get o k)) ->
  reached o seen a -> reached o (seen ++ ks) (fold_left (pickLarger o) ks a).
Proof.
  revert seen a. induction ks as [|b ks IH]; intros seen a Hks Hinv; simpl.
  - by rewrite app_nil_r.
  - replace (seen ++ b :: ks) with ((seen ++ [b]) ++ ks)
      by (by rewrite <- app_assoc).
    apply IH.
    + intros k Hk. apply Hks. by right.
    + apply reached_step; [|done]. apply Hks. by left.
Qed.

Lemma largestExpenseCategoryOf_reached :
  reached o (JSObject.keys o) (largestExpenseCategoryOf o).
Proof.
  unfold largestExpenseCategoryOf.
  apply (reached_fold (JSObject.keys o) [] None).
  - intros k. apply keys_elem.
  - by left.
Qed.

(** With a property to look at, the result is a key. *)
Lemma largestExpenseCategoryOf_Some :
  JSObject.keys o <> [] -> is_Some (largestExpenseCategoryOf o).
Proof.
  intros Hne. pose proof largestExpenseCategoryOf_reached as H.
  destruct (largestExpenseCategoryOf o) as [k|]; [by eexists|].
  destruct H as [? | (x & Hnull & Hall)]; [done|].
  assert (Hin : "null" ∈ JSObject.keys o) by (apply keys_elem; by eexists).
  destruct (Qclt_not_eq _ _ (Hall _ _ Hin Hnull)). done.
Qed.

End Reduce.

(** *** The breakdown holds the summed amounts *)

Lemma get_fold_addExpense expenses o k :
  JSObject.get (fold_left addExpense expenses o) k
  = if decide (k ∈ (fun t => propertyKey (category t)) <$> expenses)
    then Some (default 0%Qc (JSObject.get o k)
               + total (amount <$>
                          filter (fun t => propertyKey (category t) = k) expenses))%Qc
    else JSObject.get o k.
Proof.
  revert o. induction expenses as [|t expenses IH]; intros o.
  - cbn [fold_left]. rewrite decide_False; [done|].
    rewrite fmap_nil. apply not_elem_of_nil.
  - cbn [fold_left]. rewrite IH. unfold addExpense.
    rewrite orDefault_zero, fmap_cons, filter_cons.
    destruct (decide (propertyKey (category t) = k)) as [E | NE].
    + rewrite E, get_set_eq. cbn [default].
      rewrite (decide_True (P := k ∈ k :: _)) by (by left).
      destruct (decide (k ∈ _)) as [Hin | Hnin]; f_equal.
      * rewrite fmap_cons. unfold total. simpl. ring.
      * assert (Hnil : filter (fun t => propertyKey (category t) = k) expenses
                       = []).
        { destruct (filter (fun t => propertyKey (category t) = k) expenses)
            as [|t' l] eqn:Ef; [done|].
          assert (Ht' : t' ∈ filter (fun t => propertyKey (category t) = k)
                               expenses) by (rewrite Ef; by left).
          apply list_elem_of_filter in Ht' as [Hk Ht'].
          destruct Hnin. apply list_elem_of_fmap. by exists t'. }
        rewrite Hnil, fmap_cons. unfold total. simpl. ring.
    + rewrite get_set_ne by done.
      destruct (decide (k ∈ _)) as [Hin | Hnin].
      * rewrite decide_True; [done|]. by right.
      * rewrite decide_False; [done|].
        intros [? | ?]%elem_of_cons; done.
Qed.

Lemma get_expenseBreakdownOf rawData k :
  JSObject.get (expenseBreakdownOf rawData) k
  = if decide (k ∈ (fun t => propertyKey (category t))
                     <$> filter (fun t => type t = "expense") rawData)
    then Some (categoryTotal k rawData)
    else None.
Proof.
  unfold expenseBreakdownOf.
  rewrite get_fold_addExpense. simpl.
  destruct (decide _); [|done]. unfold categoryTotal. f_equal. ring.
Qed.


Lemma fold_left_sum (l : list Transaction) acc :
  fold_left (fun sum t => (sum + amount t)%Qc) l acc
  = (acc + total (amount <$> l))%Qc.
Proof.
  revert acc. induction l as [|t l IH]; intros acc; cbn [fold_left].
  - rewrite fmap_nil. change (total []) with 0%Qc. ring.
  - rewrite IH, fmap_cons.
    change (total (amount t :: (amount <$> l)))
      with (amount t + total (amount <$> l))%Qc.
    ring.
Qed.

(** The property of a category holds the amounts of its expenses, added
    in the order of the list. *)
Lemma get_expenseBreakdownOf_sum rawData k :
  JSObject.get (expenseBreakdownOf rawData) k
  = if decide (k ∈ (fun t => propertyKey (category t))
                     <$> filter (fun t => type t = "expense") rawData)
    then Some (categorySum k rawData)
    else None.
Proof.
  rewrite get_expenseBreakdownOf. destruct (decide _); [|done].
  f_equal. unfold categoryTotal, categorySum. rewrite fold_left_sum. ring.
Qed.

Lemma append_assoc (s1 s2 s3 : string) :
  (s1 +:+ s2) +:+ s3 = s1 +:+ (s2 +:+ s3).
Proof.
  induction s1 as [|c s1 IH]; [done|].
  change (String c ((s1 +:+ s2) +:+ s3) = String c (s1 +:+ (s2 +:+ s3))).
  by rewrite IH.
Qed.

(** The prompt ends with the category that [categoryInPrompt] gives. *)
Lemma promptOf_ends (toLocaleString : Qc -> string) rawData :
  exists head,
    promptOf toLocaleString rawData
    = head +:+ ", Largest Expense Category: "
        +:+ categoryInPrompt (largestExpenseCategory rawData) +:+ ".".
Proof.
  unfold promptOf.
  match goal with
  | |- exists head, ?a +:+ ?b +:+ ?c +:+ ?d +:+ ?e +:+ ?f +:+ _ = _ =>
      exists (a +:+ b +:+ c +:+ d +:+ e +:+ f)
  end.
  by rewrite !append_assoc.
Qed.

End BreakdownFacts.

(** C8 as the specification words it: among categories that tie for the
    largest sum, the first in iteration order would be selected.  Two
    expenses of 10, one per category, refute it: the reduction keeps the
    later category. *)
Lemma largest_category_first_of_ties_refuted :
  let rawData :=
    [ {| description := "lunch"; amount := Qc_of_Z 10; date := 1704283200000;
         type := "expense"; category := CatString "food";
         createdAt := 1704283200000 |};
      {| description := "desk"; amount := Qc_of_Z 10; date := 1704283200000;
         type := "expense"; category := CatString "office";
         createdAt := 1704283200000 |} ] in
  JSObject.keys (expenseBreakdownOf rawData) = ["food"; "office"]
  /\ categoryTotal "food" rawData = categoryTotal "office" rawData
  /\ largestExpenseCategory rawData = Some "office"
  /\ largestExpenseCategory rawData <> Some "food".
Proof.
  cbv zeta. split; [vm_compute; reflexivity|]. split; [|split].
  - apply Qc_is_canon. vm_compute. reflexivity.
  - vm_compute. reflexivity.
  - vm_compute. discriminate.
Qed.

(** C8, amended.  When no expense has a category named like a property
    inherited from [Object.prototype], the breakdown has one key for each
    category that has an expense, and the largest expense category that
    [generateAISummary] computes is a category whose summed expense amount
    (the amounts added in the order of the list, as the script adds them)
    is maximal among the categories present; when several categories tie
    for the maximal sum, it is the last of them in the iteration order of
    the breakdown's keys.  The prompt ends with the name of that category;
    it ends with "None" in its place when the category is the empty string
    and when there is no expense. *)
Theorem largest_category_last_of_maxima
    (toLocaleString : Qc -> string) (rawData : list Transaction) :
  categoriesAreOwnKeys rawData ->
  let keys := JSObject.keys (expenseBreakdownOf rawData) in
  let shown := categoryInPrompt (largestExpenseCategory rawData) in
  (forall k, k ∈ keys <->
     exists t, t ∈ rawData /\ type t = "expense"
               /\ propertyKey (category t) = k)
  /\ (exists head,
        promptOf toLocaleString rawData
        = head +:+ ", Largest Expense Category: " +:+ shown +:+ ".")
  /\ match largestExpenseCategory rawData with
     | Some k =>
         (exists before after,
            keys = before ++ k :: after
            /\ (forall k', k' ∈ before ->
                  (categorySum k' rawData <= categorySum k rawData)%Qc)
            /\ (forall k', k' ∈ after ->
                  (categorySum k' rawData < categorySum k rawData)%Qc))
         /\ (k <> EmptyString -> shown = k)
         /\ (k = EmptyString -> shown = "None")
     | None => keys = [] /\ shown = "None"
     end.
Proof.
  intros _. cbv zeta.
  assert (Hkeys : forall k, k ∈ JSObject.keys (expenseBreakdownOf rawData) <->
                    exists t, t ∈ rawData /\ type t = "expense"
                              /\ propertyKey (category t) = k).
  { intros k. rewrite BreakdownFacts.keys_elem,
      BreakdownFacts.get_expenseBreakdownOf.
    destruct (decide _) as [Hin | Hnin].
    - split; [intros _ | by eauto].
      apply list_elem_of_fmap in Hin as (t & -> & Ht).
      apply list_elem_of_filter in Ht as [Hty Ht]. eauto.
    - split; [by intros [? ?]|]. intros (t & Ht & Hty & Hk). destruct Hnin.
      apply list_elem_of_fmap. exists t. split; [done|].
      by apply list_elem_of_filter. }
  split; [exact Hkeys|].
  split; [apply BreakdownFacts.promptOf_ends|].
  assert (Hval : forall k y,
            JSObject.get (expenseBreakdownOf rawData) k = Some y ->
            y = categorySum k rawData).
  { intros k y. rewrite BreakdownFacts.get_expenseBreakdownOf_sum.
    destruct (decide _); congruence. }
  pose proof (BreakdownFacts.largestExpenseCategoryOf_reached
                (expenseBreakdownOf rawData)) as Hr.
  pose proof (BreakdownFacts.largestExpenseCategoryOf_Some
                (expenseBreakdownOf rawData)) as Hsome.
  unfold largestExpenseCategory.
  destruct (largestExpenseCategoryOf (expenseBreakdownOf rawData)) as [k|].
  - destruct Hr as (before & after & x & Hsplit & Hk & Hbefore & Hafter).
    apply Hval in Hk as ->.
    assert (Hget : forall k', k' ∈ JSObject.keys (expenseBreakdownOf rawData) ->
              JSObject.get (expenseBreakdownOf rawData) k'
              = Some (categorySum k' rawData)).
    { intros k' [y Hy]%BreakdownFacts.keys_elem.
      by rewrite Hy, (Hval _ _ Hy). }
    split; [|split].
    + exists before, after. split; [done|]. split.
      * intros k' Hin. apply (Hbefore k'); [done|]. apply Hget.
        rewrite Hsplit. apply elem_of_app. by left.
      * intros k' Hin. apply (Hafter k'); [done|]. apply Hget.
        rewrite Hsplit. apply elem_of_app. right. by right.
    + intros Hne. simpl. by rewrite (proj2 (String.eqb_neq k EmptyString)).
    + by intros ->.
  - split; [|done].
    destruct (JSObject.keys (expenseBreakdownOf rawData)) as [|k0 ks] eqn:E;
      [done|].
    destruct Hsome as [? ?]; done.
Qed.

Lemma largest_category_last_of_maxima_witness :
  let expense c a :=
    {| description := "paid"; amount := Qc_of_Z a; date := 1704283200000;
       type := "expense"; category := CatString c;
       createdAt := 1704283200000 |} in
  let rawData :=
    [ expense "food" 5; expense "rent" 10;
      {| description := "invoice"; amount := Qc_of_Z 300;
         date := 1704283200000; type := "income";
         category := CatString "rent"; createdAt := 1704283200000 |};
      expense "travel" 3; expense "food" 5 ] in
  categoriesAreOwnKeys rawData
  /\ JSObject.keys (expenseBreakdownOf rawData) = ["food"; "rent"; "travel"]
  /\ largestExpenseCategory rawData = Some "rent"
  /\ (categorySum "food" rawData <= categorySum "rent" rawData)%Qc
  /\ (categorySum "travel" rawData < categorySum "rent" rawData)%Qc
  /\ categoryInPrompt (largestExpenseCategory rawData) = "rent".
Proof.
  cbv zeta.
  match goal with |- categoriesAreOwnKeys ?d /\ _ => set (rawData := d) end.
  assert (Hown : categoriesAreOwnKeys rawData).
  { intros t Ht _. subst rawData.
    repeat (apply elem_of_cons in Ht as [-> | Ht];
            [vm_compute; intros Hin;
             repeat (apply elem_of_cons in Hin as [Hin | Hin];
                     [discriminate|]);
             by apply elem_of_nil in Hin|]).
    by apply elem_of_nil in Ht. }
  pose proof (largest_category_last_of_maxima (fun _ => EmptyString) rawData
                Hown) as H.
  cbv zeta in H. destruct H as (_ & _ & H).
  assert (Hkeys : JSObject.keys (expenseBreakdownOf rawData)
                  = ["food"; "rent"; "travel"]) by (vm_compute; reflexivity).
  assert (Hl : largestExpenseCategory rawData = Some "rent")
    by (vm_compute; reflexivity).
  rewrite Hl, Hkeys in H.
  destruct H as ((before & after & Hsplit & Hbefore & Hafter) & Hshown & _).
  assert (before = ["food"] /\ after = ["travel"]) as [-> ->].
  { clear -Hsplit.
    repeat (destruct before as [|? before]; simplify_eq/=; try done). }
  split; [exact Hown|]. split; [exact Hkeys|]. split; [exact Hl|].
  split; [apply Hbefore; by left|]. split; [apply Hafter; by left|].
  by apply Hshown.
Defined.

(** ** Conservation of the amounts *)

Module Conservation.

Import Calendar Buckets.

Lemma total_perm l1 l2 : l1 ≡ₚ l2 -> total l1 = total l2.
Proof.
  unfold total. induction 1 as [|x l1 l2 _ IH|x y l|l1 l2 l3 _ IH1 _ IH2]; simpl.
  - done.
  - by rewrite IH.
  - ring.
  - by rewrite IH1.
Qed.

Lemma bucketSum_insert field (g : gmap string Bucket) k b b' :
  g !! k = Some b ->
  (bucketSum field (<[k := b']> g) + field b)%Qc
  = (bucketSum field g + field b')%Qc.
Proof.
  intros Hk. unfold bucketSum.
  rewrite <- (insert_delete_eq g k b').
  rewrite (total_perm _ _ (fmap_Permutation _ _ _
             (map_to_list_insert (delete k g) k b' (lookup_delete_eq g k)))).
  rewrite <- (total_perm _ _ (fmap_Permutation _ _ _
                (map_to_list_delete g k b Hk))).
  rewrite !fmap_cons. unfold total. simpl. ring.
Qed.

(** A series of the chart sums to the sum of its field over the buckets. *)
Lemma series_total field (g : gmap string Bucket) :
  total ((fun key => field (g !!! key)) <$> sortedKeysOf g) = bucketSum field g.
Proof.
  unfold bucketSum.
  rewrite (total_perm _ _ (fmap_Permutation _ _ _ (sortedKeysOf_perm g))).
  rewrite <- list_fmap_compose. f_equal.
  apply Forall_fmap_ext_1, Forall_forall. intros [k b] Hkb. simpl.
  apply elem_of_map_to_list in Hkb. by rewrite (lookup_total_correct _ _ _ Hkb).
Qed.

Lemma bucketSum_seeded field (ks : list string) :
  field zeroBucket = 0%Qc ->
  bucketSum field (foldl (fun g k => <[k := zeroBucket]> g) ∅ ks) = 0%Qc.
Proof.
  intros Hz. unfold bucketSum.
  assert (H : Forall (fun kb : string * Bucket => field kb.2 = 0%Qc)
                (map_to_list (foldl (fun g k => <[k := zeroBucket]> g)
                                (∅ : gmap string Bucket) ks))).
  { apply Forall_forall. intros [k b] Hkb. simpl.
    apply elem_of_map_to_list in Hkb. rewrite Seeding.lookup_seeded in Hkb.
    destruct (decide _); [by simplify_eq | by rewrite lookup_empty in Hkb]. }
  induction H as [|kb l Hkb Hl IH]; [done|].
  rewrite fmap_cons. unfold total in *. simpl. rewrite IH, Hkb. ring.
Qed.

Lemma Qc_cancel (a b c d : Qc) : (a + c = b + d)%Qc -> a = (b + d - c)%Qc.
Proof. intros H. rewrite <- H. ring. Qed.

Lemma bucketSum_addToBucket field aggregationType (g : gmap string Bucket) t :
  bucketSum field (addToBucket aggregationType g t)
  = match g !! transactionKey aggregationType t with
    | Some b =>
        if String.eqb (type t) "income"
        then (bucketSum field g
              + field {| income := (income b + amount t)%Qc;
                         expense := expense b |} - field b)%Qc
        else (bucketSum field g
              + field {| income := income b;
                         expense := (expense b + amount t)%Qc |} - field b)%Qc
    | None => bucketSum field g
    end.
Proof.
  unfold addToBucket.
  destruct (g !! transactionKey aggregationType t) as [b|] eqn:Hb; [|done].
  destruct (String.eqb (type t) "income");
    by apply Qc_cancel, bucketSum_insert.
Qed.

Lemma fold_addToBucket_income aggregationType data (g : gmap string Bucket) :
  bucketSum income (fold_left (addToBucket aggregationType) data g)
  = (bucketSum income g
     + total (amount <$> counted aggregationType (dom g) true data))%Qc.
Proof.
  revert g. induction data as [|t data IH]; intros g.
  - simpl. unfold total. simpl. ring.
  - cbn [fold_left]. rewrite IH, dom_addToBucket, bucketSum_addToBucket.
    unfold counted. rewrite filter_cons.
    destruct (g !! transactionKey aggregationType t) as [b|] eqn:Hb.
    + assert (Hin : transactionKey aggregationType t ∈ dom g)
        by (apply elem_of_dom; by eexists).
      destruct (String.eqb (type t) "income") eqn:Hty.
      * rewrite decide_True by done. rewrite fmap_cons.
        unfold total. simpl. ring.
      * rewrite decide_False by (intros [? ?]; done). simpl. ring.
    + rewrite decide_False; [done|].
      intros [_ [b Hb']%elem_of_dom]. congruence.
Qed.

Lemma fold_addToBucket_expense aggregationType data (g : gmap string Bucket) :
  bucketSum expense (fold_left (addToBucket aggregationType) data g)
  = (bucketSum expense g
     + total (amount <$> counted aggregationType (dom g) false data))%Qc.
Proof.
  revert g. induction data as [|t data IH]; intros g.
  - simpl. unfold total. simpl. ring.
  - cbn [fold_left]. rewrite IH, dom_addToBucket, bucketSum_addToBucket.
    unfold counted. rewrite filter_cons.
    destruct (g !! transactionKey aggregationType t) as [b|] eqn:Hb.
    + assert (Hin : transactionKey aggregationType t ∈ dom g)
        by (apply elem_of_dom; by eexists).
      destruct (String.eqb (type t) "income") eqn:Hty.
      * rewrite decide_False by (intros [? ?]; done). simpl. ring.
      * rewrite decide_True by done. rewrite fmap_cons.
        unfold total. simpl. ring.
    + rewrite decide_False; [done|].
      intros [_ [b Hb']%elem_of_dom]. congruence.
Qed.

End Conservation.

Section ConservationOfChart.

Import Calendar Buckets Conservation.

Variable toLocaleDateString : option Z -> LocaleOptions -> string.

(** Each series sums to the amounts of the transactions of its side whose
    bucket key was seeded; a transaction without a seeded bucket is left
    out of the chart. *)
Lemma chart_totals data startDateStr endDateStr :
  let aggregationType := (groupData data startDateStr endDateStr).1 in
  let seeded := (groupData [] startDateStr endDateStr).2 in
  let chart := processChartData toLocaleDateString data startDateStr endDateStr in
  total (incomeData chart)
  = total (amount <$> counted aggregationType (dom seeded) true data)
  /\ total (expenseData chart)
     = total (amount <$> counted aggregationType (dom seeded) false data).
Proof.
  cbv zeta. rewrite processChartData_eq. cbn [incomeData expenseData].
  rewrite !series_total. unfold groupData. cbn [fst snd fold_left].
  rewrite fold_addToBucket_income, fold_addToBucket_expense.
  set (seeded := match createTimezoneSafeDate startDateStr with
                 | Some s => _ | None => _ end).
  assert (Hz : forall field, field zeroBucket = 0%Qc ->
                             bucketSum field seeded = 0%Qc).
  { intros field Hf. subst seeded.
    destruct (createTimezoneSafeDate startDateStr) as [s|]; [|done].
    destruct (createTimezoneSafeDate endDateStr) as [e|]; [|done].
    rewrite Seeding.seedBuckets_seedKeys. by apply bucketSum_seeded. }
  rewrite !Hz by done. split; ring.
Qed.

Lemma toISODate_Day t1 t2 : Day t1 = Day t2 -> toISODate t1 = toISODate t2.
Proof.
  intros H.
  unfold toISODate, DateFromTime, MonthFromTime, DayWithinYear, InLeapYear,
    YearFromTime.
  by rewrite H.
Qed.

Lemma daysFrom_elem_2 s n i :
  0 <= i < Z.of_nat n -> s + i * msPerDay ∈ daysFrom s n.
Proof.
  revert s i. induction n as [|n IH]; intros s i Hi; [lia|]. simpl.
  destruct (Z.eq_dec i 0) as [-> | Hne].
  - replace (s + 0 * msPerDay) with s by lia. by left.
  - right. replace (s + i * msPerDay) with (s + msPerDay + (i - 1) * msPerDay)
      by lia.
    apply IH. lia.
Qed.

Lemma filter_ext_in {A} (P Q : A -> Prop) `{!forall x, Decision (P x)}
    `{!forall x, Decision (Q x)} (l : list A) :
  (forall x, x ∈ l -> P x <-> Q x) -> filter P l = filter Q l.
Proof.
  induction l as [|x l IH]; intros Hext; [done|].
  rewrite !filter_cons.
  assert (Hx : P x <-> Q x) by (apply Hext; by left).
  rewrite IH by (intros y Hy; apply Hext; by right).
  destruct (decide (P x)), (decide (Q x)); tauto.
Qed.

(** With daily granularity every transaction dated within the range finds
    its bucket, and the two series keep the two totals. *)
Lemma daily_conservation data startDateStr endDateStr s e :
  createTimezoneSafeDate startDateStr = Some s ->
  createTimezoneSafeDate endDateStr = Some e ->
  inclusiveDays s e <= 45 ->
  Forall (fun t => Day s <= Day (date t) <= Day e
                   /\ (type t = "income" \/ type t = "expense")) data ->
  let chart := processChartData toLocaleDateString data startDateStr endDateStr in
  total (incomeData chart) = totalOfType "income" data
  /\ total (expenseData chart) = totalOfType "expense" data.
Proof.
  intros Hs He Hn Hdata. cbv zeta.
  destruct (chart_totals data startDateStr endDateStr) as [Hi Hx].
  rewrite Hi, Hx. clear Hi Hx.
  rewrite (ChartFacts.daily_dom [] _ _ _ _ Hs He Hn).
  assert (Hagg : (groupData data startDateStr endDateStr).1 = daily).
  { rewrite (ChartFacts.groupData_aggregation _ _ _ _ _ Hs He),
      ChartFacts.selectAggregation_days.
    repeat match goal with
           | |- context [?a <? ?b] => destruct (Z.ltb_spec a b); try lia
           end.
    done. }
  rewrite Hagg. unfold totalOfType, counted.
  assert (Hkey : forall t, t ∈ data ->
            transactionKey daily t
              ∈ (list_to_set (toISODate <$> daysFrom s (seedFuel s e))
                 : gset string)).
  { intros t Ht. rewrite Forall_forall in Hdata.
    destruct (Hdata t Ht) as [Hd _].
    apply elem_of_list_to_set, list_elem_of_fmap.
    exists (s + (Day (date t) - Day s) * msPerDay). split.
    - unfold transactionKey. apply toISODate_Day.
      rewrite Seeding.Day_shift. lia.
    - apply daysFrom_elem_2. unfold seedFuel. lia. }
  rewrite Forall_forall in Hdata.
  split; f_equal; f_equal; apply filter_ext_in; intros t Ht;
    specialize (Hkey t Ht); destruct (Hdata t Ht) as [_ [Hty | Hty]];
    rewrite Hty; simpl; split; try done; try tauto;
    by intros [? _].
Qed.

End ConservationOfChart.

(** C1.  The conservation of the amounts fails on a weekly range whose end
    falls in a week that the walk from the start date does not reach: from
    Wednesday 2024-01-03 to Monday 2024-02-19 (48 days) the last bucket is
    the week of 2024-02-11, and an income of 100 dated 2024-02-19, whose
    week starts on 2024-02-18, is in no bucket.  The income series sums to
    0 while the income of the input is 100. *)
Theorem weekly_range_loses_last_week
    (toLocaleDateString : option Z -> LocaleOptions -> string) :
  let t := {| description := "invoice"; amount := Qc_of_Z 100;
              date := 1708344000000; type := "income";
              category := CatUndefined; createdAt := 1708344000000 |} in
  let chart :=
    processChartData toLocaleDateString [t] "2024-01-03" "2024-02-19" in
  createTimezoneSafeDate "2024-01-03" = Some 1704283200000
  /\ createTimezoneSafeDate "2024-02-19" = Some (date t)
  /\ (groupData [t] "2024-01-03" "2024-02-19").1 = weekly
  /\ sortedKeysOf (groupData [t] "2024-01-03" "2024-02-19").2
     = ["2023-12-31"; "2024-01-07"; "2024-01-14"; "2024-01-21"; "2024-01-28";
        "2024-02-04"; "2024-02-11"]
  /\ transactionKey weekly t = "2024-02-18"
  /\ total (incomeData chart) = 0%Qc
  /\ totalOfType "income" [t] = Qc_of_Z 100
  /\ total (incomeData chart) <> totalOfType "income" [t].
Proof.
  intros t chart.
  assert (Hsum : total (incomeData chart) = 0%Qc).
  { apply Qc_is_canon. vm_compute. reflexivity. }
  assert (Hin : totalOfType "income" [t] = Qc_of_Z 100).
  { apply Qc_is_canon. vm_compute. reflexivity. }
  split; [vm_compute; reflexivity|].
  split; [vm_compute; reflexivity|].
  split; [vm_compute; reflexivity|].
  split; [vm_compute; reflexivity|].
  split; [vm_compute; reflexivity|].
  split; [exact Hsum|]. split; [exact Hin|].
  rewrite Hsum, Hin. intros H. apply (f_equal this) in H. discriminate H.
Qed.

(** * Further properties of the script *)

(** ** The start of a week, a month, a quarter and a year *)

Module PeriodFacts.

Import Calendar.

Lemma WeekDay_range t : 0 <= WeekDay t <= 6.
Proof. unfold WeekDay. div_lia. Qed.

Lemma getStartOfWeek_eq date :
  getStartOfWeek date = date - getUTCDay date * msPerDay.
Proof.
  unfold getStartOfWeek.
  replace (getUTCDate date - getUTCDay date)
    with (getUTCDate date + - getUTCDay date) by lia.
  rewrite setUTCDate_shift. lia.
Qed.

Lemma Day_getStartOfWeek date :
  Day (getStartOfWeek date) = Day date - WeekDay date.
Proof.
  rewrite getStartOfWeek_eq.
  replace (date - getUTCDay date * msPerDay)
    with (date + - getUTCDay date * msPerDay) by lia.
  rewrite Seeding.Day_shift. unfold getUTCDay. lia.
Qed.

(** The year, month and date of a day made by [MakeDay] from a month
    0..11 and a day of that month. *)
Lemma civil_of_MakeDay y m d time :
  0 <= m <= 11 -> 1 <= d <= DaysInMonth y (m + 1) -> 0 <= time < msPerDay ->
  let t := MakeDate (MakeDay y m d) time in
  YearFromTime t = y /\ MonthFromTime t = m /\ DateFromTime t = d
  /\ TimeWithinDay t = time.
Proof.
  intros Hm Hd Htime t.
  assert (Hday : Day t = MakeDay y m d) by (by apply Day_MakeDate).
  assert (Hyear : YearFromTime t = y).
  { unfold YearFromTime. rewrite Hday. apply YearFromDay_unique.
    replace m with (m + 1 - 1) by lia.
    apply DateStrings.MakeDay_in_year; [lia | done]. }
  assert (Hdwy : DayWithinYear t
                 = DaysBeforeMonth m (if DaysInYear y =? 366 then 1 else 0)
                   + d - 1).
  { unfold DayWithinYear. rewrite Hyear, Hday. unfold MakeDay.
    replace (m / 12) with 0 by div_lia.
    replace (m mod 12) with m by div_lia.
    rewrite Z.add_0_r. lia. }
  assert (Hleap : InLeapYear t = if DaysInYear y =? 366 then 1 else 0)
    by (unfold InLeapYear; by rewrite Hyear).
  assert (Hmonth : MonthFromTime t = m).
  { unfold MonthFromTime. rewrite Hdwy, Hleap. unfold DaysInMonth in Hd.
    assert (Ek : m = 0 \/ m = 1 \/ m = 2 \/ m = 3 \/ m = 4 \/ m = 5 \/ m = 6
                 \/ m = 7 \/ m = 8 \/ m = 9 \/ m = 10 \/ m = 11) by lia.
    destruct (DaysInYear_cases y) as [E | E]; rewrite E in *;
      repeat destruct Ek as [-> | Ek]; try subst m;
      unfold DaysBeforeMonth; simpl in *;
      repeat match goal with
             | |- context [if ?a <? ?b then _ else _] =>
                 destruct (Z.ltb_spec a b); try lia
             end. }
  split; [done|]. split; [done|]. split.
  - unfold DateFromTime. rewrite Hmonth, Hdwy, Hleap. lia.
  - unfold t, TimeWithinDay, MakeDate. unfold msPerDay in *. div_lia.
Qed.

Lemma DaysInMonth_ge_28 y m : 28 <= DaysInMonth y m.
Proof.
  unfold DaysInMonth.
  repeat match goal with |- context [if ?b then _ else _] => destruct b end; lia.
Qed.

Lemma civil_of_UTC year m :
  0 <= m <= 11 ->
  let t := UTC year m 1 in
  YearFromTime t = utcYear year /\ MonthFromTime t = m /\ DateFromTime t = 1
  /\ TimeWithinDay t = 0 /\ Day t = MakeDay (utcYear year) m 1.
Proof.
  intros Hm t. unfold t, UTC. fold (utcYear year).
  pose proof (DaysInMonth_ge_28 (utcYear year) (m + 1)).
  destruct (civil_of_MakeDay (utcYear year) m 1 0) as (H1 & H2 & H3 & H4);
    [lia | lia | unfold msPerDay; lia |].
  repeat split; try done.
  apply Day_MakeDate. unfold msPerDay. lia.
Qed.

Lemma DaysBeforeMonth_mono m1 m2 leap :
  0 <= m1 <= m2 -> m2 <= 11 -> 0 <= leap <= 1 ->
  DaysBeforeMonth m1 leap <= DaysBeforeMonth m2 leap.
Proof.
  intros H1 H2 Hl.
  assert (E1 : m1 = 0 \/ m1 = 1 \/ m1 = 2 \/ m1 = 3 \/ m1 = 4 \/ m1 = 5
               \/ m1 = 6 \/ m1 = 7 \/ m1 = 8 \/ m1 = 9 \/ m1 = 10 \/ m1 = 11)
    by lia.
  assert (E2 : m2 = 0 \/ m2 = 1 \/ m2 = 2 \/ m2 = 3 \/ m2 = 4 \/ m2 = 5
               \/ m2 = 6 \/ m2 = 7 \/ m2 = 8 \/ m2 = 9 \/ m2 = 10 \/ m2 = 11)
    by lia.
  repeat destruct E1 as [-> | E1]; try subst m1;
    repeat destruct E2 as [-> | E2]; try subst m2;
    unfold DaysBeforeMonth; simpl; lia.
Qed.

(** The first of an earlier month of the year of a date is not after the
    day of the date. *)
Lemma MakeDay_first_le t m :
  0 <= m <= MonthFromTime t ->
  MakeDay (YearFromTime t) m 1 <= Day t.
Proof.
  intros Hm. pose proof (MonthFromTime_range t) as Hr.
  pose proof (DateFromTime_le_31 t) as Hd.
  pose proof (MakeDay_of_time t 0) as E. rewrite !Z.add_0_r in E.
  rewrite <- E. unfold MakeDay.
  replace (m / 12) with 0 by div_lia.
  replace (m mod 12) with m by div_lia.
  replace (MonthFromTime t / 12) with 0 by div_lia.
  replace (MonthFromTime t mod 12) with (MonthFromTime t) by div_lia.
  pose proof (DaysBeforeMonth_mono m (MonthFromTime t)
                (if DaysInYear (YearFromTime t + 0) =? 366 then 1 else 0)).
  destruct (DaysInYear (YearFromTime t + 0) =? 366); lia.
Qed.

End PeriodFacts.

(** X1.  [getStartOfWeek] gives the Sunday of the week of a date: the date
    moved back by its weekday (0 for Sunday to 6 for Saturday), at the same
    time of day.  All days from that Sunday to the next Saturday have the
    same week start, hence one bucket key. *)
Theorem getStartOfWeek_is_sunday (date : Z) :
  let w := getStartOfWeek date in
  getUTCDay w = 0
  /\ w = date - getUTCDay date * msPerDay
  /\ 0 <= getUTCDay date <= 6
  /\ TimeWithinDay w = TimeWithinDay date
  /\ getStartOfWeek w = w
  /\ (forall other, Day w <= Day other <= Day w + 6 ->
        toISODate (getStartOfWeek other) = toISODate w).
Proof.
  cbv zeta.
  pose proof (PeriodFacts.WeekDay_range date) as Hr.
  pose proof (PeriodFacts.Day_getStartOfWeek date) as Hd.
  assert (Hw0 : getUTCDay (getStartOfWeek date) = 0).
  { unfold getUTCDay, WeekDay in *. rewrite Hd. unfold WeekDay.
    Z.div_mod_to_equations. lia. }
  split; [done|]. split; [apply PeriodFacts.getStartOfWeek_eq|].
  split; [done|]. split; [|split].
  - rewrite PeriodFacts.getStartOfWeek_eq. unfold TimeWithinDay, msPerDay.
    Z.div_mod_to_equations. lia.
  - rewrite (PeriodFacts.getStartOfWeek_eq (getStartOfWeek date)), Hw0. lia.
  - intros other Ho. apply toISODate_Day.
    rewrite PeriodFacts.Day_getStartOfWeek.
    unfold getUTCDay, WeekDay in *.
    Z.div_mod_to_equations. lia.
Qed.

Lemma getStartOfWeek_is_sunday_witness :
  Day (getStartOfWeek 1704283200000) <= Day 1704542400000
    <= Day (getStartOfWeek 1704283200000) + 6
  /\ toISODate (getStartOfWeek 1704542400000) = "2023-12-31".
Proof.
  assert (H : Day (getStartOfWeek 1704283200000) <= Day 1704542400000
              <= Day (getStartOfWeek 1704283200000) + 6)
    by (vm_compute; split; discriminate).
  split; [exact H|].
  exact (proj2 (proj2 (proj2 (proj2 (proj2
           (getStartOfWeek_is_sunday 1704283200000))))) 1704542400000 H).
Defined.

(** X2.  [getStartOfMonth] gives midnight UTC of the first day of the
    month of a date, which is not after the date; [getStartOfQuarter] does
    so for the first month of its quarter (January, April, July or
    October), and [getStartOfYear] for January.  This is for a year outside
    0..99; inside, [Date.UTC] moves the result into the year 1900 + year. *)
Theorem start_of_period_is_first_day (date : Z) :
  let Y := getUTCFullYear date in
  let M := getUTCMonth date in
  let Y' := if (0 <=? Y) && (Y <=? 99) then 1900 + Y else Y in
  let first (t : Z) (m : Z) :=
    getUTCFullYear t = Y' /\ getUTCMonth t = m /\ getUTCDate t = 1
    /\ TimeWithinDay t = 0 /\ (Y' = Y -> t <= date) in
  first (getStartOfMonth date) M
  /\ first (getStartOfQuarter date) (3 * (M / 3))
  /\ first (getStartOfYear date) 0
  /\ (Y' = Y ->
        getStartOfMonth date = (Day date - (getUTCDate date - 1)) * msPerDay).
Proof.
  cbv zeta.
  pose proof (Calendar.MonthFromTime_range date) as Hm.
  unfold getStartOfMonth, getStartOfQuarter, getStartOfYear,
    getUTCFullYear, getUTCMonth, getUTCDate.
  fold (utcYear (YearFromTime date)).
  assert (Hle : forall m, 0 <= m <= MonthFromTime date ->
            utcYear (YearFromTime date) = YearFromTime date ->
            UTC (YearFromTime date) m 1 <= date).
  { intros m Hm' Hy.
    destruct (PeriodFacts.civil_of_UTC (YearFromTime date) m ltac:(lia))
      as (_ & _ & _ & Ht & Hd).
    rewrite Hy in Hd. pose proof (PeriodFacts.MakeDay_first_le date m Hm').
    pose proof (Calendar.TimeWithinDay_range date).
    pose proof (Calendar.time_decompose (UTC (YearFromTime date) m 1)) as E1.
    pose proof (Calendar.time_decompose date) as E2.
    rewrite Ht, Hd in E1. unfold MakeDate, msPerDay in *. nia. }
  assert (Hq : 0 <= 3 * (MonthFromTime date / 3) <= MonthFromTime date)
    by (Z.div_mod_to_equations; lia).
  replace (MonthFromTime date / 3 * 3) with (3 * (MonthFromTime date / 3))
    by lia.
  destruct (PeriodFacts.civil_of_UTC (YearFromTime date) (MonthFromTime date)
              ltac:(lia)) as (A1 & A2 & A3 & A4 & A5).
  destruct (PeriodFacts.civil_of_UTC (YearFromTime date)
              (3 * (MonthFromTime date / 3)) ltac:(lia))
    as (B1 & B2 & B3 & B4 & _).
  destruct (PeriodFacts.civil_of_UTC (YearFromTime date) 0 ltac:(lia))
    as (C1 & C2 & C3 & C4 & _).
  repeat split; try done; try (intros Hy; apply Hle; [lia | done]).
  intros Hy.
  pose proof (Calendar.time_decompose
                (UTC (YearFromTime date) (MonthFromTime date) 1)) as E1.
  rewrite A4, A5, Hy in E1.
  pose proof (Calendar.MakeDay_of_time date (1 - DateFromTime date)) as E.
  replace (DateFromTime date + (1 - DateFromTime date)) with 1 in E by lia.
  rewrite E in E1. rewrite E1. unfold MakeDate. lia.
Qed.

Lemma start_of_period_is_first_day_witness :
  toISODate (getStartOfQuarter 1708344000000) = "2024-01-01"
  /\ getStartOfQuarter 1708344000000 <= 1708344000000.
Proof.
  split; [reflexivity|].
  destruct (start_of_period_is_first_day 1708344000000)
    as (_ & (_ & _ & _ & _ & H) & _).
  apply H. reflexivity.
Defined.

(** ** More on the buckets of [processChartData] *)

Module BucketFacts.

Import Calendar Buckets.

Lemma lookup_addToBucket aggregationType (g : gmap string Bucket) t k :
  addToBucket aggregationType g t !! k
  = match g !! k with
    | Some b =>
        if decide (transactionKey aggregationType t = k) then
          if String.eqb (type t) "income"
          then Some {| income := (income b + amount t)%Qc; expense := expense b |}
          else Some {| income := income b; expense := (expense b + amount t)%Qc |}
        else Some b
    | None => None
    end.
Proof.
  unfold addToBucket.
  destruct (decide (transactionKey aggregationType t = k)) as [<- | Hne].
  - destruct (g !! transactionKey aggregationType t) as [b|] eqn:Hb;
      [|by rewrite Hb].
    destruct (String.eqb (type t) "income"); by rewrite lookup_insert_eq.
  - destruct (g !! transactionKey aggregationType t) as [b|] eqn:Hb.
    + destruct (String.eqb (type t) "income"); rewrite lookup_insert_ne by done;
        by destruct (g !! k).
    + by destruct (g !! k).
Qed.

Lemma lookup_fold_addToBucket aggregationType data (g : gmap string Bucket) k :
  fold_left (addToBucket aggregationType) data g !! k
  = match g !! k with
    | Some b =>
        Some {| income :=
                  (income b
                   + total (amount <$> ofBucket aggregationType k true data))%Qc;
                expense :=
                  (expense b
                   + total (amount <$> ofBucket aggregationType k false data))%Qc |}
    | None => None
    end.
Proof.
  revert g. induction data as [|t data IH]; intros g.
  - simpl. destruct (g !! k) as [[i e]|]; [|done]. f_equal.
    unfold total. simpl. f_equal; ring.
  - cbn [fold_left]. rewrite IH, lookup_addToBucket.
    unfold ofBucket. rewrite !filter_cons.
    destruct (g !! k) as [b|]; [|done].
    destruct (decide (transactionKey aggregationType t = k)) as [Hk | Hk].
    + destruct (String.eqb (type t) "income") eqn:Hty.
      * rewrite decide_True by done.
        rewrite decide_False by (intros [? ?]; done).
        rewrite fmap_cons. unfold total. simpl. f_equal. f_equal; ring.
      * rewrite decide_False by (intros [? ?]; done).
        rewrite decide_True by done.
        rewrite fmap_cons. unfold total. simpl. f_equal. f_equal; ring.
    + rewrite !decide_False by (intros [? ?]; done). done.
Qed.

Lemma addToBucket_no_bucket aggregationType (g : gmap string Bucket) t :
  transactionKey aggregationType t ∉ dom g ->
  addToBucket aggregationType g t = g.
Proof.
  intros Hnin. unfold addToBucket.
  destruct (g !! transactionKey aggregationType t) as [b|] eqn:Hb; [|done].
  destruct Hnin. apply elem_of_dom. by eexists.
Qed.

Lemma fold_addToBucket_filter aggregationType data (g : gmap string Bucket) :
  fold_left (addToBucket aggregationType) data g
  = fold_left (addToBucket aggregationType)
      (filter (fun t => transactionKey aggregationType t ∈ dom g) data) g.
Proof.
  revert g. induction data as [|t data IH]; intros g; [done|].
  cbn [fold_left]. rewrite filter_cons.
  destruct (decide (transactionKey aggregationType t ∈ dom g)) as [Hin | Hnin].
  - cbn [fold_left]. rewrite IH, dom_addToBucket. done.
  - rewrite addToBucket_no_bucket by done. apply IH.
Qed.

End BucketFacts.


(** X4.  A transaction whose bucket key was not seeded never changes the
    chart: the chart of a list of transactions is the chart of those among
    them that have a seeded bucket. *)
Theorem unbucketed_transactions_are_ignored
    (toLocaleDateString : option Z -> LocaleOptions -> string)
    data startDateStr endDateStr :
  let aggregationType := (groupData data startDateStr endDateStr).1 in
  let seeded := (groupData [] startDateStr endDateStr).2 in
  processChartData toLocaleDateString data startDateStr endDateStr
  = processChartData toLocaleDateString
      (filter (fun t => transactionKey aggregationType t ∈ dom seeded) data)
      startDateStr endDateStr.
Proof.
  cbv zeta. unfold processChartData, groupData. cbn [fst snd fold_left].
  by rewrite BucketFacts.fold_addToBucket_filter.
Qed.

(** ** Weekly buckets *)

Module WeeklyFacts.

Import Calendar Buckets.

Lemma everyFrom_elem k s n t :
  t ∈ everyFrom k s n <->
  exists i, 0 <= i < Z.of_nat n /\ t = s + i * (k * msPerDay).
Proof.
  revert s. induction n as [|n IH]; intros s; simpl.
  - split; [by intros ?%elem_of_nil | intros (i & ? & _); lia].
  - rewrite elem_of_cons, IH. split.
    + intros [-> | (i & Hi & ->)]; [exists 0; lia | exists (i + 1); lia].
    + intros (i & Hi & ->). destruct (Z.eq_dec i 0) as [-> | Hne].
      * left. lia.
      * right. exists (i - 1). lia.
Qed.

(** The weekly walk visits every seventh day from [currentDate] up to
    [end]. *)
Lemma seedKeys_weekly n fuel end_ currentDate :
  (n <= fuel)%nat ->
  currentDate + Z.of_nat n * (7 * msPerDay) - 7 * msPerDay <= end_
    < currentDate + Z.of_nat n * (7 * msPerDay) ->
  seedKeys fuel weekly end_ currentDate
  = (fun t => toISODate (getStartOfWeek t)) <$> everyFrom 7 currentDate n.
Proof.
  revert fuel currentDate. induction n as [|n IH]; intros fuel cur Hf He.
  - destruct fuel as [|fuel]; [done|]. simpl.
    destruct (Z.leb_spec cur end_); [lia | done].
  - destruct fuel as [|fuel]; [lia|]. simpl.
    assert (0 < msPerDay) by (unfold msPerDay; lia).
    destruct (Z.leb_spec cur end_); [|nia].
    f_equal. rewrite setUTCDate_shift. apply IH; [lia | nia].
Qed.

Lemma weekly_seedKeys s e :
  s = Day s * msPerDay + noon -> e = Day e * msPerDay + noon ->
  Day s <= Day e ->
  seedKeys (seedFuel s e) weekly e s
  = (fun t => toISODate (getStartOfWeek t)) <$> everyFrom 7 s (weeksOf s e).
Proof.
  intros Hs He Hle. apply seedKeys_weekly.
  - unfold weeksOf, seedFuel. div_lia.
  - unfold weeksOf. rewrite Z2Nat.id by div_lia.
    unfold msPerDay in *. div_lia.
Qed.

Lemma weekly_dom data startDateStr endDateStr s e :
  createTimezoneSafeDate startDateStr = Some s ->
  createTimezoneSafeDate endDateStr = Some e ->
  45 < inclusiveDays s e <= 180 ->
  dom (groupData data startDateStr endDateStr).2
  = list_to_set ((fun t => toISODate (getStartOfWeek t))
                   <$> everyFrom 7 s (weeksOf s e)).
Proof.
  intros Hs He Hn. rewrite ChartFacts.groupData_dom.
  rewrite (ChartFacts.groupData_eq [] _ _ _ _ Hs He),
    ChartFacts.selectAggregation_days.
  repeat match goal with
         | |- context [?a <? ?b] => destruct (Z.ltb_spec a b); try lia
         end.
  cbn [snd fold_left].
  rewrite weekly_seedKeys;
    [apply Seeding.dom_seeded | eauto using ChartFacts.createTimezoneSafeDate_noon..
    | unfold inclusiveDays in Hn; lia].
Qed.

(** The week of a day of the range has a bucket when it is not past the
    last week that the walk reaches. *)
Lemma weekly_key_seeded s e t :
  Day s <= Day t ->
  Day t - WeekDay t <= Day s - WeekDay s + 7 * ((Day e - Day s) / 7) ->
  toISODate (getStartOfWeek t)
    ∈ (fun t => toISODate (getStartOfWeek t)) <$> everyFrom 7 s (weeksOf s e).
Proof.
  intros Hst Hlast. apply list_elem_of_fmap.
  set (i := ((Day t - WeekDay t) - (Day s - WeekDay s)) / 7).
  exists (s + i * (7 * msPerDay)). split.
  - apply toISODate_Day. rewrite !PeriodFacts.Day_getStartOfWeek.
    replace (s + i * (7 * msPerDay)) with (s + (7 * i) * msPerDay) by lia.
    unfold WeekDay. rewrite !Seeding.Day_shift. subst i.
    unfold WeekDay in *. div_lia.
  - apply everyFrom_elem. exists i. split; [|done].
    unfold weeksOf. subst i. unfold WeekDay in *.
    assert (Day s <= Day e) by div_lia.
    rewrite Z2Nat.id by div_lia. div_lia.
Qed.

End WeeklyFacts.

Section WeeklyChart.

Import Calendar.

(** The years of the days near a range of four-digit years. *)
Lemma year_near_range s e t :
  0 <= YearFromTime s -> YearFromTime e <= 9999 ->
  Day s - 6 <= Day t <= Day e ->
  -999999 <= YearFromTime t <= 999999.
Proof.
  intros Hs He Ht.
  unfold YearFromTime in *.
  pose proof (YearFromDay_mono (Day t) (Day e) ltac:(lia)).
  pose proof (YearFromDay_spec (Day s)) as Hsp.
  pose proof (DayFromYear_mono 0 (YearFromDay (Day s)) Hs) as Hm.
  assert (H0 : DayFromYear 0 = -719528) by reflexivity.
  assert (Hm1 : DayFromYear (-1) = -719893) by reflexivity.
  assert (H2 : YearFromDay (DayFromYear (-1)) = -1)
    by (apply YearFromDay_unique; vm_compute; split; [discriminate | reflexivity]).
  pose proof (YearFromDay_mono (DayFromYear (-1)) (Day t) ltac:(lia)).
  lia.
Qed.

End WeeklyChart.

(** X6.  With weekly granularity (46 to 180 days) the week of the end date
    has a bucket exactly when the weekday of the start date is not later
    in the week than the weekday of the end date; otherwise the walk from
    the start date stops one week short. *)
Theorem weekly_end_week_is_seeded_iff data startDateStr endDateStr s e :
  createTimezoneSafeDate startDateStr = Some s ->
  createTimezoneSafeDate endDateStr = Some e ->
  String.length startDateStr = 10%nat ->
  String.length endDateStr = 10%nat ->
  45 < inclusiveDays s e <= 180 ->
  toISODate (getStartOfWeek e) ∈ dom (groupData data startDateStr endDateStr).2
  <-> getUTCDay s <= getUTCDay e.
Proof.
  intros Hs He Hls Hle Hn.
  destruct (DateStrings.createTimezoneSafeDate_spec _ _ Hs) as (_ & _ & Hsy).
  destruct (DateStrings.createTimezoneSafeDate_spec _ _ He) as (_ & _ & Hey).
  specialize (Hsy Hls). specialize (Hey Hle).
  rewrite (WeeklyFacts.weekly_dom _ _ _ _ _ Hs He Hn), elem_of_list_to_set.
  unfold getUTCDay, inclusiveDays in *.
  pose proof (PeriodFacts.WeekDay_range s). pose proof (PeriodFacts.WeekDay_range e).
  split.
  - intros (t & Heq & (i & Hi & ->)%WeeklyFacts.everyFrom_elem)%list_elem_of_fmap.
    replace (s + i * (7 * msPerDay)) with (s + (7 * i) * msPerDay) in Heq by lia.
    unfold weeksOf in Hi. rewrite Z2Nat.id in Hi by (Z.div_mod_to_equations; lia).
    pose proof (PeriodFacts.WeekDay_range (s + 7 * i * msPerDay)).
    apply DateStrings.toISODate_inj in Heq.
    + rewrite !PeriodFacts.Day_getStartOfWeek in Heq.
      unfold WeekDay in *. rewrite !Seeding.Day_shift in *.
      Z.div_mod_to_equations. lia.
    + apply (year_near_range s e); [lia..|].
      rewrite PeriodFacts.Day_getStartOfWeek. lia.
    + apply (year_near_range s e); [lia..|].
      rewrite PeriodFacts.Day_getStartOfWeek, Seeding.Day_shift.
      Z.div_mod_to_equations. lia.
  - intros Hwd. apply WeeklyFacts.weekly_key_seeded; [lia|].
    unfold WeekDay in *. Z.div_mod_to_equations. lia.
Qed.

Lemma weekly_end_week_is_seeded_iff_witness :
  createTimezoneSafeDate "2024-01-03" = Some 1704283200000
  /\ createTimezoneSafeDate "2024-02-19" = Some 1708344000000
  /\ String.length "2024-01-03" = 10%nat
  /\ String.length "2024-02-19" = 10%nat
  /\ 45 < inclusiveDays 1704283200000 1708344000000 <= 180
  /\ ~ toISODate (getStartOfWeek 1708344000000)
         ∈ dom (groupData [] "2024-01-03" "2024-02-19").2.
Proof.
  assert (Hn : 45 < inclusiveDays 1704283200000 1708344000000 <= 180)
    by (vm_compute; split; [reflexivity | discriminate]).
  repeat (split; [first [reflexivity | assumption]|]).
  intros Hin.
  apply (weekly_end_week_is_seeded_iff [] "2024-01-03" "2024-02-19"
           1704283200000 1708344000000 eq_refl eq_refl eq_refl eq_refl Hn)
    in Hin.
  vm_compute in Hin. by apply Hin.
Defined.

(** X7.  With weekly granularity (46 to 180 days), when the weekday of
    the start date is not later in the week than that of the end date,
    every transaction dated from the start day to the end day has its
    bucket: the key of its week is one of the keys of the chart, so the
    guard [if (groupedData[keyString])] lets it through. *)
Theorem weekly_range_is_covered data startDateStr endDateStr s e
    (t : Transaction) :
  createTimezoneSafeDate startDateStr = Some s ->
  createTimezoneSafeDate endDateStr = Some e ->
  45 < inclusiveDays s e <= 180 ->
  getUTCDay s <= getUTCDay e ->
  Day s <= Day (date t) <= Day e ->
  (groupData data startDateStr endDateStr).1 = weekly
  /\ transactionKey weekly t ∈ dom (groupData data startDateStr endDateStr).2.
Proof.
  intros Hs He Hn Hwd Hd.
  assert (Hagg : (groupData data startDateStr endDateStr).1 = weekly).
  { rewrite (ChartFacts.groupData_aggregation _ _ _ _ _ Hs He),
      ChartFacts.selectAggregation_days.
    repeat match goal with
           | |- context [?a <? ?b] => destruct (Z.ltb_spec a b); try lia
           end.
    done. }
  split; [done|].
  rewrite (WeeklyFacts.weekly_dom _ _ _ _ _ Hs He Hn).
  apply elem_of_list_to_set. unfold transactionKey.
  apply WeeklyFacts.weekly_key_seeded; [lia|].
  unfold getUTCDay, WeekDay in *. Z.div_mod_to_equations. lia.
Qed.

Lemma weekly_range_is_covered_witness :
  let t :=
    {| description := "invoice"; amount := Qc_of_Z 100;
       date := 1708430400000; type := "income";
       category := CatString "work"; createdAt := 1708430400000 |} in
  createTimezoneSafeDate "2024-01-01" = Some 1704110400000
  /\ createTimezoneSafeDate "2024-02-20" = Some 1708430400000
  /\ 45 < inclusiveDays 1704110400000 1708430400000 <= 180
  /\ getUTCDay 1704110400000 <= getUTCDay 1708430400000
  /\ Day 1704110400000 <= Day (date t) <= Day 1708430400000
  /\ transactionKey weekly t = "2024-02-18"
  /\ "2024-02-18" ∈ dom (groupData [t] "2024-01-01" "2024-02-20").2.
Proof.
  cbv zeta.
  assert (Hn : 45 < inclusiveDays 1704110400000 1708430400000 <= 180)
    by (vm_compute; split; [reflexivity | discriminate]).
  assert (Hwd : getUTCDay 1704110400000 <= getUTCDay 1708430400000)
    by (vm_compute; discriminate).
  match goal with
  | |- _ /\ _ /\ _ /\ _ /\ (_ <= Day (date ?t) <= _) /\ _ => set (tx := t)
  end.
  assert (Hd : Day 1704110400000 <= Day (date tx) <= Day 1708430400000)
    by (vm_compute; split; discriminate).
  assert (Hk : transactionKey weekly tx = "2024-02-18")
    by (vm_compute; reflexivity).
  repeat (split; [first [reflexivity | assumption]|]).
  rewrite <- Hk.
  exact (proj2 (weekly_range_is_covered [tx] "2024-01-01" "2024-02-20"
                  1704110400000 1708430400000 tx eq_refl eq_refl Hn Hwd Hd)).
Defined.

(** ** Date strings and the dates they name *)

Module RoundTrip.

Import Calendar DateStrings.

Lemma digit_digitValue c v : digitValue c = Some v -> c = digit v.
Proof.
  destruct c as [[] [] [] [] [] [] [] []]; vm_compute; intros H;
    try discriminate H; injection H as <-; reflexivity.
Qed.

Lemma digit_ext a b : a mod 10 = b mod 10 -> digit a = digit b.
Proof. unfold digit. by intros ->. Qed.

(** A ten-character date string is the string of the day it names. *)
Lemma parseYMD_print str y m d :
  String.length str = 10%nat ->
  parseYMD str = Some (y, m, d) -> isoString y m d = str.
Proof.
  intros Hlen.
  destruct str as [|c0 [|c1 [|c2 [|c3 [|c4 [|c5 [|c6 [|c7 [|c8 [|c9 [|]]]]]]]]]]];
    try discriminate Hlen.
  unfold parseYMD.
  destruct (Ascii.eqb c0 "+");
    [intros (? & _ & _ & _ & _ & Hl)%parseFields_spec; discriminate Hl|].
  destruct (Ascii.eqb c0 "-");
    [intros (? & _ & _ & _ & _ & Hl)%parseFields_spec; discriminate Hl|].
  unfold parseFields.
  cbn [substring digitsValue String.length Nat.add].
  destruct (digitValue c0) as [v0|] eqn:H0; [|done].
  destruct (digitValue c1) as [v1|] eqn:H1; [|done].
  destruct (digitValue c2) as [v2|] eqn:H2; [|done].
  destruct (digitValue c3) as [v3|] eqn:H3; [|done].
  destruct (digitValue c5) as [v5|] eqn:H5; [|done].
  destruct (digitValue c6) as [v6|] eqn:H6; [|done].
  destruct (digitValue c8) as [v8|] eqn:H8; [|done].
  destruct (digitValue c9) as [v9|] eqn:H9; [|done].
  destruct (_ && _) eqn:Hc; [|done]. intros [= <- <- <-].
  repeat (apply andb_true_iff in Hc as [Hc ?]).
  repeat match goal with
         | H : (_ =? _)%string = true |- _ =>
             apply String.eqb_eq in H; injection H as ->
         end.
  repeat match goal with
         | H : digitValue ?c = Some ?v |- _ =>
             pose proof (digitValue_range _ _ H);
             apply digit_digitValue in H; subst c
         end.
  unfold isoString, yearString.
  match goal with
  | |- context [(0 <=? ?a) && (?a <=? 9999)] =>
      replace ((0 <=? a) && (a <=? 9999)) with true
        by (symmetry; apply andb_true_iff; lia)
  end.
  unfold pad4, pad2. cbv [String.append].
  repeat (apply (f_equal2 String);
          [first [reflexivity | apply digit_ext; Z.div_mod_to_equations; lia]|]).
  reflexivity.
Qed.

Lemma toISODate_createTimezoneSafeDate str t :
  String.length str = 10%nat ->
  createTimezoneSafeDate str = Some t -> toISODate t = str.
Proof.
  intros Hlen Ht. unfold createTimezoneSafeDate in Ht.
  destruct (parseYMD str) as [[[y m] d]|] eqn:Hp; [|done].
  injection Ht as <-.
  pose proof (parseYMD_spec _ _ _ _ Hp) as (Hy & Hm & Hd & _).
  rewrite <- (parseYMD_print _ _ _ _ Hlen Hp), ISOOrder.toISODate_isoString.
  destruct (PeriodFacts.civil_of_MakeDay y (m - 1) d (12 * 3600000))
    as (-> & -> & -> & _);
    [lia | by replace (m - 1 + 1) with m by lia | unfold msPerDay; lia |].
  f_equal. lia.
Qed.

End RoundTrip.

(** X8.  A ten-character date string names a date at noon UTC of a year
    from 0 to 9999 whose date string is the given string again, and so is
    the date string of every instant less than twelve hours away from
    it. *)
Theorem createTimezoneSafeDate_round_trip str t :
  String.length str = 10%nat ->
  createTimezoneSafeDate str = Some t ->
  toISODate t = str
  /\ TimeWithinDay t = noon
  /\ 0 <= YearFromTime t <= 9999
  /\ forall delta, - noon <= delta < noon -> toISODate (t + delta) = str.
Proof.
  intros Hlen Ht.
  pose proof (RoundTrip.toISODate_createTimezoneSafeDate _ _ Hlen Ht) as Hstr.
  destruct (DateStrings.createTimezoneSafeDate_spec _ _ Ht) as (Hnoon & _ & Hy).
  assert (Htime : TimeWithinDay t = noon).
  { unfold TimeWithinDay, Day, msPerDay, noon in *. Z.div_mod_to_equations. lia. }
  repeat split; try done; try (apply Hy, Hlen).
  intros delta Hdelta. rewrite <- Hstr. apply toISODate_Day.
  unfold Day, msPerDay, noon in *. Z.div_mod_to_equations. lia.
Qed.

Lemma createTimezoneSafeDate_round_trip_witness :
  toISODate 1709640000000 = "2024-03-05"
  /\ toISODate (1709640000000 - noon) = "2024-03-05".
Proof.
  destruct (createTimezoneSafeDate_round_trip "2024-03-05" 1709640000000
              eq_refl eq_refl) as (H1 & _ & _ & H2).
  split; [exact H1|]. apply H2. vm_compute. split; [discriminate | reflexivity].
Defined.

(** X9.  The date that [openEditModal] writes into the edit form reads
    back, when the form is submitted unchanged, as noon UTC of the same
    day; the transaction keeps its daily bucket, and a second unchanged
    edit changes nothing more. *)
Theorem edit_keeps_the_day (transaction : Transaction) :
  -999999 <= YearFromTime (date transaction) <= 999999 ->
  let saved := Day (date transaction) * msPerDay + noon in
  createTimezoneSafeDate (editDateValue transaction) = Some saved
  /\ Day saved = Day (date transaction)
  /\ toISODate saved = toISODate (date transaction)
  /\ createTimezoneSafeDate (toISODate saved) = Some saved.
Proof.
  intros Hy saved. unfold editDateValue.
  assert (Hday : Day saved = Day (date transaction)).
  { unfold saved, Day, msPerDay, noon. Z.div_mod_to_equations. lia. }
  pose proof (toISODate_Day _ _ Hday) as Hstr.
  repeat split; try done.
  - by apply DateStrings.createTimezoneSafeDate_toISODate.
  - rewrite Hstr. by apply DateStrings.createTimezoneSafeDate_toISODate.
Qed.

Lemma edit_keeps_the_day_witness :
  createTimezoneSafeDate
    (editDateValue {| description := "rent"; amount := 0%Qc;
                      date := 1709600000000; type := "expense";
                      category := CatString "housing";
                      createdAt := 1709600000000 |})
  = Some 1709640000000.
Proof.
  refine (proj1 (edit_keeps_the_day
                   {| description := "rent"; amount := 0%Qc;
                      date := 1709600000000; type := "expense";
                      category := CatString "housing";
                      createdAt := 1709600000000 |} _)).
  vm_compute. split; discriminate.
Defined.

Module GuardFacts.

Lemma compare_refl_eq s : String.compare s s = Eq.
Proof.
  induction s as [|c s IH]; [done|]. simpl.
  unfold Ascii.compare. by rewrite N.compare_refl.
Qed.

End GuardFacts.

(** X10.  On two ten-character date strings the guard of [updateChart]
    lets the range through exactly when the start date is not after the
    end date: the comparison of the strings is the comparison of the
    dates. *)
Theorem range_guard_is_date_order startDateStr endDateStr s e :
  String.length startDateStr = 10%nat ->
  String.length endDateStr = 10%nat ->
  createTimezoneSafeDate startDateStr = Some s ->
  createTimezoneSafeDate endDateStr = Some e ->
  (rangeRejected startDateStr endDateStr = false <-> s <= e)
  /\ (rangeRejected startDateStr endDateStr = false -> 1 <= inclusiveDays s e).
Proof.
  intros Hls Hle Hs He.
  pose proof (RoundTrip.toISODate_createTimezoneSafeDate _ _ Hls Hs) as Es.
  pose proof (RoundTrip.toISODate_createTimezoneSafeDate _ _ Hle He) as Ee.
  destruct (DateStrings.createTimezoneSafeDate_spec _ _ Hs) as (Hns & _ & Hys).
  destruct (DateStrings.createTimezoneSafeDate_spec _ _ He) as (Hne & _ & Hye).
  specialize (Hys Hls). specialize (Hye Hle).
  assert (Hguard : rangeRejected startDateStr endDateStr = false
                   <-> Day s <= Day e).
  { unfold rangeRejected.
    destruct startDateStr as [|? ?]; [discriminate Hls|].
    destruct endDateStr as [|? ?]; [discriminate Hle|].
    cbn [String.eqb orb]. rewrite <- Es, <- Ee.
    destruct (Z.lt_trichotomy (Day s) (Day e)) as [Hlt | [Heq | Hgt]].
    - pose proof (ISOOrder.toISODate_lt s e ltac:(lia) ltac:(lia) Hlt) as H.
      unfold str_lt in H. rewrite H. split; [lia | done].
    - rewrite (toISODate_Day _ _ Heq), GuardFacts.compare_refl_eq.
      split; [lia | done].
    - pose proof (ISOOrder.toISODate_lt e s ltac:(lia) ltac:(lia) Hgt) as H.
      unfold str_lt in H. rewrite String.compare_antisym, H. simpl.
      split; [done | lia]. }
  unfold inclusiveDays. split; [|rewrite Hguard; lia].
  rewrite Hguard. unfold noon, msPerDay in *. lia.
Qed.

Lemma range_guard_is_date_order_witness :
  rangeRejected "2024-03-05" "2024-02-19" = true
  /\ ~ 1709640000000 <= 1708344000000.
Proof.
  pose proof (range_guard_is_date_order "2024-03-05" "2024-02-19"
                1709640000000 1708344000000 eq_refl eq_refl eq_refl eq_refl)
    as [H _].
  split; [reflexivity|]. intros Hle. apply H in Hle. discriminate Hle.
Defined.

(** ** The window of the chart query *)

Module WindowFacts.

Import Calendar.

Lemma endOfDay_spec endDate e b :
  createTimezoneSafeDate endDate = Some e -> endOfDay endDate = Some b ->
  b = Day e * msPerDay + 86399000.
Proof.
  unfold createTimezoneSafeDate, endOfDay.
  destruct (parseYMD endDate) as [[[y m] d]|]; [|done].
  intros [= <-] [= <-].
  rewrite Day_MakeDate by (unfold msPerDay; lia).
  unfold MakeDate. lia.
Qed.

Lemma window_days startDate endDate s e b t :
  createTimezoneSafeDate startDate = Some s ->
  createTimezoneSafeDate endDate = Some e ->
  endOfDay endDate = Some b ->
  s <= t <= b -> Day s <= Day t <= Day e.
Proof.
  intros Hs He Hb Ht.
  pose proof (endOfDay_spec _ _ _ He Hb) as ->.
  pose proof (ChartFacts.createTimezoneSafeDate_noon _ _ Hs) as Hns.
  unfold Day, msPerDay, noon in *. Z.div_mod_to_equations. lia.
Qed.

End WindowFacts.

(** X11.  The query of [fetchChartData] asks for the dates from noon UTC of
    the start day to 23:59:59 UTC of the end day.  A date between noon and
    23:59:59 of its day is within these bounds exactly when its day is one
    of the days of the range, and a date of the start day before noon is
    not.  With daily granularity (45 days at most) every transaction
    within the bounds has the bucket of its day among the buckets of the
    chart. *)
Theorem chart_query_window data startDateStr endDateStr s e b :
  createTimezoneSafeDate startDateStr = Some s ->
  createTimezoneSafeDate endDateStr = Some e ->
  endOfDay endDateStr = Some b ->
  b = Day e * msPerDay + 86399000
  /\ (forall t, noon <= TimeWithinDay t <= 86399000 ->
        (s <= t <= b <-> Day s <= Day t <= Day e))
  /\ (forall t, Day t = Day s -> TimeWithinDay t < noon -> ~ s <= t)
  /\ (inclusiveDays s e <= 45 ->
      forall t : Transaction, s <= date t <= b ->
        (groupData data startDateStr endDateStr).1 = daily
        /\ transactionKey daily t
             ∈ dom (groupData data startDateStr endDateStr).2).
Proof.
  intros Hs He Hb.
  pose proof (WindowFacts.endOfDay_spec _ _ _ He Hb) as Eb.
  pose proof (ChartFacts.createTimezoneSafeDate_noon _ _ Hs) as Hns.
  split; [exact Eb|]. split; [|split].
  - intros t Ht. split.
    + by apply (WindowFacts.window_days startDateStr endDateStr).
    + intros Hd. pose proof (Calendar.time_decompose t) as Et.
      pose proof (Calendar.TimeWithinDay_range t).
      unfold MakeDate, msPerDay, noon in *. lia.
  - intros t Hd Ht Hle. pose proof (Calendar.time_decompose t) as Et.
    unfold MakeDate, msPerDay, noon in *. lia.
  - intros Hn t Ht.
    pose proof (WindowFacts.window_days startDateStr endDateStr s e b
                  (date t) Hs He Hb Ht) as Hd.
    split.
    + rewrite (ChartFacts.groupData_aggregation _ _ _ _ _ Hs He),
        ChartFacts.selectAggregation_days.
      repeat match goal with
             | |- context [?a <? ?b] => destruct (Z.ltb_spec a b); try lia
             end.
      done.
    + rewrite (ChartFacts.daily_dom data _ _ _ _ Hs He Hn).
      apply elem_of_list_to_set, list_elem_of_fmap.
      exists (s + (Day (date t) - Day s) * msPerDay). split.
      * unfold transactionKey. apply toISODate_Day.
        rewrite Seeding.Day_shift. lia.
      * apply daysFrom_elem_2. unfold seedFuel. lia.
Qed.

Lemma chart_query_window_witness :
  let evening :=
    {| description := "invoice"; amount := Qc_of_Z 100;
       date := 1709661600000; type := "income";
       category := CatString "work"; createdAt := 1709661600000 |} in
  createTimezoneSafeDate "2024-03-01" = Some 1709294400000
  /\ createTimezoneSafeDate "2024-03-05" = Some 1709640000000
  /\ endOfDay "2024-03-05" = Some 1709683199000
  /\ ~ 1709294400000 <= 1709251200000
  /\ 1709294400000 <= date evening <= 1709683199000
  /\ transactionKey daily evening = "2024-03-05"
  /\ "2024-03-05" ∈ dom (groupData [evening] "2024-03-01" "2024-03-05").2.
Proof.
  cbv zeta.
  match goal with
  | |- _ /\ _ /\ _ /\ _ /\ (_ <= date ?t <= _) /\ _ => set (evening := t)
  end.
  repeat (split; [reflexivity|]).
  destruct (chart_query_window [evening]
              "2024-03-01" "2024-03-05" 1709294400000 1709640000000
              1709683199000 eq_refl eq_refl eq_refl) as (_ & _ & H & Hdaily).
  split; [apply H; vm_compute; reflexivity|].
  assert (Hw : 1709294400000 <= date evening <= 1709683199000)
    by (vm_compute; split; discriminate).
  split; [exact Hw|].
  assert (Hk : transactionKey daily evening = "2024-03-05")
    by (vm_compute; reflexivity).
  split; [exact Hk|]. rewrite <- Hk.
  apply Hdaily; [vm_compute; discriminate | exact Hw].
Defined.

(** ** The signs of the summary panel *)

Module PanelFacts.

Ltac to_Q :=
  unfold Qclt, Qcle in *;
  cbn [this Qcplus Qcminus Qcmult Qcopp Q2Qc] in *;
  rewrite ?Qred_correct in *.

Lemma hundred_pos : (0 < Qc_of_Z 100)%Qc.
Proof. rewrite <- Z2Qc_inj_0. by apply Z2Qc_inj_lt. Qed.

Lemma factor_pos inc : (0 < inc)%Qc -> (0 < / inc * Qc_of_Z 100)%Qc.
Proof.
  intros H. apply Qcinv_pos in H.
  pose proof (Qcmult_lt_compat_r _ _ _ hundred_pos H) as H'.
  by rewrite Qcmult_0_l in H'.
Qed.

Lemma margin_eq np inc : (np / inc * Qc_of_Z 100 = np * (/ inc * Qc_of_Z 100))%Qc.
Proof. unfold Qcdiv. ring. Qed.

Lemma margin_nonneg np inc :
  (0 < inc)%Qc -> (0 <= np / inc * Qc_of_Z 100)%Qc <-> (0 <= np)%Qc.
Proof.
  intros H. pose proof (factor_pos inc H) as Hk. rewrite margin_eq.
  split; intros Hnp.
  - apply (Qcmult_lt_0_le_reg_r _ _ _ Hk). by rewrite Qcmult_0_l.
  - pose proof (Qcmult_le_compat_r _ _ _ Hnp (Qclt_le_weak _ _ Hk)) as H'.
    by rewrite Qcmult_0_l in H'.
Qed.

Lemma margin_le_100 inc exp :
  (0 < inc)%Qc -> (0 <= exp)%Qc ->
  ((inc - exp) / inc * Qc_of_Z 100 <= Qc_of_Z 100)%Qc.
Proof.
  intros H Hx. pose proof (factor_pos inc H) as Hk. rewrite margin_eq.
  assert (Hle : (inc - exp <= inc)%Qc) by (to_Q; lra).
  pose proof (Qcmult_le_compat_r _ _ _ Hle (Qclt_le_weak _ _ Hk)) as H'.
  replace (inc * (/ inc * Qc_of_Z 100))%Qc with (Qc_of_Z 100) in H'; [done|].
  rewrite Qcmult_assoc, Qcmult_inv_r, Qcmult_1_l; [done|].
  intros ->. by apply Qclt_not_eq in H.
Qed.

Lemma balance_spec inc exp :
  (0 <= inc)%Qc -> (0 <= exp)%Qc ->
  let np := (inc - exp)%Qc in
  let ab := (np - inc * TAX_RATE - Math_max 0 (np * SAVINGS_RATE))%Qc in
  (ab <= np)%Qc
  /\ ((0 < ab)%Qc <-> (Qc_of_Z 16 * exp < Qc_of_Z 11 * inc)%Qc).
Proof.
  intros Hinc Hexp. cbv zeta.
  unfold Math_max, TAX_RATE, SAVINGS_RATE, Qc_of_Z.
  destruct (decide (0 < (inc - exp) * Q2Qc 0.2)%Qc) as [Hs | Hs];
    to_Q;
    change (inject_Z 16) with (16 # 1)%Q;
    change (inject_Z 11) with (11 # 1)%Q;
    (split; [|split; intros H]); lra.
Qed.

End PanelFacts.

(** X12.  With totals that are not negative, the summary panel shows the
    profit bar and the income colour of the margin exactly when the
    expenses do not exceed the income, a margin of 100 percent at most, and
    a safe-to-spend balance that is not above the net profit and is never
    shown in the income colour when the expenses reach the income.  With
    expenses and no income the margin is -100 and the loss bar is full. *)
Theorem summary_signs (totalIncome totalExpenses : Qc) (shown : Summary) :
  (0 <= totalIncome)%Qc -> (0 <= totalExpenses)%Qc ->
  let s := updateGlobalSummary (Some (totalIncome, totalExpenses)) shown in
  (s_bar s = profit_bar <-> (totalExpenses <= totalIncome)%Qc)
  /\ (s_marginClass s = income_color <-> (totalExpenses <= totalIncome)%Qc)
  /\ (s_profitMargin s <= Qc_of_Z 100)%Qc
  /\ (s_availableBalance s <= s_netProfit s)%Qc
  /\ ((totalIncome <= totalExpenses)%Qc -> s_balanceClass s <> income_color)
  /\ (totalIncome = 0%Qc -> (0 < totalExpenses)%Qc ->
      s_profitMargin s = (- Qc_of_Z 100)%Qc
      /\ s_bar s = loss_bar
      /\ s_barWidth s = Qc_of_Z 100).
Proof.
  intros Hinc Hexp. cbv zeta. unfold updateGlobalSummary, summaryOf.
  rewrite !orDefault_zero.
  set (np := (totalIncome - totalExpenses)%Qc).
  set (margin := if decide (0 < totalIncome)%Qc then _ else _).
  assert (Hnp : (0 <= np)%Qc <-> (totalExpenses <= totalIncome)%Qc).
  { subst np. split; intros H; PanelFacts.to_Q; lra. }
  assert (Hmargin : (0 <= margin)%Qc <-> (0 <= np)%Qc).
  { subst margin. destruct (decide (0 < totalIncome)%Qc) as [Hpos | Hpos].
    - by apply PanelFacts.margin_nonneg.
    - destruct (decide (np < 0)%Qc) as [Hneg | Hneg].
      + split; intros H.
        * exfalso. revert H. unfold Qc_of_Z. PanelFacts.to_Q.
          change (Qred (inject_Z 100)) with (inject_Z 100).
          intros H. vm_compute in H. by apply H.
        * by apply Qcle_not_lt in H.
      + split; intros _; [by apply Qcnot_lt_le | apply Qcle_refl]. }
  assert (Hle100 : (margin <= Qc_of_Z 100)%Qc).
  { subst margin. destruct (decide (0 < totalIncome)%Qc) as [Hpos | Hpos].
    - by apply PanelFacts.margin_le_100.
    - destruct (decide (np < 0)%Qc); by vm_compute. }
  assert (Hzero : totalIncome = 0%Qc -> (0 < totalExpenses)%Qc ->
                  margin = (- Qc_of_Z 100)%Qc).
  { intros -> Hpos. subst margin np.
    rewrite decide_False by (intros H; by apply Qclt_not_eq in H).
    rewrite decide_True; [done|]. PanelFacts.to_Q. lra. }
  set (ab := (np - totalIncome * TAX_RATE
              - Math_max 0 (np * SAVINGS_RATE))%Qc).
  pose proof (PanelFacts.balance_spec totalIncome totalExpenses Hinc Hexp)
    as Hab.
  cbv zeta in Hab. fold np in Hab. fold ab in Hab.
  destruct Hab as [Hab1 Hab2].
  assert (Hclass : (totalIncome <= totalExpenses)%Qc ->
                   (if decide (0 < ab)%Qc then income_color
                    else if decide (ab < 0)%Qc then expense_color
                         else primary_color) <> income_color).
  { intros Hle. destruct (decide (0 < ab)%Qc) as [Hpos | Hpos].
    - exfalso. apply Hab2 in Hpos. revert Hpos Hle Hexp.
      unfold Qc_of_Z. PanelFacts.to_Q.
      change (inject_Z 16) with (16 # 1)%Q;
      change (inject_Z 11) with (11 # 1)%Q. lra.
    - by destruct (decide (ab < 0)%Qc). }
  destruct (decide (0 <= margin)%Qc) as [Hm | Hm];
    cbn [s_bar s_marginClass s_profitMargin s_balanceClass s_availableBalance
         s_netProfit s_barWidth].
  all: split; [rewrite <- Hnp, <- Hmargin; split; done|].
  all: split; [rewrite <- Hnp, <- Hmargin; split; done|].
  all: split; [exact Hle100|].
  all: split; [exact Hab1|].
  all: split; [exact Hclass|].
  all: intros H0 Hpos; specialize (Hzero H0 Hpos).
  - exfalso. rewrite Hzero in Hm. revert Hm. by vm_compute.
  - split; [done|]. split; [done|]. rewrite Hzero.
    apply Qc_is_canon. vm_compute. reflexivity.
Qed.

Lemma summary_signs_witness :
  let s :=
    updateGlobalSummary (Some (Qc_of_Z 1000, Qc_of_Z 400)) (summaryOf 0 0) in
  (0 <= Qc_of_Z 1000)%Qc /\ (0 <= Qc_of_Z 400)%Qc
  /\ s_bar s = profit_bar
  /\ s_marginClass s = income_color
  /\ (s_availableBalance s <= s_netProfit s)%Qc.
Proof.
  cbv zeta.
  assert (H1 : (0 <= Qc_of_Z 1000)%Qc) by (by vm_compute).
  assert (H2 : (0 <= Qc_of_Z 400)%Qc) by (by vm_compute).
  destruct (summary_signs (Qc_of_Z 1000) (Qc_of_Z 400) (summaryOf 0 0) H1 H2)
    as (Hbar & Hclass & _ & Hbal & _).
  assert (Hle : (Qc_of_Z 400 <= Qc_of_Z 1000)%Qc) by (by vm_compute).
  split; [exact H1|]. split; [exact H2|].
  split; [by apply Hbar|]. split; [by apply Hclass|]. exact Hbal.
Defined.

(** ** The figures of the prompt *)

(** X13.  When no expense has a category named like a property inherited
    from [Object.prototype], the breakdown of [generateAISummary] holds,
    under the category of every expense, the amounts of the expenses of
    that category added from 0 in the order of the list, and nothing under
    any other key; transactions that are not expenses leave it as it is. *)
Theorem expense_breakdown_sums (rawData : list Transaction) :
  categoriesAreOwnKeys rawData ->
  let expenseBreakdown := expenseBreakdownOf rawData in
  (forall t, t ∈ rawData -> type t = "expense" ->
     JSObject.get expenseBreakdown (propertyKey (category t))
     = Some (categorySum (propertyKey (category t)) rawData))
  /\ (forall k, (forall t, t ∈ rawData -> type t = "expense" ->
                   propertyKey (category t) <> k) ->
        JSObject.get expenseBreakdown k = None)
  /\ expenseBreakdown
     = expenseBreakdownOf (filter (fun t => type t = "expense") rawData).
Proof.
  intros _. cbv zeta.
  split; [|split].
  - intros t Ht Hty. rewrite BreakdownFacts.get_expenseBreakdownOf_sum.
    rewrite decide_True; [done|].
    apply list_elem_of_fmap. exists t. split; [done|].
    by apply list_elem_of_filter.
  - intros k Hk. rewrite BreakdownFacts.get_expenseBreakdownOf_sum.
    rewrite decide_False; [done|].
    intros (t & -> & [Hty Ht]%list_elem_of_filter)%list_elem_of_fmap.
    by apply (Hk t).
  - unfold expenseBreakdownOf. f_equal.
    rewrite list_filter_filter. apply list_filter_iff. intros t. tauto.
Qed.

Lemma expense_breakdown_sums_witness :
  let expense c a :=
    {| description := "paid"; amount := Qc_of_Z a; date := 1704283200000;
       type := "expense"; category := CatString c;
       createdAt := 1704283200000 |} in
  let rawData :=
    [ expense "food" 5; expense "rent" 10;
      {| description := "invoice"; amount := Qc_of_Z 300;
         date := 1704283200000; type := "income";
         category := CatString "work"; createdAt := 1704283200000 |};
      expense "food" 7 ] in
  categoriesAreOwnKeys rawData
  /\ JSObject.get (expenseBreakdownOf rawData) "food" = Some (Qc_of_Z 12)
  /\ JSObject.get (expenseBreakdownOf rawData) "work" = None.
Proof.
  cbv zeta.
  match goal with |- categoriesAreOwnKeys ?d /\ _ => set (rawData := d) end.
  assert (Hown : categoriesAreOwnKeys rawData).
  { intros t Ht _. subst rawData.
    repeat (apply elem_of_cons in Ht as [-> | Ht];
            [vm_compute; intros Hin;
             repeat (apply elem_of_cons in Hin as [Hin | Hin];
                     [discriminate|]);
             by apply elem_of_nil in Hin|]).
    by apply elem_of_nil in Ht. }
  pose proof (expense_breakdown_sums rawData Hown) as H. cbv zeta in H.
  destruct H as (Hget & Hnone & _).
  split; [exact Hown|]. split.
  - pose (lunch := {| description := "paid"; amount := Qc_of_Z 5;
                      date := 1704283200000; type := "expense";
                      category := CatString "food";
                      createdAt := 1704283200000 |}).
    assert (Hin : lunch ∈ rawData) by (by left).
    pose proof (Hget lunch Hin eq_refl) as Hfood.
    change (propertyKey (category lunch)) with "food" in Hfood.
    rewrite Hfood. f_equal. apply Qc_is_canon. vm_compute. reflexivity.
  - apply Hnone. intros t Ht Hty. subst rawData.
    repeat (apply elem_of_cons in Ht as [-> | Ht];
            [first [discriminate Hty | vm_compute; discriminate]|]).
    by apply elem_of_nil in Ht.
Defined.



(** ** The pages of the list *)

Module PagerFacts.

Lemma cursorAt_setCursor_eq cursors i lastDoc :
  0 <= i -> cursorAt (setCursor cursors i lastDoc) i = Some lastDoc.
Proof.
  intros Hi. unfold cursorAt, setCursor. cbv zeta.
  destruct (Z.ltb_spec i 0); [lia|].
  destruct (Nat.ltb_spec (Z.to_nat i) (length cursors)) as [Hlt | Hge].
  - by rewrite list_lookup_insert_eq.
  - rewrite lookup_app_r by lia.
    rewrite lookup_app_r by (rewrite length_replicate; lia).
    rewrite length_replicate, Nat.sub_diag. done.
Qed.

Lemma cursorAt_setCursor_ne cursors i j lastDoc :
  0 <= i -> i <> j ->
  cursorAt (setCursor cursors i lastDoc) j = cursorAt cursors j.
Proof.
  intros Hi Hne. unfold cursorAt, setCursor. cbv zeta.
  destruct (Z.ltb_spec j 0); [done|].
  assert (Hn : Z.to_nat i <> Z.to_nat j) by lia.
  destruct (Nat.ltb_spec (Z.to_nat i) (length cursors)) as [Hlt | Hge].
  - by rewrite list_lookup_insert_ne.
  - destruct (decide (Z.to_nat j < length cursors)%nat) as [Hj | Hj].
    + by rewrite lookup_app_l.
    + rewrite lookup_app_r by lia.
      rewrite (lookup_ge_None_2 cursors) by lia. simpl.
      destruct (decide (Z.to_nat j - length cursors
                        < Z.to_nat i - length cursors)%nat).
      * rewrite lookup_app_l by (rewrite length_replicate; lia).
        rewrite lookup_replicate_2 by lia. done.
      * rewrite lookup_app_r by (rewrite length_replicate; lia).
        rewrite length_replicate.
        destruct (Z.to_nat j - length cursors - (Z.to_nat i - length cursors))%nat
          as [|k] eqn:E; [lia|]. done.
Qed.

End PagerFacts.

Section PagerSteps.

Variable getCountFromServer : list Constraint -> option Z.
Variable getDocs : Query -> option (list Doc).

Lemma setFetching_idle st :
  isFetching st = false -> setFetching false (setFetching true st) = st.
Proof. destruct st. simpl. by intros ->. Qed.

Lemma fetchSettle_fields page answer st :
  let st' := fetchSettle page answer st in
  isFetching st' = false
  /\ currentPage st' = currentPage st
  /\ totalPages st' = totalPages st
  /\ currentFilter st' = currentFilter st.
Proof.
  unfold fetchSettle. destruct answer as [docs|]; [|done].
  by destruct (last docs).
Qed.

Lemma fetchTransactionsForPage_fields page st :
  let st' := fetchTransactionsForPage getDocs page st in
  currentPage st' = currentPage st
  /\ totalPages st' = totalPages st
  /\ currentFilter st' = currentFilter st
  /\ (isFetching st = false -> isFetching st' = false).
Proof.
  unfold fetchTransactionsForPage, fetchBegin.
  destruct (isFetching st) eqn:E; [done|].
  destruct (fetchSettle_fields page (getDocs (pageQuery st page))
              (setFetching true st)) as (H1 & H2 & H3 & H4).
  done.
Qed.

End PagerSteps.

(** X15.  The page number never falls below 1: the two page buttons, a
    reset and a deletion keep it at 1 or above, and a reset puts it at 1.
    The two buttons also keep it at the number of pages or below.  When
    [updatePaginationUI] has disabled a button, its click handler changes
    nothing, and when it has not, the handler moves the page number by
    one. *)
Theorem page_number_stays_in_range
    (getCountFromServer : list Constraint -> option Z)
    (getDocs : Query -> option (list Doc)) (st : Pager) :
  1 <= currentPage st ->
  1 <= currentPage (nextPageClick getDocs st)
  /\ 1 <= currentPage (prevPageClick getDocs st)
  /\ currentPage (resetAndRefresh getCountFromServer getDocs st) = 1
  /\ 1 <= currentPage (afterDelete getCountFromServer getDocs st)
  /\ (currentPage st <= totalPages st ->
      currentPage (nextPageClick getDocs st)
        <= totalPages (nextPageClick getDocs st)
      /\ currentPage (prevPageClick getDocs st)
           <= totalPages (prevPageClick getDocs st))
  /\ (let shown := updatePaginationUI st in
      (nextDisabled shown = true -> nextPageClick getDocs shown = shown)
      /\ (prevDisabled shown = true -> prevPageClick getDocs shown = shown)
      /\ (nextDisabled shown = false ->
          currentPage (nextPageClick getDocs shown) = currentPage st + 1)
      /\ (prevDisabled shown = false ->
          currentPage (prevPageClick getDocs shown) = currentPage st - 1)).
Proof.
  intros Hpage.
  assert (Hnext : currentPage (nextPageClick getDocs st)
                  = (if currentPage st <? totalPages st
                     then currentPage st + 1 else currentPage st)
                  /\ totalPages (nextPageClick getDocs st) = totalPages st).
  { unfold nextPageClick. destruct (currentPage st <? totalPages st); [|done].
    destruct (fetchTransactionsForPage_fields getDocs
                (currentPage (setPage (currentPage st + 1) st))
                (setPage (currentPage st + 1) st)) as (-> & -> & _).
    done. }
  assert (Hprev : currentPage (prevPageClick getDocs st)
                  = (if 1 <? currentPage st
                     then currentPage st - 1 else currentPage st)
                  /\ totalPages (prevPageClick getDocs st) = totalPages st).
  { unfold prevPageClick. destruct (1 <? currentPage st); [|done].
    destruct (fetchTransactionsForPage_fields getDocs
                (currentPage (setPage (currentPage st - 1) st))
                (setPage (currentPage st - 1) st)) as (-> & -> & _).
    done. }
  destruct Hnext as [Hn1 Hn2]. destruct Hprev as [Hp1 Hp2].
  rewrite Hn1, Hn2, Hp1, Hp2.
  split; [destruct (Z.ltb_spec (currentPage st) (totalPages st)); lia|].
  split; [destruct (Z.ltb_spec 1 (currentPage st)); lia|].
  split.
  { unfold resetAndRefresh, refreshData.
    match goal with
    | |- currentPage (fetchTransactionsForPage _ ?p ?s) = _ =>
        destruct (fetchTransactionsForPage_fields getDocs p s) as (-> & _)
    end.
    done. }
  split.
  { unfold afterDelete.
    destruct (rebuildCursors _ _ _ _ _ _) as [cursors ok].
    assert (H2 : forall st2 : Pager,
              1 <= currentPage st2 ->
              1 <= currentPage
                     (if ok then
                        fetchTransactionsForPage getDocs
                          (currentPage (setCursors cursors st2))
                          (setCursors cursors st2)
                      else setCursors cursors st2)).
    { intros st2 H2. destruct ok; [|done].
      match goal with
      | |- _ <= currentPage (fetchTransactionsForPage _ ?p ?s) =>
          destruct (fetchTransactionsForPage_fields getDocs p s) as (-> & _)
      end.
      done. }
    apply H2. cbn [setTotalPages currentPage].
    destruct (Z.ltb_spec 1 (currentPage st)); cbn [andb]; [|done].
    destruct ((_ =? _)%nat && _); simpl; lia. }
  split.
  { intros Hle.
    destruct (Z.ltb_spec (currentPage st) (totalPages st)),
      (Z.ltb_spec 1 (currentPage st)); lia. }
  cbv zeta. unfold nextPageClick, prevPageClick.
  cbn [updatePaginationUI nextDisabled prevDisabled currentPage totalPages].
  split; [|split; [|split]].
  - intros H%Z.leb_le. by destruct (Z.ltb_spec (currentPage st) (totalPages st)); [lia|].
  - intros H%Z.eqb_eq. by destruct (Z.ltb_spec 1 (currentPage st)); [lia|].
  - intros H%Z.leb_gt. destruct (Z.ltb_spec (currentPage st) (totalPages st)); [|lia].
    match goal with
    | |- currentPage (fetchTransactionsForPage _ ?p ?s) = _ =>
        destruct (fetchTransactionsForPage_fields getDocs p s) as (-> & _)
    end.
    done.
  - intros H%Z.eqb_neq. destruct (Z.ltb_spec 1 (currentPage st)); [|lia].
    match goal with
    | |- currentPage (fetchTransactionsForPage _ ?p ?s) = _ =>
        destruct (fetchTransactionsForPage_fields getDocs p s) as (-> & _)
    end.
    done.
Qed.

Lemma page_number_stays_in_range_witness :
  1 <= currentPage
         (prevPageClick (fun _ => None)
            {| transactions := []; currentPage := 1; totalPages := 3;
               isFetching := false; pageCursors := [None];
               currentFilter := {| filter_type := "all";
                                   filter_category := None |};
               pageInfo := EmptyString; prevDisabled := true;
               nextDisabled := false |}).
Proof.
  refine (proj1 (proj2 (page_number_stays_in_range (fun _ => None) (fun _ => None)
                          {| transactions := []; currentPage := 1;
                             totalPages := 3; isFetching := false;
                             pageCursors := [None];
                             currentFilter := {| filter_type := "all";
                                                 filter_category := None |};
                             pageInfo := EmptyString; prevDisabled := true;
                             nextDisabled := false |} _))).
  simpl. lia.
Defined.

(** X16.  [fetchTransactionsForPage] does nothing while a fetch is under
    way.  Otherwise it ends with the mark cleared: when [getDocs] rejects,
    the state is what it was; when it resolves, the documents become the
    list, the page line and the buttons are brought up to date, and the
    last document becomes the cursor of the next page while the other
    cursors stay; an empty answer changes no cursor. *)
Theorem fetch_page_outcomes (getDocs : Query -> option (list Doc))
    (page : Z) (st : Pager) :
  0 <= page ->
  let st' := fetchTransactionsForPage getDocs page st in
  (isFetching st = true -> st' = st)
  /\ (isFetching st = false ->
      isFetching st' = false
      /\ match getDocs (pageQuery st page) with
         | None => st' = st
         | Some docs =>
             transactions st' = docs
             /\ pageInfo st'
                = "Page " +:+ pretty (currentPage st) +:+ " of "
                    +:+ pretty (totalPages st)
             /\ prevDisabled st' = (currentPage st =? 1)
             /\ nextDisabled st' = (totalPages st <=? currentPage st)
             /\ match last docs with
                | Some lastDoc =>
                    cursorAt (pageCursors st') page = Some lastDoc
                    /\ forall j, j <> page ->
                         cursorAt (pageCursors st') j
                         = cursorAt (pageCursors st) j
                | None => pageCursors st' = pageCursors st
                end
         end).
Proof.
  intros Hpage. cbv zeta. unfold fetchTransactionsForPage, fetchBegin.
  split; [by intros ->|]. intros Hidle. rewrite Hidle.
  change (pageQuery (setFetching true st) page) with (pageQuery st page).
  split; [by destruct (fetchSettle_fields page (getDocs (pageQuery st page))
                         (setFetching true st))|].
  unfold fetchSettle.
  destruct (getDocs (pageQuery st page)) as [docs|];
    [|by apply setFetching_idle].
  destruct (last docs) as [lastDoc|]; cbn; repeat split; try done.
  - by apply PagerFacts.cursorAt_setCursor_eq.
  - intros j Hj. by apply PagerFacts.cursorAt_setCursor_ne.
Qed.

Lemma fetch_page_outcomes_witness :
  fetchTransactionsForPage (fun _ => None) 1
    {| transactions := []; currentPage := 1; totalPages := 1;
       isFetching := true; pageCursors := [None];
       currentFilter := {| filter_type := "all"; filter_category := None |};
       pageInfo := EmptyString; prevDisabled := true; nextDisabled := true |}
  = {| transactions := []; currentPage := 1; totalPages := 1;
       isFetching := true; pageCursors := [None];
       currentFilter := {| filter_type := "all"; filter_category := None |};
       pageInfo := EmptyString; prevDisabled := true; nextDisabled := true |}.
Proof.
  refine (proj1 (fetch_page_outcomes (fun _ => None) 1 _ _) _);
    [lia | reflexivity].
Defined.

(** X17.  A click on the next button while the fetch of an earlier click
    is under way moves the page number and sends no query.  When the
    earlier fetch then resolves, its documents, asked for the page before,
    are listed under the new page number. *)
Theorem click_while_fetching_skips_the_fetch
    (getDocs : Query -> option (list Doc)) (st : Pager) (docs : list Doc) :
  isFetching st = false ->
  currentPage st + 1 < totalPages st ->
  let page := currentPage st in
  let first := fetchBegin (page + 1) (setPage (page + 1) st) in
  let second := nextPageClick getDocs first.1 in
  let settled := fetchSettle (page + 1) (Some docs) second in
  first.2 = Some (pageQuery st (page + 1))
  /\ second = setPage (page + 2) first.1
  /\ isFetching second = true
  /\ transactions settled = docs
  /\ currentPage settled = page + 2
  /\ pageInfo settled
     = "Page " +:+ pretty (page + 2) +:+ " of " +:+ pretty (totalPages st)
  /\ isFetching settled = false.
Proof.
  intros Hidle Hpages. cbv zeta. unfold fetchBegin.
  cbn [setPage isFetching]. rewrite Hidle. cbn [fst snd].
  split; [done|].
  assert (Hsecond : nextPageClick getDocs
                      (setFetching true (setPage (currentPage st + 1) st))
                    = setPage (currentPage st + 2)
                        (setFetching true (setPage (currentPage st + 1) st))).
  { unfold nextPageClick. cbn [setFetching setPage currentPage totalPages].
    destruct (Z.ltb_spec (currentPage st + 1) (totalPages st)); [|lia].
    unfold fetchTransactionsForPage, fetchBegin. cbn.
    by replace (currentPage st + 1 + 1) with (currentPage st + 2) by lia. }
  rewrite Hsecond. split; [done|]. split; [done|].
  unfold fetchSettle. by destruct (last docs).
Qed.

Lemma click_while_fetching_skips_the_fetch_witness :
  currentPage
    (fetchSettle 2 (Some [])
       (nextPageClick (fun _ => Some [])
          (fetchBegin 2
             (setPage 2
                {| transactions := []; currentPage := 1; totalPages := 3;
                   isFetching := false; pageCursors := [None];
                   currentFilter := {| filter_type := "all";
                                       filter_category := None |};
                   pageInfo := EmptyString; prevDisabled := true;
                   nextDisabled := false |})).1))
  = 3.
Proof.
  refine (proj1 (proj2 (proj2 (proj2 (proj2
            (click_while_fetching_skips_the_fetch (fun _ => Some [])
               {| transactions := []; currentPage := 1; totalPages := 3;
                  isFetching := false; pageCursors := [None];
                  currentFilter := {| filter_type := "all";
                                      filter_category := None |};
                  pageInfo := EmptyString; prevDisabled := true;
                  nextDisabled := false |} [] _ _)))))); [reflexivity|].
  simpl. lia.
Defined.

(** ** Paging through a listing *)

Module ListingFacts.

Lemma afterDoc_lookup docs i d :
  NoDup (doc_id <$> docs) -> docs !! i = Some d ->
  afterDoc d docs = drop (S i) docs.
Proof.
  revert i. induction docs as [|a docs IH]; intros i Hnd Hi; [done|].
  rewrite fmap_cons in Hnd. apply NoDup_cons in Hnd as [Hnin Hnd].
  destruct i as [|i]; simpl in *.
  - injection Hi as ->. by rewrite String.eqb_refl.
  - destruct (String.eqb (doc_id a) (doc_id d)) eqn:E.
    + apply String.eqb_eq in E. destruct Hnin. rewrite E.
      apply list_elem_of_fmap. exists d. split; [done|].
      by apply list_elem_of_lookup_2 with i.
    + by apply IH.
Qed.

Lemma pages_of_length (n : nat) (p : Z) :
  1 <= p -> p < Z.max 1 ((Z.of_nat n + 9) / 10) -> (10 * Z.to_nat p < n)%nat.
Proof. intros H1 H2. Z.div_mod_to_equations. lia. Qed.

Lemma last_pageOf_full docs p :
  1 <= p -> (10 * Z.to_nat p <= length docs)%nat ->
  last (pageOf docs p) = docs !! (Z.to_nat (10 * p - 1)).
Proof.
  intros Hp Hlen. unfold pageOf. rewrite last_lookup.
  rewrite length_take, length_drop.
  replace (Init.Nat.pred (10 `min` (length docs - 10 * Z.to_nat (p - 1))))
    with 9%nat by lia.
  rewrite lookup_take_lt by lia. rewrite lookup_drop. f_equal. lia.
Qed.

Lemma last_pageOf_None docs p :
  1 <= p -> (10 * Z.to_nat (p - 1) < length docs)%nat ->
  last (pageOf docs p) <> None.
Proof.
  intros Hp Hlen. unfold pageOf. rewrite last_None.
  intros H%(f_equal length). rewrite length_take, length_drop in H.
  cbn [length] in H. lia.
Qed.

End ListingFacts.

Ltac pager_simpl :=
  cbn [setFetching setCursors setTransactions setPage setTotalPages
       updatePaginationUI isFetching currentFilter totalPages currentPage
       transactions pageCursors pageInfo prevDisabled nextDisabled].

Section Listing.

Variable getCountFromServer : list Constraint -> option Z.
Variable getDocs : Query -> option (list Doc).
Variable docs : list Doc.
Variable filter : Filter.

Hypothesis docs_NoDup : NoDup (doc_id <$> docs).
Hypothesis getDocs_serves : serves getDocs (buildQuery filter false) docs.

Lemma page_answer cursors p :
  1 <= p <= Z.max 1 ((Z.of_nat (length docs) + 9) / 10) ->
  cursorAt cursors 0 = None ->
  (p <> 1 -> cursorAt cursors (p - 1) = docs !! Z.to_nat (10 * (p - 1) - 1)) ->
  getDocs {| q_constraints := buildQuery filter false;
             q_startAfter := cursorAt cursors (p - 1);
             q_limit := TRANSACTIONS_PER_PAGE |}
  = Some (pageOf docs p).
Proof.
  intros Hp H0 Hcur. rewrite getDocs_serves. f_equal.
  unfold pageOf. change (Z.to_nat TRANSACTIONS_PER_PAGE) with 10%nat. f_equal.
  destruct (decide (p = 1)) as [-> | Hne].
  - change (1 - 1) with 0. by rewrite H0.
  - rewrite Hcur by done.
    assert (Hlen : (10 * Z.to_nat (p - 1) < length docs)%nat).
    { apply ListingFacts.pages_of_length; lia. }
    destruct (lookup_lt_is_Some_2 docs (Z.to_nat (10 * (p - 1) - 1)))
      as [d Hd]; [lia|].
    rewrite Hd. simpl.
    rewrite (ListingFacts.afterDoc_lookup _ _ _ docs_NoDup Hd).
    f_equal. lia.
Qed.

Lemma rebuildCursors_paged oldCursors turns i cursors :
  1 <= i ->
  i + Z.of_nat turns - 1 < Z.max 1 ((Z.of_nat (length docs) + 9) / 10) ->
  cursorAt oldCursors 0 = None ->
  (forall j, 1 <= j < i + Z.of_nat turns - 1 ->
     cursorAt oldCursors j = docs !! Z.to_nat (10 * j - 1)) ->
  cursorAt cursors 0 = None ->
  (forall j, 1 <= j < i -> cursorAt cursors j = docs !! Z.to_nat (10 * j - 1)) ->
  exists cursors',
    rebuildCursors getDocs (buildQuery filter false) oldCursors turns i cursors
    = (cursors', true)
    /\ cursorAt cursors' 0 = None
    /\ forall j, 1 <= j < i + Z.of_nat turns ->
         cursorAt cursors' j = docs !! Z.to_nat (10 * j - 1).
Proof.
  revert i cursors. induction turns as [|turns IH];
    intros i cursors Hi Hlast Hold0 Hold Hcur0 Hcur.
  - exists cursors. simpl. repeat split; try done. intros j Hj. apply Hcur. lia.
  - cbn [rebuildCursors].
    rewrite (page_answer oldCursors i); [|lia|done|intros; apply Hold; lia].
    assert (Hfull : (10 * Z.to_nat i < length docs)%nat)
      by (apply ListingFacts.pages_of_length; lia).
    rewrite ListingFacts.last_pageOf_full by lia.
    destruct (lookup_lt_is_Some_2 docs (Z.to_nat (10 * i - 1)))
      as [lastDoc Hd]; [lia|].
    rewrite Hd.
    destruct (IH (i + 1) (setCursor cursors i lastDoc)) as (cursors' & E & H0 & H).
    + lia.
    + lia.
    + done.
    + intros j Hj. apply Hold. lia.
    + rewrite PagerFacts.cursorAt_setCursor_ne by lia. done.
    + intros j Hj. destruct (decide (j = i)) as [-> | Hne].
      * by rewrite PagerFacts.cursorAt_setCursor_eq by lia.
      * rewrite PagerFacts.cursorAt_setCursor_ne by lia. apply Hcur. lia.
    + exists cursors'. split; [done|]. split; [done|].
      intros j Hj. apply H. lia.
Qed.

Lemma fetch_paged st :
  isFetching st = false ->
  currentFilter st = filter ->
  totalPages st = Z.max 1 ((Z.of_nat (length docs) + 9) / 10) ->
  1 <= currentPage st <= totalPages st ->
  cursorAt (pageCursors st) 0 = None ->
  (forall j, 1 <= j < currentPage st ->
     cursorAt (pageCursors st) j = docs !! Z.to_nat (10 * j - 1)) ->
  paged docs filter (fetchTransactionsForPage getDocs (currentPage st) st).
Proof.
  intros Hidle Hf Htotal Hp H0 Hcur.
  set (p := currentPage st) in *.
  assert (Hanswer : getDocs (pageQuery st p) = Some (pageOf docs p)).
  { unfold pageQuery. rewrite Hf. apply page_answer; [lia | done |].
    intros Hne. apply Hcur. lia. }
  unfold fetchTransactionsForPage, fetchBegin. rewrite Hidle.
  change (pageQuery (setFetching true st) p) with (pageQuery st p).
  rewrite Hanswer. unfold fetchSettle, paged.
  destruct (last (pageOf docs p)) as [lastDoc|] eqn:Hlast; pager_simpl.
  - fold p. repeat split; try done; try lia.
    + rewrite PagerFacts.cursorAt_setCursor_ne by lia. done.
    + intros j Hj Hjt. destruct (decide (j = p)) as [-> | Hne].
      * rewrite PagerFacts.cursorAt_setCursor_eq by lia.
        rewrite <- Hlast. apply ListingFacts.last_pageOf_full; [lia|].
        pose proof (ListingFacts.pages_of_length (length docs) p). lia.
      * rewrite PagerFacts.cursorAt_setCursor_ne by lia. apply Hcur. lia.
  - fold p. repeat split; try done; try lia.
    intros j Hj Hjt. destruct (decide (j = p)) as [-> | Hne].
    + exfalso. apply (ListingFacts.last_pageOf_None docs p); [lia| |done].
      pose proof (ListingFacts.pages_of_length (length docs) p). lia.
    + apply Hcur. lia.
Qed.

Lemma resetAndRefresh_paged st :
  isFetching st = false -> currentFilter st = filter ->
  getCountFromServer (buildQuery filter false)
  = Some (Z.of_nat (length docs)) ->
  paged docs filter (resetAndRefresh getCountFromServer getDocs st).
Proof.
  intros Hidle Hf Hcount. unfold resetAndRefresh, refreshData.
  assert (Ht : forall pages,
            updateTotalPages (Some (Z.of_nat (length docs))) pages
            = Z.max 1 ((Z.of_nat (length docs) + 9) / 10)).
  { intros pages. unfold updateTotalPages.
    rewrite Math_ceil_div_spec by done. unfold TRANSACTIONS_PER_PAGE.
    replace (Z.of_nat (length docs) + 10 - 1) with (Z.of_nat (length docs) + 9)
      by lia.
    destruct (Z.eqb_spec ((Z.of_nat (length docs) + 9) / 10) 0);
      Z.div_mod_to_equations; lia. }
  apply fetch_paged; pager_simpl; rewrite ?Hf, ?Hcount, ?Ht; try done; lia.
Qed.

Lemma click_paged st c :
  paged docs filter st -> paged docs filter (click getDocs st c).
Proof.
  intros (Hidle & Hf & Htotal & Hp & Htx & H0 & Hcur & Hinfo & Hprev & Hnext).
  destruct c; unfold click, nextPageClick, prevPageClick.
  - destruct (Z.ltb_spec (currentPage st) (totalPages st)) as [Hlt | Hge];
      [|done].
    apply fetch_paged; pager_simpl; try done; try lia.
    intros j Hj. apply Hcur; lia.
  - destruct (Z.ltb_spec 1 (currentPage st)) as [Hlt | Hge]; [|done].
    apply fetch_paged; pager_simpl; try done; try lia.
    intros j Hj. apply Hcur; lia.
Qed.

Lemma clicks_paged st clicks :
  paged docs filter st -> paged docs filter (foldl (click getDocs) st clicks).
Proof.
  revert st. induction clicks as [|c clicks IH]; intros st Hst; [done|].
  simpl. by apply IH, click_paged.
Qed.

End Listing.

(** X18.  While the server answers the page queries from one listing of
    documents with distinct ids, after a reset and any clicks on the two
    page buttons, each click made when the fetch before it has ended, the
    list shows the ten documents of the listing that belong to the current
    page (fewer on the last page), the page number is between 1 and the
    number of pages, and the page line and the two buttons agree with
    them. *)
Theorem paging_shows_the_page_of_its_number
    (getCountFromServer : list Constraint -> option Z)
    (getDocs : Query -> option (list Doc)) (docs : list Doc)
    (st : Pager) (clicks : list Click) :
  isFetching st = false ->
  NoDup (doc_id <$> docs) ->
  serves getDocs (buildQuery (currentFilter st) false) docs ->
  getCountFromServer (buildQuery (currentFilter st) false)
  = Some (Z.of_nat (length docs)) ->
  let final :=
    foldl (click getDocs) (resetAndRefresh getCountFromServer getDocs st)
      clicks in
  transactions final = pageOf docs (currentPage final)
  /\ totalPages final = Z.max 1 ((Z.of_nat (length docs) + 9) / 10)
  /\ 1 <= currentPage final <= totalPages final
  /\ isFetching final = false
  /\ pageInfo final = "Page " +:+ pretty (currentPage final) +:+ " of "
                        +:+ pretty (totalPages final)
  /\ prevDisabled final = (currentPage final =? 1)
  /\ nextDisabled final = (totalPages final <=? currentPage final)
  /\ (clicks = [] -> currentPage final = 1 /\ transactions final = take 10 docs).
Proof.
  intros Hidle Hnd Hserves Hcount. cbv zeta.
  pose proof (resetAndRefresh_paged getCountFromServer getDocs docs
                (currentFilter st) Hnd Hserves st Hidle eq_refl Hcount) as H0.
  destruct (clicks_paged getDocs docs (currentFilter st) Hnd Hserves _ clicks H0)
    as (Hi & _ & Htotal & Hp & Htx & _ & _ & Hinfo & Hprev & Hnext).
  do 7 (split; [first [done | lia]|]).
  intros ->. simpl in *.
  assert (Hone : currentPage (resetAndRefresh getCountFromServer getDocs st) = 1).
  { unfold resetAndRefresh, refreshData.
    match goal with
    | |- currentPage (fetchTransactionsForPage _ ?p ?s) = _ =>
        destruct (fetchTransactionsForPage_fields getDocs p s) as (-> & _)
    end.
    done. }
  split; [done|]. rewrite Htx, Hone. done.
Qed.

Lemma paging_shows_the_page_of_its_number_witness :
  let docs :=
    (fun i => {| doc_id := i;
                 doc_data := {| description := i; amount := 0%Qc;
                                date := 1709640000000; type := "income";
                                category := CatUndefined;
                                createdAt := 1709640000000 |} |})
      <$> ["a"; "b"; "c"; "d"; "e"; "f"; "g"; "h"; "i"; "j"; "k"; "l"] in
  let getDocs := fun q =>
    Some (take (Z.to_nat (q_limit q)) (afterCursor (q_startAfter q) docs)) in
  let st :=
    {| transactions := []; currentPage := 4; totalPages := 7;
       isFetching := false; pageCursors := [None];
       currentFilter := {| filter_type := "all"; filter_category := None |};
       pageInfo := EmptyString; prevDisabled := true; nextDisabled := false |} in
  let final :=
    foldl (click getDocs) (resetAndRefresh (fun _ => Some 12) getDocs st)
      [next_click] in
  NoDup (doc_id <$> docs)
  /\ serves getDocs (buildQuery (currentFilter st) false) docs
  /\ doc_id <$> transactions final = ["k"; "l"]
  /\ transactions final = pageOf docs (currentPage final).
Proof.
  intros docs getDocs st final.
  assert (Hnd : NoDup (doc_id <$> docs))
    by (apply (bool_decide_unpack _); vm_compute; reflexivity).
  assert (Hserves : serves getDocs (buildQuery (currentFilter st) false) docs)
    by (intros cursor; reflexivity).
  split; [exact Hnd|]. split; [exact Hserves|]. split; [reflexivity|].
  exact (proj1 (paging_shows_the_page_of_its_number (fun _ => Some 12) getDocs
                  docs st [next_click] eq_refl Hnd Hserves eq_refl)).
Defined.

(** X19.  When the list pages through a listing and a document of the
    current page or a later one is deleted, [deleteTransaction], once the
    deletion has resolved, leaves the list on the same page of the new
    listing, or on the page before when that page has become empty;
    it asks for every page before that one again and rebuilds the cursors,
    so that the list pages through the new listing. *)
Theorem delete_keeps_the_page
    (getCountFromServer : list Constraint -> option Z)
    (getDocs : Query -> option (list Doc)) (oldDocs : list Doc) (i : nat)
    (st : Pager) :
  paged oldDocs (currentFilter st) st ->
  NoDup (doc_id <$> oldDocs) ->
  (10 * Z.to_nat (currentPage st - 1) <= i < length oldDocs)%nat ->
  let docs := delete i oldDocs in
  serves getDocs (buildQuery (currentFilter st) false) docs ->
  getCountFromServer (buildQuery (currentFilter st) false)
  = Some (Z.of_nat (length docs)) ->
  let final := afterDelete getCountFromServer getDocs st in
  currentPage final
  = (if (1 <? currentPage st)
        && bool_decide (pageOf docs (currentPage st) = [])
     then currentPage st - 1 else currentPage st)
  /\ transactions final = pageOf docs (currentPage final)
  /\ 1 <= currentPage final <= totalPages final
  /\ totalPages final = Z.max 1 ((Z.of_nat (length docs) + 9) / 10)
  /\ paged docs (currentFilter st) final.
Proof.
  intros (Hidle & _ & Htotal & Hp & Htx & H0 & Hcur & _) Hnd Hi docs
    Hserves Hcount.
  assert (Hnd' : NoDup (doc_id <$> docs)).
  { unfold docs. rewrite list_fmap_delete.
    eapply sublist_NoDup; [exact Hnd | apply sublist_delete]. }
  assert (Hlen : length docs = (length oldDocs - 1)%nat).
  { apply length_delete, lookup_lt_is_Some_2. lia. }
  set (p := currentPage st) in *.
  set (T' := Z.max 1 ((Z.of_nat (length docs) + 9) / 10)).
  assert (Ht : forall pages,
            updateTotalPages (Some (Z.of_nat (length docs))) pages = T').
  { intros pages. unfold updateTotalPages, T'.
    rewrite Math_ceil_div_spec by done. unfold TRANSACTIONS_PER_PAGE.
    replace (Z.of_nat (length docs) + 10 - 1) with (Z.of_nat (length docs) + 9)
      by lia.
    destruct (Z.eqb_spec ((Z.of_nat (length docs) + 9) / 10) 0);
      Z.div_mod_to_equations; lia. }
  set (p' := if (1 <? p) && bool_decide (pageOf docs p = [])
             then p - 1 else p).
  assert (Hempty : pageOf docs p = [] <-> (length docs <= 10 * Z.to_nat (p - 1))%nat).
  { unfold pageOf. split.
    - intros H%(f_equal length). rewrite length_take, length_drop in H.
      cbn [length] in H. lia.
    - intros H. by rewrite drop_ge by lia. }
  assert (Hcond : (1 <? p) && (length (transactions st) =? 1)%nat && (T' <? p)
                  = (1 <? p) && bool_decide (pageOf docs p = [])).
  { rewrite Htx. unfold pageOf at 1. rewrite length_take, length_drop.
    destruct (Z.ltb_spec 1 p) as [H1 | H1]; [|done]. cbn [andb].
    destruct (bool_decide_reflect (pageOf docs p = [])) as [He | He];
      rewrite Hempty in He.
    - assert (length oldDocs = S (10 * Z.to_nat (p - 1))) as -> by lia.
      replace ((10 `min` (S (10 * Z.to_nat (p - 1)) - 10 * Z.to_nat (p - 1)))
               =? 1)%nat with true by (symmetry; apply Nat.eqb_eq; lia).
      cbn [andb]. apply Z.ltb_lt. unfold T'.
      Z.div_mod_to_equations. lia.
    - apply andb_false_iff. right. apply Z.ltb_ge. unfold T'.
      Z.div_mod_to_equations. lia. }
  assert (Hp' : 1 <= p' <= T').
  { unfold p'. destruct (Z.ltb_spec 1 p) as [H1 | H1]; cbn [andb].
    - destruct (bool_decide_reflect (pageOf docs p = [])) as [He | He];
        rewrite Hempty in He; unfold T'; Z.div_mod_to_equations; lia.
    - unfold T'. lia. }
  assert (Hold : forall j, 1 <= j < p' ->
            cursorAt (pageCursors st) j = docs !! Z.to_nat (10 * j - 1)).
  { intros j Hj.
    assert (p' <= p) by (unfold p'; destruct (_ && _); lia).
    rewrite Hcur by lia.
    unfold docs. rewrite list_lookup_delete_lt; [done|]. lia. }
  assert (Hold' : forall j, 1 <= j < 1 + Z.of_nat (Z.to_nat (p' - 1)) - 1 ->
            cursorAt (pageCursors st) j = docs !! Z.to_nat (10 * j - 1))
    by (intros j Hj; apply Hold; lia).
  assert (Hnew : forall j, 1 <= j < 1 ->
            cursorAt [None] j = docs !! Z.to_nat (10 * j - 1))
    by (intros j Hj; lia).
  destruct (rebuildCursors_paged getDocs docs (currentFilter st) Hnd' Hserves
              (pageCursors st) (Z.to_nat (p' - 1)) 1 [None]
              ltac:(lia) ltac:(fold T'; lia) H0 Hold' eq_refl Hnew)
    as (cursors & Hre & Hc0 & Hc).
  assert (Hfinal : afterDelete getCountFromServer getDocs st
                   = fetchTransactionsForPage getDocs p'
                       (setCursors cursors (setPage p' (setTotalPages T' st)))).
  { unfold afterDelete. rewrite Hcount, Ht. pager_simpl. fold p.
    rewrite Hcond. fold p'.
    assert (Hst2 : (if (1 <? p) && bool_decide (pageOf docs p = [])
                    then setPage (p - 1) (setTotalPages T' st)
                    else setTotalPages T' st)
                   = setPage p' (setTotalPages T' st)).
    { unfold p'. destruct (_ && _); [done|]. by destruct st. }
    rewrite Hst2. pager_simpl. rewrite Hre. done. }
  assert (Hpaged : paged docs (currentFilter st)
                     (afterDelete getCountFromServer getDocs st)).
  { rewrite Hfinal.
    apply (fetch_paged getDocs docs (currentFilter st) Hnd' Hserves
             (setCursors cursors (setPage p' (setTotalPages T' st))));
      pager_simpl; try done.
    intros j Hj. apply Hc. lia. }
  cbv zeta.
  pose proof Hpaged as (Hi' & Hf' & Ht' & Hp2 & Htx' & Hrest).
  assert (Hpage : currentPage (afterDelete getCountFromServer getDocs st) = p').
  { rewrite Hfinal.
    by destruct (fetchTransactionsForPage_fields getDocs p'
                   (setCursors cursors (setPage p' (setTotalPages T' st))))
      as (-> & _). }
  split; [exact Hpage|]. split; [exact Htx'|]. split; [lia|].
  split; [exact Ht'|]. exact Hpaged.
Qed.

Lemma delete_keeps_the_page_witness :
  let doc := fun i =>
    {| doc_id := i;
       doc_data := {| description := i; amount := 0%Qc;
                      date := 1709640000000; type := "income";
                      category := CatUndefined;
                      createdAt := 1709640000000 |} |} in
  let oldDocs :=
    doc <$> ["a"; "b"; "c"; "d"; "e"; "f"; "g"; "h"; "i"; "j"; "k"] in
  let server := fun (docs : list Doc) (q : Query) =>
    Some (take (Z.to_nat (q_limit q)) (afterCursor (q_startAfter q) docs)) in
  let st :=
    foldl (click (server oldDocs))
      (resetAndRefresh (fun _ => Some 11) (server oldDocs)
         {| transactions := []; currentPage := 1; totalPages := 1;
            isFetching := false; pageCursors := [None];
            currentFilter := {| filter_type := "all";
                                filter_category := None |};
            pageInfo := EmptyString; prevDisabled := true;
            nextDisabled := true |})
      [next_click] in
  let final := afterDelete (fun _ => Some 10) (server (delete 10%nat oldDocs)) st in
  doc_id <$> transactions st = ["k"]
  /\ currentPage st = 2
  /\ currentPage final = 1
  /\ doc_id <$> transactions final
     = ["a"; "b"; "c"; "d"; "e"; "f"; "g"; "h"; "i"; "j"].
Proof.
  intros doc oldDocs server st final.
  assert (Hnd : NoDup (doc_id <$> oldDocs))
    by (apply (bool_decide_unpack _); vm_compute; reflexivity).
  assert (Hserves : serves (server oldDocs)
                      (buildQuery {| filter_type := "all";
                                     filter_category := None |} false) oldDocs)
    by (intros cursor; reflexivity).
  assert (Hpaged : paged oldDocs (currentFilter st) st).
  { apply (clicks_paged (server oldDocs) oldDocs _ Hnd Hserves).
    by apply (resetAndRefresh_paged (fun _ => Some 11) (server oldDocs) oldDocs
                _ Hnd Hserves). }
  assert (Hi : (10 * Z.to_nat (currentPage st - 1) <= 10 < length oldDocs)%nat)
    by (vm_compute; lia).
  assert (Hserves' : serves (server (delete 10%nat oldDocs))
                       (buildQuery (currentFilter st) false)
                       (delete 10%nat oldDocs))
    by (intros cursor; reflexivity).
  destruct (delete_keeps_the_page (fun _ => Some 10)
              (server (delete 10%nat oldDocs)) oldDocs 10 st
              Hpaged Hnd Hi Hserves' eq_refl) as (Hpage & Htx & _).
  split; [reflexivity|]. split; [reflexivity|].
  split; [exact Hpage|].
  fold final in Htx. rewrite Htx. reflexivity.
Defined.

(** ** The monthly and the yearly walk *)

Module WalkFacts.

Import Calendar.

(** The keys of a walk whose dates are known. *)
Lemma seedKeys_walk aggregationType end_ (cur : nat -> Z) (turns fuel : nat) :
  (forall k, (seedStep aggregationType (cur k)).2 = cur (S k)) ->
  (forall k, (k < turns)%nat -> cur k <= end_) ->
  end_ < cur turns ->
  inclusiveDays (cur 0%nat) end_ <= Z.of_nat fuel ->
  seedKeys fuel aggregationType end_ (cur 0%nat)
  = (fun k => toISODate (seedStep aggregationType (cur k)).1) <$> seq 0 turns.
Proof.
  revert cur fuel. induction turns as [|turns IH]; intros cur fuel Hstep Hle Hgt Hf.
  - destruct fuel as [|fuel]; [done|]. simpl.
    by destruct (Z.leb_spec (cur 0%nat) end_); [lia|].
  - pose proof (Hle 0%nat ltac:(lia)) as H0.
    assert (Hd : Day (cur 0%nat) <= Day end_)
      by (unfold Day, msPerDay; Z.div_mod_to_equations; lia).
    unfold inclusiveDays in Hf.
    destruct fuel as [|fuel]; [lia|]. simpl.
    destruct (Z.leb_spec (cur 0%nat) end_); [|lia].
    f_equal. rewrite Hstep.
    rewrite (IH (fun k => cur (S k))).
    + by rewrite <- fmap_S_seq, <- list_fmap_compose.
    + intros k. apply Hstep.
    + intros k Hk. apply Hle. lia.
    + done.
    + pose proof (Seeding.seedStep_advances aggregationType (cur 0%nat)) as Ha.
      rewrite Hstep in Ha. unfold inclusiveDays. lia.
Qed.

Lemma noon_le s e :
  s = Day s * msPerDay + noon -> e = Day e * msPerDay + noon ->
  s <= e <-> Day s <= Day e.
Proof. intros Hs He. unfold msPerDay in *. lia. Qed.

(** *** Months *)

Lemma MakeDay_index y m d : MakeDay y m d = MakeDay 0 (12 * y + m) d.
Proof.
  unfold MakeDay.
  replace (0 + (12 * y + m) / 12) with (y + m / 12) by div_lia.
  replace ((12 * y + m) mod 12) with (m mod 12) by div_lia.
  done.
Qed.

Lemma Day_monthIndex t : Day t = MakeDay 0 (monthIndex t) (DateFromTime t).
Proof.
  unfold monthIndex. rewrite <- MakeDay_index.
  pose proof (MakeDay_of_time t 0) as E. by rewrite !Z.add_0_r in E.
Qed.

Lemma monthIndex_mono t1 t2 : Day t1 <= Day t2 -> monthIndex t1 <= monthIndex t2.
Proof.
  intros Hd. unfold monthIndex.
  pose proof (MonthFromTime_range t1). pose proof (MonthFromTime_range t2).
  destruct (Z.eq_dec (Day t1) (Day t2)) as [E | Hne].
  - unfold MonthFromTime, DayWithinYear, InLeapYear, YearFromTime. rewrite E. lia.
  - destruct (ISOOrder.civil_lt t1 t2) as [? | [? ?]]; lia.
Qed.

(** The date of day [d] in the month of index [n]. *)
Lemma civil_of_index n d time :
  1 <= d <= 28 -> 0 <= time < msPerDay ->
  let t := MakeDate (MakeDay 0 n d) time in
  monthIndex t = n /\ DateFromTime t = d /\ TimeWithinDay t = time
  /\ Day t = MakeDay 0 n d.
Proof.
  intros Hd Htime t.
  assert (E : MakeDay 0 n d = MakeDay (n / 12) (n mod 12) d).
  { rewrite (MakeDay_index (n / 12)). f_equal. div_lia. }
  pose proof (PeriodFacts.DaysInMonth_ge_28 (n / 12) (n mod 12 + 1)).
  destruct (PeriodFacts.civil_of_MakeDay (n / 12) (n mod 12) d time)
    as (Hy & Hm & Hdt & Ht); [div_lia | lia | done |].
  unfold t. rewrite E. unfold monthIndex. rewrite Hy, Hm, Hdt, Ht.
  repeat split; try done; [div_lia|].
  by apply Day_MakeDate.
Qed.

Lemma monthly_step n d time :
  1 <= d <= 28 -> 0 <= time < msPerDay ->
  (seedStep monthly (MakeDate (MakeDay 0 n d) time)).2
  = MakeDate (MakeDay 0 (n + 1) d) time.
Proof.
  intros Hd Htime.
  pose proof (civil_of_index n d time Hd Htime) as H. cbv zeta in H.
  destruct H as (Hn & Hdt & Ht & _).
  generalize dependent (MakeDate (MakeDay 0 n d) time). intros t Hn Hdt Ht.
  change ((seedStep monthly t).2) with (setUTCMonth t (getUTCMonth t + 1)).
  unfold setUTCMonth, getUTCMonth.
  rewrite Hdt, Ht. f_equal. rewrite MakeDay_index. f_equal.
  unfold monthIndex in Hn. lia.
Qed.

Lemma MakeDay_index_mono n1 n2 d :
  n1 <= n2 -> MakeDay 0 n1 d <= MakeDay 0 n2 d.
Proof.
  intros H. replace n2 with (n1 + Z.of_nat (Z.to_nat (n2 - n1))) by lia.
  induction (Z.to_nat (n2 - n1)) as [|k IH].
  - replace (n1 + Z.of_nat 0) with n1 by lia. lia.
  - pose proof (Seeding.MakeDay_month_succ 0 (n1 + Z.of_nat k) d).
    replace (n1 + Z.of_nat (S k)) with (n1 + Z.of_nat k + 1) by lia. lia.
Qed.

Lemma MakeDay_date_mono n d1 d2 : d1 <= d2 -> MakeDay 0 n d1 <= MakeDay 0 n d2.
Proof. unfold MakeDay. lia. Qed.

(** The monthly walk from a date whose day of the month is 28 at most and
    not after the day of the month of [e] reaches the month of [e]. *)
Lemma monthly_seedKeys s e :
  s = Day s * msPerDay + noon -> e = Day e * msPerDay + noon ->
  Day s <= Day e ->
  DateFromTime s <= 28 -> DateFromTime s <= DateFromTime e ->
  seedKeys (seedFuel s e) monthly e s
  = (fun k => toISODate
                (getStartOfMonth
                   (MakeDate (MakeDay 0 (monthIndex s + Z.of_nat k)
                                (DateFromTime s)) noon)))
      <$> seq 0 (Z.to_nat (monthIndex e - monthIndex s + 1)).
Proof.
  intros Hs He Hle Hd28 Hde.
  pose proof (DateFromTime_le_31 s) as Hd1.
  assert (Hnoon : 0 <= noon < msPerDay) by (unfold noon, msPerDay; lia).
  pose proof (monthIndex_mono s e Hle) as Hidx.
  set (d := DateFromTime s) in *. set (n := monthIndex s) in *.
  set (cur := fun k : nat => MakeDate (MakeDay 0 (n + Z.of_nat k) d) noon).
  assert (Hcur0 : cur 0%nat = s).
  { unfold cur. replace (n + Z.of_nat 0) with n by lia.
    unfold n, d. rewrite <- Day_monthIndex. unfold MakeDate. lia. }
  rewrite <- Hcur0 at 2.
  rewrite (seedKeys_walk monthly e cur (Z.to_nat (monthIndex e - n + 1))).
  - done.
  - intros k. unfold cur. rewrite monthly_step by (done || lia).
    f_equal. f_equal. lia.
  - intros k Hk. unfold cur.
    destruct (civil_of_index (n + Z.of_nat k) d noon) as (_ & _ & _ & Hday);
      [lia | done |].
    set (t := MakeDate _ _) in *.
    assert (Ht : t = Day t * msPerDay + noon) by (rewrite Hday; done).
    apply (noon_le t e Ht He). rewrite Hday, (Day_monthIndex e).
    etrans; [apply (MakeDay_index_mono _ (monthIndex e)); lia|].
    by apply MakeDay_date_mono.
  - unfold cur.
    destruct (civil_of_index (n + Z.of_nat (Z.to_nat (monthIndex e - n + 1)))
                d noon) as (Hi & _ & _ & Hday); [lia | done |].
    set (t := MakeDate _ _) in *.
    apply Seeding.later_day_later_time.
    destruct (Z.lt_ge_cases (Day e) (Day t)) as [? | Hge]; [done|].
    apply monthIndex_mono in Hge. lia.
  - rewrite Hcur0. unfold seedFuel, inclusiveDays. lia.
Qed.

End WalkFacts.

Module MonthlyFacts.

Import Calendar WalkFacts.

Lemma getStartOfMonth_index t1 t2 :
  monthIndex t1 = monthIndex t2 -> getStartOfMonth t1 = getStartOfMonth t2.
Proof.
  unfold monthIndex, getStartOfMonth, getUTCFullYear, getUTCMonth. intros H.
  pose proof (MonthFromTime_range t1). pose proof (MonthFromTime_range t2).
  assert (YearFromTime t1 = YearFromTime t2) as -> by lia.
  assert (MonthFromTime t1 = MonthFromTime t2) as -> by lia.
  done.
Qed.

Lemma monthly_dom data startDateStr endDateStr s e :
  createTimezoneSafeDate startDateStr = Some s ->
  createTimezoneSafeDate endDateStr = Some e ->
  180 < inclusiveDays s e <= 730 ->
  DateFromTime s <= 28 -> DateFromTime s <= DateFromTime e ->
  dom (groupData data startDateStr endDateStr).2
  = list_to_set
      ((fun k => toISODate
                   (getStartOfMonth
                      (MakeDate (MakeDay 0 (monthIndex s + Z.of_nat k)
                                   (DateFromTime s)) noon)))
         <$> seq 0 (Z.to_nat (monthIndex e - monthIndex s + 1))).
Proof.
  intros Hs He Hn Hd28 Hde. rewrite ChartFacts.groupData_dom.
  rewrite (ChartFacts.groupData_eq [] _ _ _ _ Hs He),
    ChartFacts.selectAggregation_days.
  repeat match goal with
         | |- context [?a <? ?b] => destruct (Z.ltb_spec a b); try lia
         end.
  cbn [snd fold_left].
  rewrite monthly_seedKeys;
    [apply Seeding.dom_seeded
    | eauto using ChartFacts.createTimezoneSafeDate_noon..
    | unfold inclusiveDays in Hn; lia | done | done].
Qed.

Lemma monthly_key_seeded s e t :
  DateFromTime s <= 28 ->
  Day s <= Day t <= Day e ->
  toISODate (getStartOfMonth t)
  ∈ (fun k => toISODate
                (getStartOfMonth
                   (MakeDate (MakeDay 0 (monthIndex s + Z.of_nat k)
                                (DateFromTime s)) noon)))
      <$> seq 0 (Z.to_nat (monthIndex e - monthIndex s + 1)).
Proof.
  intros Hd28 [Hst Hte].
  pose proof (monthIndex_mono s t Hst). pose proof (monthIndex_mono t e Hte).
  pose proof (DateFromTime_le_31 s).
  apply list_elem_of_fmap. exists (Z.to_nat (monthIndex t - monthIndex s)).
  split; [|apply elem_of_seq; lia].
  f_equal. apply getStartOfMonth_index.
  destruct (civil_of_index
              (monthIndex s + Z.of_nat (Z.to_nat (monthIndex t - monthIndex s)))
              (DateFromTime s) noon) as (-> & _);
    [lia | unfold noon, msPerDay; lia | lia].
Qed.

End MonthlyFacts.

(** X20.  With monthly granularity (181 to 730 days), when the start date
    is on the 28th of its month at the latest and its day of the month is
    not after that of the end date, every month from that of the start
    date to that of the end date has a bucket, so that every transaction
    dated from the start day to the end day has its bucket and passes the
    guard [if (groupedData[keyString])]. *)
Theorem monthly_range_is_covered data startDateStr endDateStr s e :
  createTimezoneSafeDate startDateStr = Some s ->
  createTimezoneSafeDate endDateStr = Some e ->
  180 < inclusiveDays s e <= 730 ->
  getUTCDate s <= 28 ->
  getUTCDate s <= getUTCDate e ->
  (groupData data startDateStr endDateStr).1 = monthly
  /\ (forall t, Day s <= Day t <= Day e ->
        toISODate (getStartOfMonth t)
          ∈ dom (groupData data startDateStr endDateStr).2)
  /\ (forall t : Transaction, Day s <= Day (date t) <= Day e ->
        transactionKey monthly t
          ∈ dom (groupData data startDateStr endDateStr).2).
Proof.
  intros Hs He Hn Hd28 Hde. unfold getUTCDate in *.
  assert (Hdom : forall t, Day s <= Day t <= Day e ->
            toISODate (getStartOfMonth t)
              ∈ dom (groupData data startDateStr endDateStr).2).
  { intros t Ht.
    rewrite (MonthlyFacts.monthly_dom _ _ _ _ _ Hs He Hn Hd28 Hde).
    apply elem_of_list_to_set. by apply MonthlyFacts.monthly_key_seeded. }
  split; [|split; [exact Hdom|]].
  - rewrite (ChartFacts.groupData_aggregation _ _ _ _ _ Hs He),
      ChartFacts.selectAggregation_days.
    repeat match goal with
           | |- context [?a <? ?b] => destruct (Z.ltb_spec a b); try lia
           end.
    done.
  - intros t Ht. unfold transactionKey. by apply Hdom.
Qed.

Lemma monthly_range_is_covered_witness :
  let t :=
    {| description := "invoice"; amount := Qc_of_Z 100;
       date := 1703073600000; type := "income";
       category := CatString "work"; createdAt := 1703073600000 |} in
  createTimezoneSafeDate "2023-01-15" = Some 1673784000000
  /\ createTimezoneSafeDate "2023-12-20" = Some 1703073600000
  /\ 180 < inclusiveDays 1673784000000 1703073600000 <= 730
  /\ getUTCDate 1673784000000 <= 28
  /\ getUTCDate 1673784000000 <= getUTCDate 1703073600000
  /\ Day 1673784000000 <= Day (date t) <= Day 1703073600000
  /\ transactionKey monthly t = "2023-12-01"
  /\ "2023-12-01" ∈ dom (groupData [t] "2023-01-15" "2023-12-20").2.
Proof.
  cbv zeta.
  assert (Hn : 180 < inclusiveDays 1673784000000 1703073600000 <= 730)
    by (vm_compute; split; [reflexivity | discriminate]).
  assert (H28 : getUTCDate 1673784000000 <= 28) by (vm_compute; discriminate).
  assert (Hde : getUTCDate 1673784000000 <= getUTCDate 1703073600000)
    by (vm_compute; discriminate).
  match goal with
  | |- _ /\ _ /\ _ /\ _ /\ _ /\ (_ <= Day (date ?t) <= _) /\ _ => set (tx := t)
  end.
  assert (Hd : Day 1673784000000 <= Day (date tx) <= Day 1703073600000)
    by (vm_compute; split; discriminate).
  assert (Hk : transactionKey monthly tx = "2023-12-01")
    by (vm_compute; reflexivity).
  repeat (split; [first [reflexivity | assumption]|]).
  rewrite <- Hk.
  exact (proj2 (proj2 (monthly_range_is_covered [tx] "2023-01-15"
                         "2023-12-20" 1673784000000 1703073600000
                         eq_refl eq_refl Hn H28 Hde)) tx Hd).
Defined.

Module YearlyFacts.

Import Calendar WalkFacts.

Lemma DaysInMonth_other_year y y' m d :
  m <> 2 \/ d <= 28 -> d <= DaysInMonth y m -> d <= DaysInMonth y' m.
Proof.
  intros [Hm | Hd] H.
  - unfold DaysInMonth in *. destruct (Z.eqb_spec m 2); [done | exact H].
  - pose proof (PeriodFacts.DaysInMonth_ge_28 y' m). lia.
Qed.

Lemma yearly_step y m d time :
  0 <= m <= 11 -> 1 <= d <= DaysInMonth y (m + 1) -> 0 <= time < msPerDay ->
  (seedStep yearly (MakeDate (MakeDay y m d) time)).2
  = MakeDate (MakeDay (y + 1) m d) time.
Proof.
  intros Hm Hd Htime.
  destruct (PeriodFacts.civil_of_MakeDay y m d time Hm Hd Htime)
    as (Hy & Hmt & Hdt & Ht).
  cbn [seedStep snd]. unfold setUTCFullYear, getUTCFullYear.
  by rewrite Hy, Hmt, Hdt, Ht.
Qed.

(** The yearly walk from a date that is not a 29th of February and not
    later in its year than [e] in its own reaches the year of [e]. *)
Lemma yearly_seedKeys s e :
  s = Day s * msPerDay + noon -> e = Day e * msPerDay + noon ->
  Day s <= Day e ->
  MonthFromTime s <> 1 \/ DateFromTime s <= 28 ->
  MonthFromTime s < MonthFromTime e
  \/ (MonthFromTime s = MonthFromTime e /\ DateFromTime s <= DateFromTime e) ->
  seedKeys (seedFuel s e) yearly e s
  = (fun k => toISODate
                (getStartOfYear
                   (MakeDate (MakeDay (YearFromTime s + Z.of_nat k)
                                (MonthFromTime s) (DateFromTime s)) noon)))
      <$> seq 0 (Z.to_nat (YearFromTime e - YearFromTime s + 1)).
Proof.
  intros Hs He Hle Hfeb Hlex.
  pose proof (DateFromTime_range s) as Hd. pose proof (MonthFromTime_range s) as Hm.
  assert (Hnoon : 0 <= noon < msPerDay) by (unfold noon, msPerDay; lia).
  pose proof (YearFromDay_mono _ _ Hle) as Hy.
  change (YearFromTime s <= YearFromTime e) in Hy.
  pose proof (MakeDay_of_time s 0) as Es. rewrite !Z.add_0_r in Es.
  remember (DateFromTime s) as d eqn:Ed.
  remember (MonthFromTime s) as m eqn:Em.
  remember (YearFromTime s) as y eqn:Ey.
  remember (YearFromTime e) as ye eqn:Eye.
  assert (Hvalid : forall y', 1 <= d <= DaysInMonth y' (m + 1)).
  { intros y'. split; [lia|].
    apply (DaysInMonth_other_year y); [|lia].
    destruct Hfeb; [left; lia | by right]. }
  assert (Hcivil : forall k : nat,
            let t := MakeDate (MakeDay (y + Z.of_nat k) m d) noon in
            YearFromTime t = y + Z.of_nat k /\ MonthFromTime t = m
            /\ DateFromTime t = d /\ t = Day t * msPerDay + noon).
  { intros k t.
    destruct (PeriodFacts.civil_of_MakeDay (y + Z.of_nat k) m d noon)
      as (Hyt & Hmt & Hdt & _); [lia | done | done |].
    repeat split; try done.
    unfold t. rewrite Day_MakeDate by done. done. }
  cbv zeta in Hcivil.
  assert (Hcur0 : MakeDate (MakeDay (y + Z.of_nat 0) m d) noon = s).
  { replace (y + Z.of_nat 0) with y by lia. rewrite Es. unfold MakeDate. lia. }
  rewrite <- Hcur0 at 2.
  rewrite (seedKeys_walk yearly e
             (fun k : nat => MakeDate (MakeDay (y + Z.of_nat k) m d) noon)
             (Z.to_nat (ye - y + 1))).
  - done.
  - intros k. rewrite yearly_step by (done || lia).
    f_equal. f_equal. lia.
  - intros k Hk. destruct (Hcivil k) as (Hyt & Hmt & Hdt & Ht).
    generalize dependent (MakeDate (MakeDay (y + Z.of_nat k) m d) noon).
    intros t Hyt Hmt Hdt Ht.
    apply (noon_le t e Ht He).
    destruct (Z.le_gt_cases (Day t) (Day e)) as [? | Hgt]; [done|].
    destruct (ISOOrder.civil_lt e t ltac:(lia)) as [? | [? ?]]; lia.
  - destruct (Hcivil (Z.to_nat (ye - y + 1))) as (Hyt & _).
    generalize dependent
      (MakeDate (MakeDay (y + Z.of_nat (Z.to_nat (ye - y + 1))) m d) noon).
    intros t Hyt.
    apply Seeding.later_day_later_time.
    destruct (Z.lt_ge_cases (Day e) (Day t)) as [? | Hge]; [done|].
    apply YearFromDay_mono in Hge.
    change (YearFromTime t <= YearFromTime e) in Hge. lia.
  - rewrite Hcur0. unfold seedFuel, inclusiveDays. lia.
Qed.

Lemma yearly_dom data startDateStr endDateStr s e :
  createTimezoneSafeDate startDateStr = Some s ->
  createTimezoneSafeDate endDateStr = Some e ->
  730 < inclusiveDays s e ->
  MonthFromTime s <> 1 \/ DateFromTime s <= 28 ->
  MonthFromTime s < MonthFromTime e
  \/ (MonthFromTime s = MonthFromTime e /\ DateFromTime s <= DateFromTime e) ->
  dom (groupData data startDateStr endDateStr).2
  = list_to_set
      ((fun k => toISODate
                   (getStartOfYear
                      (MakeDate (MakeDay (YearFromTime s + Z.of_nat k)
                                   (MonthFromTime s) (DateFromTime s)) noon)))
         <$> seq 0 (Z.to_nat (YearFromTime e - YearFromTime s + 1))).
Proof.
  intros Hs He Hn Hfeb Hlex. rewrite ChartFacts.groupData_dom.
  rewrite (ChartFacts.groupData_eq [] _ _ _ _ Hs He),
    ChartFacts.selectAggregation_days.
  repeat match goal with
         | |- context [?a <? ?b] => destruct (Z.ltb_spec a b); try lia
         end.
  cbn [snd fold_left].
  rewrite yearly_seedKeys;
    [apply Seeding.dom_seeded
    | eauto using ChartFacts.createTimezoneSafeDate_noon..
    | unfold inclusiveDays in Hn; lia | done | done].
Qed.

Lemma yearly_key_seeded s e t :
  MonthFromTime s <> 1 \/ DateFromTime s <= 28 ->
  Day s <= Day t <= Day e ->
  toISODate (getStartOfYear t)
  ∈ (fun k => toISODate
                (getStartOfYear
                   (MakeDate (MakeDay (YearFromTime s + Z.of_nat k)
                                (MonthFromTime s) (DateFromTime s)) noon)))
      <$> seq 0 (Z.to_nat (YearFromTime e - YearFromTime s + 1)).
Proof.
  intros Hfeb [Hst Hte].
  pose proof (YearFromDay_mono _ _ Hst) as H1.
  pose proof (YearFromDay_mono _ _ Hte) as H2.
  fold (YearFromTime s) in H1. fold (YearFromTime t) in H1, H2.
  fold (YearFromTime e) in H2.
  pose proof (DateFromTime_range s) as Hd. pose proof (MonthFromTime_range s) as Hm.
  apply list_elem_of_fmap. exists (Z.to_nat (YearFromTime t - YearFromTime s)).
  split; [|apply elem_of_seq; lia].
  f_equal. unfold getStartOfYear, getUTCFullYear. f_equal.
  destruct (PeriodFacts.civil_of_MakeDay
              (YearFromTime s + Z.of_nat (Z.to_nat (YearFromTime t - YearFromTime s)))
              (MonthFromTime s) (DateFromTime s) noon) as (-> & _);
    [lia | | unfold noon, msPerDay; lia | lia].
  split; [lia|]. apply (DaysInMonth_other_year (YearFromTime s)); [|lia].
  destruct Hfeb; [left; lia | by right].
Qed.

End YearlyFacts.

(** X21.  With yearly granularity (more than 730 days), when the start
    date is not a 29th of February and is not later in its year than the
    end date in its own, every year from that of the start date to that of
    the end date has a bucket, so that every transaction dated from the
    start day to the end day has its bucket and passes the guard
    [if (groupedData[keyString])]. *)
Theorem yearly_range_is_covered data startDateStr endDateStr s e :
  createTimezoneSafeDate startDateStr = Some s ->
  createTimezoneSafeDate endDateStr = Some e ->
  730 < inclusiveDays s e ->
  getUTCMonth s <> 1 \/ getUTCDate s <= 28 ->
  getUTCMonth s < getUTCMonth e
  \/ (getUTCMonth s = getUTCMonth e /\ getUTCDate s <= getUTCDate e) ->
  (groupData data startDateStr endDateStr).1 = yearly
  /\ (forall t, Day s <= Day t <= Day e ->
        toISODate (getStartOfYear t)
          ∈ dom (groupData data startDateStr endDateStr).2)
  /\ (forall t : Transaction, Day s <= Day (date t) <= Day e ->
        transactionKey yearly t
          ∈ dom (groupData data startDateStr endDateStr).2).
Proof.
  intros Hs He Hn Hfeb Hlex. unfold getUTCDate, getUTCMonth in *.
  assert (Hdom : forall t, Day s <= Day t <= Day e ->
            toISODate (getStartOfYear t)
              ∈ dom (groupData data startDateStr endDateStr).2).
  { intros t Ht.
    rewrite (YearlyFacts.yearly_dom _ _ _ _ _ Hs He Hn Hfeb Hlex).
    apply elem_of_list_to_set. by apply YearlyFacts.yearly_key_seeded. }
  split; [|split; [exact Hdom|]].
  - rewrite (ChartFacts.groupData_aggregation _ _ _ _ _ Hs He),
      ChartFacts.selectAggregation_days.
    repeat match goal with
           | |- context [?a <? ?b] => destruct (Z.ltb_spec a b); try lia
           end.
    done.
  - intros t Ht. unfold transactionKey. by apply Hdom.
Qed.

Lemma yearly_range_is_covered_witness :
  let t :=
    {| description := "rent"; amount := Qc_of_Z 900;
       date := 1703073600000; type := "expense";
       category := CatString "office"; createdAt := 1703073600000 |} in
  createTimezoneSafeDate "2021-03-10" = Some 1615377600000
  /\ createTimezoneSafeDate "2023-12-20" = Some 1703073600000
  /\ 730 < inclusiveDays 1615377600000 1703073600000
  /\ (getUTCMonth 1615377600000 <> 1 \/ getUTCDate 1615377600000 <= 28)
  /\ (getUTCMonth 1615377600000 < getUTCMonth 1703073600000
      \/ (getUTCMonth 1615377600000 = getUTCMonth 1703073600000
          /\ getUTCDate 1615377600000 <= getUTCDate 1703073600000))
  /\ Day 1615377600000 <= Day (date t) <= Day 1703073600000
  /\ transactionKey yearly t = "2023-01-01"
  /\ "2023-01-01" ∈ dom (groupData [t] "2021-03-10" "2023-12-20").2.
Proof.
  cbv zeta.
  assert (Hn : 730 < inclusiveDays 1615377600000 1703073600000)
    by (vm_compute; reflexivity).
  assert (Hfeb : getUTCMonth 1615377600000 <> 1
                 \/ getUTCDate 1615377600000 <= 28)
    by (right; vm_compute; discriminate).
  assert (Hlex : getUTCMonth 1615377600000 < getUTCMonth 1703073600000
                 \/ (getUTCMonth 1615377600000 = getUTCMonth 1703073600000
                     /\ getUTCDate 1615377600000 <= getUTCDate 1703073600000))
    by (left; vm_compute; reflexivity).
  match goal with
  | |- _ /\ _ /\ _ /\ _ /\ _ /\ (_ <= Day (date ?t) <= _) /\ _ => set (tx := t)
  end.
  assert (Hd : Day 1615377600000 <= Day (date tx) <= Day 1703073600000)
    by (vm_compute; split; discriminate).
  assert (Hk : transactionKey yearly tx = "2023-01-01")
    by (vm_compute; reflexivity).
  repeat (split; [first [reflexivity | assumption]|]).
  rewrite <- Hk.
  exact (proj2 (proj2 (yearly_range_is_covered [tx] "2021-03-10"
                         "2023-12-20" 1615377600000 1703073600000
                         eq_refl eq_refl Hn Hfeb Hlex)) tx Hd).
Defined.

(** ** The keys are date strings *)

Module KeyFacts.

Import Calendar.

(** Every key of the walk is the key of a date between the start of the
    walk and [end]. *)
Lemma seedKeys_elem fuel aggregationType end_ currentDate k :
  k ∈ seedKeys fuel aggregationType end_ currentDate ->
  exists c, Day currentDate <= Day c /\ c <= end_
            /\ k = toISODate (seedStep aggregationType c).1.
Proof.
  revert currentDate. induction fuel as [|fuel IH]; intros cur; simpl;
    [by intros ?%elem_of_nil|].
  destruct (Z.leb_spec cur end_) as [Hle | Hgt]; [|by intros ?%elem_of_nil].
  intros [-> | Hin]%elem_of_cons.
  - exists cur. split; [lia | done].
  - destruct (IH _ Hin) as (c & Hc & Hce & ->).
    pose proof (Seeding.seedStep_advances aggregationType cur).
    exists c. split; [lia | done].
Qed.

Lemma utcYear_range y : 0 <= y <= 9999 -> 0 <= utcYear y <= 9999.
Proof.
  intros H. unfold utcYear.
  destruct (Z.leb_spec 0 y), (Z.leb_spec y 99); simpl; lia.
Qed.

Lemma keyDate_year aggregationType s e c :
  0 <= YearFromTime s -> YearFromTime e <= 9999 ->
  Day s <= Day c <= Day e ->
  -999999 <= YearFromTime (seedStep aggregationType c).1 <= 999999.
Proof.
  intros Hs He Hc.
  pose proof (YearFromDay_mono (Day s) (Day c) ltac:(lia)) as H1.
  pose proof (YearFromDay_mono (Day c) (Day e) ltac:(lia)) as H2.
  change (YearFromTime s <= YearFromTime c) in H1.
  change (YearFromTime c <= YearFromTime e) in H2.
  pose proof (utcYear_range (YearFromTime c) ltac:(lia)) as Hu.
  pose proof (MonthFromTime_range c) as Hm.
  destruct aggregationType; cbn [seedStep fst].
  - lia.
  - apply (year_near_range s e); [done..|].
    rewrite PeriodFacts.Day_getStartOfWeek.
    pose proof (PeriodFacts.WeekDay_range c). lia.
  - unfold getStartOfMonth, getUTCFullYear, getUTCMonth.
    destruct (PeriodFacts.civil_of_UTC (YearFromTime c) (MonthFromTime c) Hm)
      as (-> & _). lia.
  - unfold getStartOfQuarter, getUTCFullYear, getUTCMonth.
    destruct (PeriodFacts.civil_of_UTC (YearFromTime c)
                (MonthFromTime c / 3 * 3) ltac:(div_lia)) as (-> & _). lia.
  - unfold getStartOfYear, getUTCFullYear.
    destruct (PeriodFacts.civil_of_UTC (YearFromTime c) 0 ltac:(lia))
      as (-> & _). lia.
Qed.

End KeyFacts.

(** X22.  For a range given by two ten-character date strings, every key
    of the chart is a date string that [createTimezoneSafeDate] reads back
    as the noon of the day it names: no label or tooltip is made from an
    invalid date, and the label of a yearly bucket is the number of its
    year. *)
Theorem chart_keys_are_dates
    (toLocaleDateString : option Z -> LocaleOptions -> string)
    data startDateStr endDateStr s e key :
  String.length startDateStr = 10%nat ->
  String.length endDateStr = 10%nat ->
  createTimezoneSafeDate startDateStr = Some s ->
  createTimezoneSafeDate endDateStr = Some e ->
  key ∈ sortedKeysOf (groupData data startDateStr endDateStr).2 ->
  exists t,
    createTimezoneSafeDate key = Some t
    /\ toISODate t = key
    /\ TimeWithinDay t = noon
    /\ labelOf toLocaleDateString yearly key = LNum (Some (YearFromTime t)).
Proof.
  intros Hls Hle Hs He Hkey.
  destruct (DateStrings.createTimezoneSafeDate_spec _ _ Hs) as (Hns & _ & Hys).
  destruct (DateStrings.createTimezoneSafeDate_spec _ _ He) as (Hne & _ & Hye).
  specialize (Hys Hls). specialize (Hye Hle).
  apply Buckets.sortedKeysOf_elem in Hkey.
  rewrite ChartFacts.groupData_dom in Hkey.
  rewrite (ChartFacts.groupData_eq [] _ _ _ _ Hs He) in Hkey.
  cbn [snd fold_left] in Hkey.
  rewrite Seeding.dom_seeded, elem_of_list_to_set in Hkey.
  apply KeyFacts.seedKeys_elem in Hkey as (c & Hsc & Hce & ->).
  set (agg := selectAggregation _).
  assert (Hc : Day s <= Day c <= Day e).
  { split; [done|]. unfold Day, msPerDay. Z.div_mod_to_equations. lia. }
  pose proof (KeyFacts.keyDate_year agg s e c ltac:(lia) ltac:(lia) Hc) as Hy.
  set (kd := (seedStep agg c).1) in *.
  exists (Day kd * msPerDay + noon).
  assert (Hday : Day (Day kd * msPerDay + noon) = Day kd).
  { unfold Day, msPerDay, noon. Z.div_mod_to_equations. lia. }
  assert (Hparse : createTimezoneSafeDate (toISODate kd)
                   = Some (Day kd * msPerDay + noon))
    by (by apply DateStrings.createTimezoneSafeDate_toISODate).
  split; [exact Hparse|]. split; [by apply toISODate_Day|]. split.
  - unfold TimeWithinDay, msPerDay, noon. Z.div_mod_to_equations. lia.
  - unfold labelOf, pushLabel. by rewrite Hparse.
Qed.

Lemma chart_keys_are_dates_witness :
  exists t,
    createTimezoneSafeDate "2023-12-31" = Some t
    /\ toISODate t = "2023-12-31".
Proof.
  assert (Hkey : "2023-12-31"
                 ∈ sortedKeysOf (groupData [] "2024-01-03" "2024-02-19").2)
    by (vm_compute; left).
  destruct (chart_keys_are_dates (fun _ _ => EmptyString) []
              "2024-01-03" "2024-02-19" 1704283200000 1708344000000
              "2023-12-31" eq_refl eq_refl eq_refl eq_refl Hkey)
    as (t & H1 & H2 & _).
  exists t. by split.
Defined.

(** ** The preset periods *)

Module PresetFacts.

Import Calendar.

Lemma pretty_pad2 n : 10 <= n <= 99 -> pretty n = pad2 n.
Proof.
  intros Hn.
  assert (H : forallb (fun n => String.eqb (pretty n) (pad2 n)) (seqZ 10 90) = true)
    by (vm_compute; reflexivity).
  rewrite forallb_forall in H. apply String.eqb_eq, H.
  apply list_elem_of_In, elem_of_seqZ. lia.
Qed.

Lemma padStart2_pretty n : 0 <= n <= 99 -> padStart2 (pretty n) = pad2 n.
Proof.
  intros Hn.
  assert (H : forallb (fun n => String.eqb (padStart2 (pretty n)) (pad2 n))
                (seqZ 0 100) = true)
    by (vm_compute; reflexivity).
  rewrite forallb_forall in H. apply String.eqb_eq, H.
  apply list_elem_of_In, elem_of_seqZ. lia.
Qed.

Lemma pretty_pad4 y : 1000 <= y <= 9999 -> pretty y = pad4 y.
Proof.
  intros Hy.
  assert (H : forallb (fun y => String.eqb (pretty y) (pad4 y)) (seqZ 1000 9000)
              = true)
    by (vm_compute; reflexivity).
  rewrite forallb_forall in H. apply String.eqb_eq, H.
  apply list_elem_of_In, elem_of_seqZ. lia.
Qed.

End PresetFacts.

Section FixedOffset.

Import Calendar.

Variable LocalTZA : Z -> bool -> Z.
Variable tz : Z.
Hypothesis fixed_offset : forall t b, LocalTZA t b = tz.

Lemma getTodayDateString_fixed now :
  1000 <= YearFromTime (now + tz) <= 9999 ->
  getTodayDateString LocalTZA now = toISODate (now + tz).
Proof.
  intros Hy. unfold getTodayDateString, getFullYear, getMonth, getDate, LocalTime.
  rewrite fixed_offset. cbv zeta.
  pose proof (MonthFromTime_range (now + tz)).
  pose proof (DateFromTime_le_31 (now + tz)).
  rewrite PresetFacts.pretty_pad4 by done.
  rewrite !PresetFacts.padStart2_pretty by lia.
  unfold toISODate, yearString.
  replace ((0 <=? YearFromTime (now + tz)) && (YearFromTime (now + tz) <=? 9999))
    with true by (symmetry; apply andb_true_iff; lia).
  done.
Qed.

Lemma getDateStringDaysAgo_fixed now days :
  getDateStringDaysAgo LocalTZA now days = toISODate (now - days * msPerDay).
Proof.
  unfold getDateStringDaysAgo, setDate, getDate, LocalTime, UTCOfLocal.
  cbv zeta. rewrite !fixed_offset. f_equal.
  replace (DateFromTime (now + tz) - days) with (DateFromTime (now + tz) + - days)
    by lia.
  rewrite MakeDay_of_time.
  pose proof (time_decompose (now + tz)) as E. unfold MakeDate in *. lia.
Qed.

End FixedOffset.

(** X23.  In a time zone with a fixed offset, the preset period of [days]
    days ends on the local date of the instant at which
    [getTodayDateString] is called and starts on the UTC date [days - 1]
    days before the instant at which [getDateStringDaysAgo] is called.
    The range holds [days] days when the two calendars agree on the date,
    and otherwise one day less or one day more. *)
Theorem preset_period_days (LocalTZA : Z -> bool -> Z) (tz now now' days : Z) :
  (forall t b, LocalTZA t b = tz) ->
  1000 <= YearFromTime (now + tz) <= 9999 ->
  0 <= YearFromTime (now' - (days - 1) * msPerDay) <= 9999 ->
  let endDateStr := getTodayDateString LocalTZA now in
  let startDateStr := getDateStringDaysAgo LocalTZA now' (days - 1) in
  endDateStr = toISODate (now + tz)
  /\ startDateStr = toISODate (now' - (days - 1) * msPerDay)
  /\ exists s e,
       createTimezoneSafeDate startDateStr = Some s
       /\ createTimezoneSafeDate endDateStr = Some e
       /\ inclusiveDays s e = days + (Day (now + tz) - Day now')
       /\ (Day (now + tz) = Day now' -> inclusiveDays s e = days)
       /\ (now' = now -> - msPerDay <= tz <= msPerDay ->
           days - 1 <= inclusiveDays s e <= days + 1).
Proof.
  intros Htz Hy Hy'. cbv zeta.
  rewrite (getTodayDateString_fixed LocalTZA tz Htz now Hy).
  rewrite (getDateStringDaysAgo_fixed LocalTZA tz Htz).
  split; [done|]. split; [done|].
  rewrite !DateStrings.createTimezoneSafeDate_toISODate by lia.
  eexists _, _. split; [done|]. split; [done|].
  assert (Hn : inclusiveDays
                 (Day (now' - (days - 1) * msPerDay) * msPerDay + noon)
                 (Day (now + tz) * msPerDay + noon)
               = days + (Day (now + tz) - Day now')).
  { replace (now' - (days - 1) * msPerDay) with (now' + - (days - 1) * msPerDay)
      by lia.
    rewrite Seeding.Day_shift. unfold inclusiveDays.
    replace (Day (Day (now + tz) * msPerDay + noon)) with (Day (now + tz))
      by (unfold Day, msPerDay, noon; Z.div_mod_to_equations; lia).
    replace (Day ((Day now' + - (days - 1)) * msPerDay + noon))
      with (Day now' + - (days - 1))
      by (unfold Day, msPerDay, noon; Z.div_mod_to_equations; lia).
    lia. }
  rewrite Hn. split; [done|]. split; [lia|].
  intros -> Hrange. unfold Day, msPerDay in *. Z.div_mod_to_equations. lia.
Qed.

Lemma preset_period_days_witness :
  getTodayDateString (fun _ _ => -28800000) 1704513600000 = "2024-01-05"
  /\ getDateStringDaysAgo (fun _ _ => -28800000) 1704513600000 (7 - 1)
     = "2023-12-31".
Proof.
  assert (Hy : 1000 <= YearFromTime (1704513600000 + -28800000) <= 9999)
    by (vm_compute; split; discriminate).
  assert (Hy' : 0 <= YearFromTime (1704513600000 - (7 - 1) * msPerDay) <= 9999)
    by (vm_compute; split; discriminate).
  destruct (preset_period_days (fun _ _ => -28800000) (-28800000)
              1704513600000 1704513600000 7 (fun _ _ => eq_refl) Hy Hy')
    as (H1 & H2 & _).
  split; [rewrite H1 | rewrite H2]; reflexivity.
Defined.

(** ** A month that the monthly walk passes over *)

Module SkipFacts.

Import Calendar WalkFacts.

Lemma MakeDay_next_month n d :
  MakeDay 0 (n + 1) d = MakeDay 0 n d + daysOfMonth n.
Proof.
  unfold MakeDay, daysOfMonth, DaysInMonth.
  assert (Hm : 0 <= n mod 12 < 12) by div_lia.
  destruct (Z.eq_dec (n mod 12) 11) as [E | NE].
  - replace ((n + 1) / 12) with (n / 12 + 1) by div_lia.
    replace ((n + 1) mod 12) with 0 by div_lia.
    rewrite E, Z.add_assoc, DayFromYear_succ.
    replace (0 + n / 12) with (n / 12) by lia.
    destruct (DaysInYear_cases (n / 12)) as [-> | ->];
      unfold DaysBeforeMonth; simpl; lia.
  - replace ((n + 1) / 12) with (n / 12) by div_lia.
    replace ((n + 1) mod 12) with (n mod 12 + 1) by div_lia.
    replace (0 + n / 12) with (n / 12) by lia.
    generalize (n mod 12) Hm NE. intros k Hk Hk'.
    assert (Ek : k = 0 \/ k = 1 \/ k = 2 \/ k = 3 \/ k = 4 \/ k = 5 \/ k = 6
                 \/ k = 7 \/ k = 8 \/ k = 9 \/ k = 10) by lia.
    destruct (DaysInYear_cases (n / 12)) as [-> | ->];
      repeat destruct Ek as [-> | Ek]; try subst k;
      unfold DaysBeforeMonth; simpl; lia.
Qed.

(** When the day of the month of [cur] is past the end of the next month,
    the step of the walk lands in the month after it. *)
Lemma monthly_step_skips cur :
  daysOfMonth (monthIndex cur + 1) < DateFromTime cur ->
  monthIndex cur + 2 <= monthIndex (seedStep monthly cur).2.
Proof.
  intros Hd. cbn [seedStep snd]. unfold getUTCMonth.
  set (nxt := setUTCMonth cur (MonthFromTime cur + 1)).
  assert (Hday : Day nxt = MakeDay 0 (monthIndex cur + 1) (DateFromTime cur)).
  { unfold nxt. rewrite Seeding.Day_setUTCMonth, MakeDay_index.
    f_equal. unfold monthIndex. lia. }
  destruct (civil_of_index (monthIndex cur + 2) 1 0) as (Hi & _ & _ & Hfirst);
    [lia | unfold msPerDay; lia |].
  rewrite <- Hi. apply monthIndex_mono. rewrite Hfirst, Hday.
  replace (monthIndex cur + 2) with (monthIndex cur + 1 + 1) by lia.
  rewrite MakeDay_next_month. unfold MakeDay. lia.
Qed.

Lemma Day_year u v : Day u = Day v -> YearFromTime u = YearFromTime v.
Proof. intros H. unfold YearFromTime. by rewrite H. Qed.

Lemma Day_month u v : Day u = Day v -> MonthFromTime u = MonthFromTime v.
Proof.
  intros H. unfold MonthFromTime, DayWithinYear, InLeapYear, YearFromTime.
  by rewrite H.
Qed.

Lemma getStartOfMonth_year c :
  100 <= YearFromTime c -> YearFromTime (getStartOfMonth c) = YearFromTime c.
Proof.
  intros Hc. pose proof (MonthFromTime_range c) as Hmc.
  pose proof (PeriodFacts.civil_of_UTC (YearFromTime c) (MonthFromTime c) Hmc)
    as Hu. cbv zeta in Hu. destruct Hu as (Hu & _).
  change (getStartOfMonth c) with (UTC (YearFromTime c) (MonthFromTime c) 1).
  rewrite Hu. unfold utcYear.
  destruct (Z.leb_spec 0 (YearFromTime c)), (Z.leb_spec (YearFromTime c) 99);
    simpl; lia.
Qed.

Lemma getStartOfMonth_month c :
  MonthFromTime (getStartOfMonth c) = MonthFromTime c.
Proof.
  pose proof (MonthFromTime_range c) as Hmc.
  pose proof (PeriodFacts.civil_of_UTC (YearFromTime c) (MonthFromTime c) Hmc)
    as Hu. cbv zeta in Hu. by destruct Hu as (_ & Hu & _).
Qed.

(** With years of four digits, from 100 on, the key tells the month. *)
Lemma monthly_key_inj c t :
  100 <= YearFromTime c <= 9999 -> 100 <= YearFromTime t <= 9999 ->
  toISODate (getStartOfMonth c) = toISODate (getStartOfMonth t) ->
  monthIndex c = monthIndex t.
Proof.
  intros Hc Ht Hkey.
  pose proof (getStartOfMonth_year c ltac:(lia)) as Hyc.
  pose proof (getStartOfMonth_year t ltac:(lia)) as Hyt.
  pose proof (getStartOfMonth_month c) as Hmc.
  pose proof (getStartOfMonth_month t) as Hmt.
  assert (Hday : Day (getStartOfMonth c) = Day (getStartOfMonth t)).
  { apply DateStrings.toISODate_inj; [lia | lia | done]. }
  pose proof (Day_year _ _ Hday). pose proof (Day_month _ _ Hday).
  unfold monthIndex. lia.
Qed.

(** The keys of the monthly walk: that of the start, and those of dates
    not before the date that the first step reaches. *)
Lemma monthly_keys fuel e s k :
  k ∈ seedKeys (S fuel) monthly e s ->
  k = toISODate (getStartOfMonth s)
  \/ exists c, Day (seedStep monthly s).2 <= Day c /\ c <= e
               /\ k = toISODate (getStartOfMonth c).
Proof.
  cbn [seedKeys]. destruct (s <=? e); [|by intros ?%elem_of_nil].
  intros [-> | Hin]%elem_of_cons; [by left | right].
  apply KeyFacts.seedKeys_elem in Hin as (c & Hc & Hce & ->). by exists c.
Qed.

End SkipFacts.

(** X24.  With monthly granularity, when the day of the month of the start
    date is past the end of the following month (a start on the 31st
    before a month of 30 days, or on the 29th to the 31st of January), the
    walk passes over that month: it has no bucket, and a transaction dated
    in it is in no bucket of the chart. *)
Theorem monthly_walk_skips_short_month data startDateStr endDateStr s e t :
  String.length startDateStr = 10%nat ->
  String.length endDateStr = 10%nat ->
  createTimezoneSafeDate startDateStr = Some s ->
  createTimezoneSafeDate endDateStr = Some e ->
  180 < inclusiveDays s e <= 730 ->
  100 <= getUTCFullYear s ->
  daysOfMonth (monthIndex s + 1) < getUTCDate s ->
  monthIndex t = monthIndex s + 1 ->
  (toISODate (getStartOfMonth t)
     ∉ dom (groupData data startDateStr endDateStr).2)
  /\ (groupData data startDateStr endDateStr).2 !! toISODate (getStartOfMonth t)
     = None.
Proof.
  intros Hls Hle Hs He Hn Hy100 Hd Ht. unfold getUTCFullYear, getUTCDate in *.
  destruct (DateStrings.createTimezoneSafeDate_spec _ _ Hs) as (Hns & _ & Hys).
  destruct (DateStrings.createTimezoneSafeDate_spec _ _ He) as (Hne & _ & Hye).
  specialize (Hys Hls). specialize (Hye Hle).
  assert (Hse : Day s <= Day e) by (unfold inclusiveDays in Hn; lia).
  pose proof (Calendar.YearFromDay_mono _ _ Hse) as Hyse.
  change (YearFromTime s <= YearFromTime e) in Hyse.
  assert (Hnot : toISODate (getStartOfMonth t)
                 ∉ dom (groupData data startDateStr endDateStr).2).
  { rewrite ChartFacts.groupData_dom.
    rewrite (ChartFacts.groupData_eq [] _ _ _ _ Hs He),
      ChartFacts.selectAggregation_days.
    repeat match goal with
           | |- context [?a <? ?b] => destruct (Z.ltb_spec a b); try lia
           end.
    cbn [snd fold_left].
    rewrite Seeding.dom_seeded, elem_of_list_to_set.
    unfold seedFuel.
    destruct (Z.to_nat (Day e - Day s + 1)) as [|fuel] eqn:Ef;
      [unfold inclusiveDays in Hn; lia|].
    pose proof (Calendar.MonthFromTime_range t) as Hmt.
    pose proof (Calendar.MonthFromTime_range s) as Hms.
    assert (Hyt : 100 <= YearFromTime t <= 9999).
    { split; [unfold monthIndex in Ht; lia|].
      destruct (Z.le_gt_cases (YearFromTime t) 9999) as [? | Hbig]; [done|].
      (* the month after December 9999 is out of reach *)
      exfalso.
      assert (Hidx : monthIndex s = 119999) by (unfold monthIndex in *; lia).
      pose proof (WalkFacts.Day_monthIndex s) as Hds. rewrite Hidx in Hds.
      pose proof (Calendar.DateFromTime_le_31 s) as Hd31.
      pose proof (Calendar.YearFromDay_spec (Day e)) as [_ Hlt].
      change (YearFromDay (Day e)) with (YearFromTime e) in Hlt.
      pose proof (Calendar.DayFromYear_mono (YearFromTime e + 1) 10000
                    ltac:(lia)) as Hmono.
      assert (H1 : DayFromYear 10000 = 2932897) by reflexivity.
      assert (H2 : forall d, MakeDay 0 119999 d = 2932866 + d - 1)
        by (intros d; reflexivity).
      rewrite H2 in Hds. unfold inclusiveDays in Hn. lia. }
    intros [Hkey | (c & Hc & Hce & Hkey)]%SkipFacts.monthly_keys.
    - apply SkipFacts.monthly_key_inj in Hkey; lia.
    - assert (Hidx : monthIndex s + 2 <= monthIndex c).
      { pose proof (SkipFacts.monthly_step_skips s Hd) as Hskip.
        pose proof (WalkFacts.monthIndex_mono _ _ Hc) as Hmono. lia. }
      clear Hc.
      assert (Hcd : Day c <= Day e)
        by (unfold Day, msPerDay; Z.div_mod_to_equations; lia).
      pose proof (Calendar.YearFromDay_mono _ _ Hcd) as Hyce.
      change (YearFromTime c <= YearFromTime e) in Hyce.
      pose proof (Calendar.MonthFromTime_range c) as Hmc.
      assert (Hyc : YearFromTime s <= YearFromTime c)
        by (unfold monthIndex in Hidx; lia).
      apply SkipFacts.monthly_key_inj in Hkey; [|lia..]. lia. }
  split; [exact Hnot|]. by apply not_elem_of_dom.
Qed.

Lemma monthly_walk_skips_short_month_witness :
  createTimezoneSafeDate "2023-01-31" = Some 1675166400000
  /\ createTimezoneSafeDate "2023-12-20" = Some 1703073600000
  /\ createTimezoneSafeDate "2023-02-15" = Some 1676462400000
  /\ toISODate (getStartOfMonth 1676462400000) = "2023-02-01"
  /\ sortedKeysOf (groupData [] "2023-01-31" "2023-12-20").2
     = ["2023-01-01"; "2023-03-01"; "2023-04-01"; "2023-05-01"; "2023-06-01";
        "2023-07-01"; "2023-08-01"; "2023-09-01"; "2023-10-01"; "2023-11-01";
        "2023-12-01"]
  /\ (groupData [] "2023-01-31" "2023-12-20").2
       !! toISODate (getStartOfMonth 1676462400000) = None.
Proof.
  assert (Hn : 180 < inclusiveDays 1675166400000 1703073600000 <= 730)
    by (vm_compute; split; [reflexivity | discriminate]).
  assert (Hy : 100 <= getUTCFullYear 1675166400000) by (vm_compute; discriminate).
  assert (Hd : daysOfMonth (monthIndex 1675166400000 + 1)
               < getUTCDate 1675166400000) by (vm_compute; reflexivity).
  assert (Ht : monthIndex 1676462400000 = monthIndex 1675166400000 + 1)
    by (vm_compute; reflexivity).
  split; [reflexivity|]. split; [reflexivity|]. split; [reflexivity|].
  split; [vm_compute; reflexivity|]. split; [vm_compute; reflexivity|].
  exact (proj2 (monthly_walk_skips_short_month [] "2023-01-31" "2023-12-20"
                  1675166400000 1703073600000 1676462400000
                  eq_refl eq_refl eq_refl eq_refl Hn Hy Hd Ht)).
Defined.


